(** * novelapp: the credit-metered generation pipeline

    A shallow embedding of the cost estimator ([src/predictions.py]), the
    credit ledger and overdraft guard ([src/helpers.py]), the per-user
    generation lock and the dispatch endpoints ([src/api/generation.py]) and
    the Celery workers ([src/tasks.py]).

    Python floats are IEEE binary64 numbers: they are modelled by Rocq's
    primitive floats, so every arithmetic step below rounds exactly as the
    interpreter does.  Python exceptions are values of [exn]; code that can
    raise lives in the error monad [res], code that also touches the
    database session, the lock store or the task queue lives in [M].

    What is outside the embedding: the tokenizer, the JSON parser, the
    prompt templates and the model provider are parameters ([Env], [World]);
    a prompt template is a total function of the rows it is rendered from;
    the database keeps what it is given (column types and constraints are
    not enforced, timestamps are left out) and its queries and commits do
    not fail; the lock store does not fail and its keys do not expire. *)

From Stdlib Require Import ZArith Floats String List Bool Lia.
From stdpp Require Import gmap strings list pretty.

Set Default Proof Using "Type".
#[local] Set Warnings "-inexact-float,-register-all,-clear-no-such-hyp".
Open Scope Z_scope.

(** ** Exceptions and the error monad *)

Inductive exn_class :=
| AttributeError | TypeError | ValueError | ZeroDivisionError
| OverflowError | IndexError | NameError | Exception_.

Record exn := Exn { exn_cls : exn_class; exn_msg : string }.

Inductive res (A : Type) :=
| Ok (a : A)
| Raise (e : exn).
Arguments Ok {A} a.
Arguments Raise {A} e.

#[global] Instance res_ret : MRet res := fun A a => Ok a.
#[global] Instance res_bind : MBind res := fun A B k r =>
  match r with Ok a => k a | Raise e => Raise e end.

(** [o.attr] on an object that may be [None]. *)
Definition get_attr {A} (o : option A) (attr : string) : res A :=
  match o with
  | Some a => Ok a
  | None => Raise (Exn AttributeError
              ("'NoneType' object has no attribute '" ++ attr ++ "'"))
  end.

(** ** Python numbers *)

Module Py.

(** Nearest integer to [n / d] for [d > 0], ties to the even neighbour. *)
Definition rnd_half_even (n d : Z) : Z :=
  let q := n / d in
  match 2 * (n mod d) ?= d with
  | Lt => q
  | Gt => q + 1
  | Eq => if Z.even q then q else q + 1
  end.

(** Nearest integer (ties to even) to [m * 2^e * c]. *)
Definition scaled_round (m : positive) (e c : Z) : Z :=
  if 0 <=? e then Zpos m * 2 ^ e * c
  else rnd_half_even (Zpos m * c) (2 ^ (- e)).

(** [round(x)] of a float: an [int], rounding the exact value half to even;
    NaN and the infinities raise. *)
Definition round (x : float) : res Z :=
  match Prim2SF x with
  | S754_nan =>
      Raise (Exn ValueError "cannot convert float NaN to integer")
  | S754_infinity _ =>
      Raise (Exn OverflowError "cannot convert float infinity to integer")
  | S754_zero _ => Ok 0
  | S754_finite s m e => Ok (cond_Zopp s (scaled_round m e 1))
  end.

(** [round(x, 2)]: the float nearest to the exact value of [x] rounded half
    to even at two decimals; NaN, infinities and zeros round to themselves. *)
Definition round2 (x : float) : float :=
  match Prim2SF x with
  | S754_finite s m e =>
      match scaled_round m e 100 with
      | Zpos k =>
          SF2Prim (SFdiv prec emax (S754_finite s k 0) (S754_finite false 100 0))
      | _ => if s then neg_zero else zero
      end
  | _ => x
  end.

(** [float(z)] for an [int]: nearest float, [OverflowError] beyond the range. *)
Definition float_of_int (z : Z) : res float :=
  let f := SF2Prim (binary_normalize prec emax z 0 false) in
  if is_infinity f
  then Raise (Exn OverflowError "int too large to convert to float")
  else Ok f.

(** [x / y] on floats. *)
Definition truediv (x y : float) : res float :=
  if is_zero y then Raise (Exn ZeroDivisionError "float division by zero")
  else Ok (x / y)%float.

(** A Python number: an [int] or a [float]. *)
Inductive number :=
| NInt (z : Z)
| NFloat (f : float).

Definition to_float (a : number) : res float :=
  match a with NInt z => float_of_int z | NFloat f => Ok f end.

(** [a * b]: exact on two ints, float multiplication otherwise. *)
Definition mul (a b : number) : res number :=
  match a, b with
  | NInt x, NInt y => Ok (NInt (x * y))
  | _, _ => x ← to_float a; y ← to_float b; Ok (NFloat (x * y)%float)
  end.

(** [a - b]. *)
Definition sub (a b : number) : res number :=
  match a, b with
  | NInt x, NInt y => Ok (NInt (x - y))
  | _, _ => x ← to_float a; y ← to_float b; Ok (NFloat (x - y)%float)
  end.

(** [round(a)]: an int is its own rounding. *)
Definition round_number (a : number) : res Z :=
  match a with NInt z => Ok z | NFloat f => round f end.

(** The exact value of a number, for Python's mixed comparisons (which
    compare an int with a float without rounding either). *)
Inductive exact :=
| XNaN
| XInf (negative : bool)
| XFin (m e : Z).  (* m * 2^e *)

Definition exact_of (a : number) : exact :=
  match a with
  | NInt z => XFin z 0
  | NFloat f =>
      match Prim2SF f with
      | S754_nan => XNaN
      | S754_infinity s => XInf s
      | S754_zero _ => XFin 0 0
      | S754_finite s m e => XFin (cond_Zopp s (Zpos m)) e
      end
  end.

Definition compare_fin (m1 e1 m2 e2 : Z) : comparison :=
  let e := Z.min e1 e2 in
  (m1 * 2 ^ (e1 - e)) ?= (m2 * 2 ^ (e2 - e)).

(** [a <= b]; any comparison with NaN is false. *)
Definition le (a b : number) : bool :=
  match exact_of a, exact_of b with
  | XNaN, _ | _, XNaN => false
  | XInf true, _ => true
  | _, XInf false => true
  | XInf false, _ => false
  | _, XInf true => false
  | XFin m1 e1, XFin m2 e2 =>
      match compare_fin m1 e1 m2 e2 with Gt => false | _ => true end
  end.

(** [a >= b]. *)
Definition ge (a b : number) : bool := le b a.

End Py.

Export Py(number, NInt, NFloat).

(** ** JSON values, as [json.loads] builds them *)

Inductive json :=
| JNull
| JBool (b : bool)
| JNum (n : number)
| JStr (s : string)
| JArr (items : list json)
| JObj (fields : list (string * json)).

(** ** The relational data model ([src/models]) *)

Record TokenCostConfig := {
  cost_per_credit : float;
  cost_per_1m_input : float;
  cost_per_1m_output : float;
  o1_cost_per_credit : float;
  o1_cost_per_1m_input : float;
  o1_cost_per_1m_output : float;
  dall_e_price_per_image : float
}.

Record CreditConfig := {
  config_type : string;
  action : string;
  modifier : float
}.

Record User := {
  text_credits : number;
  image_credits : number;
  audio_credits : number
}.

Record Story := {
  st_id : Z;
  chapters_count : Z;
  cover_image_prompt : option string;
  cover_image_key : option string
}.

Record Chapter := {
  ch_id : Z;
  chapter_story : Z;
  chapter_number : Z;
  title : json;
  summary : json;
  content : option string;
  chapter_image_key : option string;
  chapter_image_prompt : option string
}.

Record Character := {
  character_story : Z;
  character_name : json;
  character_description : json;
  example_dialogue : json
}.

Record Location := {
  location_story : Z;
  location_name : json;
  location_description : json
}.

Record StoryArc := {
  arc_story : Z;
  arc_text : json;
  arc_order : Z
}.

Record ChapterGuide := {
  guide_story : Z;
  chapter_title : string;
  part_index : json;
  part_text : json;
  guide_characters : json;
  guide_locations : json
}.

Record GenerationLog := {
  user_id : Z;
  task_id : string;
  generation_type : string;
  predicted_cost : option number;
  real_cost : option number;
  status : string;
  error_message : option string;
  model : option string;
  input_tokens : Z;
  output_tokens : Z
}.

(** The tables.  [generation_logs] is kept in primary-key order (a row's id
    is its position), [token_cost_configs] and [credit_configs] in the order
    [query.first()] scans them. *)
Record Db := {
  users : gmap Z User;
  stories : gmap Z Story;
  chapters : list Chapter;
  characters : list Character;
  locations : list Location;
  story_arcs : list StoryArc;
  chapter_guides : list ChapterGuide;
  generation_logs : list GenerationLog;
  token_cost_configs : list TokenCostConfig;
  credit_configs : list CreditConfig
}.

(** ** The cost estimator ([src/predictions.py]) *)

Record ImageCost := {
  ic_base_credit_cost : float;
  ic_modifier : number;
  total_credit_cost : number
}.

Record Prediction := {
  p_input_tokens : Z;
  predicted_output_tokens : Z;
  p_input_tokens_per_credit : float;
  p_output_tokens_per_credit : float;
  p_base_credit_cost_input : Z;
  p_modified_credit_cost_input : Z;
  p_base_credit_cost_output : Z;
  p_modified_credit_cost_output : Z;
  total_predicted_credit_cost : Z
}.

Record ActualCost := {
  a_input_tokens : Z;
  a_output_tokens : Z;
  a_model : string;
  a_input_tokens_per_credit : float;
  a_output_tokens_per_credit : float;
  a_base_credit_cost_input : Z;
  a_modified_credit_cost_input : Z;
  a_base_credit_cost_output : Z;
  a_modified_credit_cost_output : Z;
  total_actual_credit_cost : Z
}.

(** [TokenCostConfig.query.first()] *)
Definition token_cost_config_first (db : Db) : option TokenCostConfig :=
  head (token_cost_configs db).

(** [CreditConfig.query.filter_by(action=a).first()] *)
Definition credit_config_first (db : Db) (a : string) : option CreditConfig :=
  head (filter (fun c => action c = a) (credit_configs db)).

(** [config.modifier if config else 2] *)
Definition modifier_or_2 (config : option CreditConfig) : number :=
  match config with
  | Some c => NFloat (modifier c)
  | None => NInt 2
  end.

(** [round((credit_cost_dollar * 1_000_000) / cost_per_million, 2)] *)
Definition tokens_per_credit (credit_cost_dollar cost_per_million : float)
  : res float :=
  q ← Py.truediv (credit_cost_dollar * 1000000)%float cost_per_million;
  Ok (Py.round2 q).

(** [round(token_count / tokens_per_credit)] *)
Definition round_tokens (token_count : Z) (per_credit : float) : res Z :=
  t ← Py.float_of_int token_count;
  q ← Py.truediv t per_credit;
  Py.round q.

(** [round(base_credit_cost * modifier)] *)
Definition round_modified (base_credit_cost : Z) (m : number) : res Z :=
  x ← Py.mul (NInt base_credit_cost) m;
  Py.round_number x.

Definition calculate_image_cost (db : Db) : res ImageCost :=
  tokenCostConfig ← get_attr (token_cost_config_first db) "dall_e_price_per_image";
  let base_credit_cost := dall_e_price_per_image tokenCostConfig in
  let config := credit_config_first db "image" in
  let modifier := modifier_or_2 config in
  total ← Py.mul (NFloat base_credit_cost) modifier;
  Ok {| ic_base_credit_cost := base_credit_cost;
        ic_modifier := modifier;
        total_credit_cost := total |}.

(** [l[i]] with Python's negative indices. *)
Definition py_index {A} (l : list A) (i : Z) : res A :=
  let n := Z.of_nat (length l) in
  let j := if i <? 0 then i + n else i in
  if (j <? 0) || (n <=? j)
  then Raise (Exn IndexError "list index out of range")
  else match l !! Z.to_nat j with
       | Some a => Ok a
       | None => Raise (Exn IndexError "list index out of range")
       end.

(** [story.chapters] *)
Definition story_chapters (db : Db) (story : Story) : list Chapter :=
  filter (fun c => chapter_story c = st_id story) (chapters db).

(** What the pipeline takes from libraries: the tokenizer ([tiktoken], by
    text and model name), [json.loads] ([None] when it raises), [str.strip],
    and the prompt templates of [src/prompt_templates.py], each read here as
    the text rendered from the story and the rows the caller queries for it.
    [render_chapter_prompt] is the prompt [api_generate_chapter] renders
    itself, from its own queries. *)
Record Env := {
  count_tokens : string -> string -> Z;
  json_loads : string -> option json;
  str_strip : string -> string;
  build_meta_prompt : Db -> Story -> string;
  build_chapter_summaries_prompt : Db -> Story -> string;
  build_story_arcs_prompt : Db -> Story -> string;
  build_chapter_guide_prompt : Db -> Story -> string;
  build_chapter_content_prompt : Db -> Story -> Z -> string;
  render_chapter_prompt : Db -> Story -> Z -> string
}.

Section Estimator.

Variable env : Env.

Definition calculate_predicted_meta_cost (db : Db) (story : Story)
  : res Prediction :=
  let model := "gpt-4o-mini" in
  let full_prompt := build_meta_prompt env db story in
  let input_token_count := count_tokens env full_prompt model in
  tokenCostConfig ← get_attr (token_cost_config_first db) "cost_per_1m_input";
  let cost_per_million_input := cost_per_1m_input tokenCostConfig in
  let cost_per_million_output := cost_per_1m_output tokenCostConfig in
  let credit_cost_dollar := cost_per_credit tokenCostConfig in
  input_tokens_per_credit ← tokens_per_credit credit_cost_dollar cost_per_million_input;
  output_tokens_per_credit ← tokens_per_credit credit_cost_dollar cost_per_million_output;
  r_in ← round_tokens input_token_count input_tokens_per_credit;
  let base_credit_cost_input := Z.max 1 r_in in
  let predicted_output_tokens := 200 in
  r_out ← round_tokens predicted_output_tokens output_tokens_per_credit;
  let base_credit_cost_output := Z.max 1 r_out in
  let modifier_input := modifier_or_2 (credit_config_first db "meta_input") in
  let modifier_output := modifier_or_2 (credit_config_first db "meta_output") in
  modified_credit_cost_input ← round_modified base_credit_cost_input modifier_input;
  modified_credit_cost_output ← round_modified base_credit_cost_output modifier_output;
  Ok {| p_input_tokens := input_token_count;
        predicted_output_tokens := predicted_output_tokens;
        p_input_tokens_per_credit := input_tokens_per_credit;
        p_output_tokens_per_credit := output_tokens_per_credit;
        p_base_credit_cost_input := base_credit_cost_input;
        p_modified_credit_cost_input := modified_credit_cost_input;
        p_base_credit_cost_output := base_credit_cost_output;
        p_modified_credit_cost_output := modified_credit_cost_output;
        total_predicted_credit_cost :=
          modified_credit_cost_input + modified_credit_cost_output |}.

Definition calculate_actual_meta_cost (db : Db) (input_token_count : Z)
    (meta_text : string) : res ActualCost :=
  let model := "gpt-4o-mini" in
  let output_token_count := count_tokens env meta_text model in
  tokenCostConfig ← get_attr (token_cost_config_first db) "cost_per_1m_input";
  let cost_per_million_input := cost_per_1m_input tokenCostConfig in
  let cost_per_million_output := cost_per_1m_output tokenCostConfig in
  let credit_cost_dollar := cost_per_credit tokenCostConfig in
  input_tokens_per_credit ← tokens_per_credit credit_cost_dollar cost_per_million_input;
  output_tokens_per_credit ← tokens_per_credit credit_cost_dollar cost_per_million_output;
  r_in ← round_tokens input_token_count input_tokens_per_credit;
  let base_credit_cost_input := Z.max 1 r_in in
  r_out ← round_tokens output_token_count output_tokens_per_credit;
  let base_credit_cost_output := Z.max 1 r_out in
  let modifier_input := modifier_or_2 (credit_config_first db "meta_input") in
  let modifier_output := modifier_or_2 (credit_config_first db "meta_output") in
  modified_credit_cost_input ← round_modified base_credit_cost_input modifier_input;
  modified_credit_cost_output ← round_modified base_credit_cost_output modifier_output;
  Ok {| a_input_tokens := input_token_count;
        a_output_tokens := output_token_count;
        a_model := model;
        a_input_tokens_per_credit := input_tokens_per_credit;
        a_output_tokens_per_credit := output_tokens_per_credit;
        a_base_credit_cost_input := base_credit_cost_input;
        a_modified_credit_cost_input := modified_credit_cost_input;
        a_base_credit_cost_output := base_credit_cost_output;
        a_modified_credit_cost_output := modified_credit_cost_output;
        total_actual_credit_cost :=
          modified_credit_cost_input + modified_credit_cost_output |}.

Definition calculate_predicted_summaries_cost (db : Db) (story : Story)
  : res Prediction :=
  let model := "o1-mini" in
  let full_prompt := build_chapter_summaries_prompt env db story in
  let input_token_count := count_tokens env full_prompt model in
  let predicted_output_tokens := chapters_count story * 50 in
  tokenCostConfig ← get_attr (token_cost_config_first db) "o1_cost_per_1m_input";
  let cost_per_million_input := o1_cost_per_1m_input tokenCostConfig in
  let cost_per_million_output := o1_cost_per_1m_output tokenCostConfig in
  let credit_cost_dollar := o1_cost_per_credit tokenCostConfig in
  input_tokens_per_credit ← tokens_per_credit credit_cost_dollar cost_per_million_input;
  output_tokens_per_credit ← tokens_per_credit credit_cost_dollar cost_per_million_output;
  base_credit_cost_input ← round_tokens input_token_count input_tokens_per_credit;
  base_credit_cost_output ← round_tokens predicted_output_tokens output_tokens_per_credit;
  let modifier_input := modifier_or_2 (credit_config_first db "summary_input") in
  let modifier_output := modifier_or_2 (credit_config_first db "summary_output") in
  modified_credit_cost_input ← round_modified base_credit_cost_input modifier_input;
  modified_credit_cost_output ← round_modified base_credit_cost_output modifier_output;
  Ok {| p_input_tokens := input_token_count;
        predicted_output_tokens := predicted_output_tokens;
        p_input_tokens_per_credit := input_tokens_per_credit;
        p_output_tokens_per_credit := output_tokens_per_credit;
        p_base_credit_cost_input := base_credit_cost_input;
        p_modified_credit_cost_input := modified_credit_cost_input;
        p_base_credit_cost_output := base_credit_cost_output;
        p_modified_credit_cost_output := modified_credit_cost_output;
        total_predicted_credit_cost :=
          modified_credit_cost_input + modified_credit_cost_output |}.

Definition calculate_actual_summaries_cost (db : Db) (input_token_count : Z)
    (summaries_text : string) : res ActualCost :=
  let model := "o1-mini" in
  let output_token_count := count_tokens env summaries_text model in
  tokenCostConfig ← get_attr (token_cost_config_first db) "o1_cost_per_1m_input";
  let cost_per_million_input := o1_cost_per_1m_input tokenCostConfig in
  let cost_per_million_output := o1_cost_per_1m_output tokenCostConfig in
  let credit_cost_dollar := o1_cost_per_credit tokenCostConfig in
  input_tokens_per_credit ← tokens_per_credit credit_cost_dollar cost_per_million_input;
  output_tokens_per_credit ← tokens_per_credit credit_cost_dollar cost_per_million_output;
  base_credit_cost_input ← round_tokens input_token_count input_tokens_per_credit;
  base_credit_cost_output ← round_tokens output_token_count output_tokens_per_credit;
  let modifier_input := modifier_or_2 (credit_config_first db "summary_input") in
  let modifier_output := modifier_or_2 (credit_config_first db "summary_output") in
  modified_credit_cost_input ← round_modified base_credit_cost_input modifier_input;
  modified_credit_cost_output ← round_modified base_credit_cost_output modifier_output;
  Ok {| a_input_tokens := input_token_count;
        a_output_tokens := output_token_count;
        a_model := model;
        a_input_tokens_per_credit := input_tokens_per_credit;
        a_output_tokens_per_credit := output_tokens_per_credit;
        a_base_credit_cost_input := base_credit_cost_input;
        a_modified_credit_cost_input := modified_credit_cost_input;
        a_base_credit_cost_output := base_credit_cost_output;
        a_modified_credit_cost_output := modified_credit_cost_output;
        total_actual_credit_cost :=
          modified_credit_cost_input + modified_credit_cost_output |}.

Definition calculate_predicted_story_arcs_cost (db : Db) (story : Story)
  : res Prediction :=
  let model := "o1-mini" in
  let full_prompt := build_story_arcs_prompt env db story in
  let input_token_count := count_tokens env full_prompt model in
  tokenCostConfig ← get_attr (token_cost_config_first db) "o1_cost_per_1m_input";
  let cost_per_million_input := o1_cost_per_1m_input tokenCostConfig in
  let cost_per_million_output := o1_cost_per_1m_output tokenCostConfig in
  let credit_cost_dollar := o1_cost_per_credit tokenCostConfig in
  input_tokens_per_credit ← tokens_per_credit credit_cost_dollar cost_per_million_input;
  output_tokens_per_credit ← tokens_per_credit credit_cost_dollar cost_per_million_output;
  r_in ← round_tokens input_token_count input_tokens_per_credit;
  let base_credit_cost_input := Z.max 1 r_in in
  let predicted_output_tokens := 250 in
  r_out ← round_tokens predicted_output_tokens output_tokens_per_credit;
  let base_credit_cost_output := Z.max 1 r_out in
  let modifier_input := modifier_or_2 (credit_config_first db "arcs_input") in
  let modifier_output := modifier_or_2 (credit_config_first db "arcs_output") in
  modified_credit_cost_input ← round_modified base_credit_cost_input modifier_input;
  modified_credit_cost_output ← round_modified base_credit_cost_output modifier_output;
  Ok {| p_input_tokens := input_token_count;
        predicted_output_tokens := predicted_output_tokens;
        p_input_tokens_per_credit := input_tokens_per_credit;
        p_output_tokens_per_credit := output_tokens_per_credit;
        p_base_credit_cost_input := base_credit_cost_input;
        p_modified_credit_cost_input := modified_credit_cost_input;
        p_base_credit_cost_output := base_credit_cost_output;
        p_modified_credit_cost_output := modified_credit_cost_output;
        total_predicted_credit_cost :=
          modified_credit_cost_input + modified_credit_cost_output |}.

Definition calculate_actual_story_arcs_cost (db : Db) (input_token_count : Z)
    (arcs_text : string) : res ActualCost :=
  let model := "o1-mini" in
  let output_token_count := count_tokens env arcs_text model in
  tokenCostConfig ← get_attr (token_cost_config_first db) "o1_cost_per_1m_input";
  let cost_per_million_input := o1_cost_per_1m_input tokenCostConfig in
  let cost_per_million_output := o1_cost_per_1m_output tokenCostConfig in
  let credit_cost_dollar := o1_cost_per_credit tokenCostConfig in
  input_tokens_per_credit ← tokens_per_credit credit_cost_dollar cost_per_million_input;
  output_tokens_per_credit ← tokens_per_credit credit_cost_dollar cost_per_million_output;
  r_in ← round_tokens input_token_count input_tokens_per_credit;
  let base_credit_cost_input := Z.max 1 r_in in
  r_out ← round_tokens output_token_count output_tokens_per_credit;
  let base_credit_cost_output := Z.max 1 r_out in
  let modifier_input := modifier_or_2 (credit_config_first db "arcs_input") in
  let modifier_output := modifier_or_2 (credit_config_first db "arcs_output") in
  modified_credit_cost_input ← round_modified base_credit_cost_input modifier_input;
  modified_credit_cost_output ← round_modified base_credit_cost_output modifier_output;
  Ok {| a_input_tokens := input_token_count;
        a_output_tokens := output_token_count;
        a_model := model;
        a_input_tokens_per_credit := input_tokens_per_credit;
        a_output_tokens_per_credit := output_tokens_per_credit;
        a_base_credit_cost_input := base_credit_cost_input;
        a_modified_credit_cost_input := modified_credit_cost_input;
        a_base_credit_cost_output := base_credit_cost_output;
        a_modified_credit_cost_output := modified_credit_cost_output;
        total_actual_credit_cost :=
          modified_credit_cost_input + modified_credit_cost_output |}.

Definition calculate_predicted_chapter_guide_cost (db : Db) (story : Story)
  : res Prediction :=
  let model := "o1-mini" in
  let prompt := build_chapter_guide_prompt env db story in
  let input_token_count := count_tokens env prompt model in
  tokenCostConfig ← get_attr (token_cost_config_first db) "o1_cost_per_1m_input";
  let cost_per_million_input := o1_cost_per_1m_input tokenCostConfig in
  let cost_per_million_output := o1_cost_per_1m_output tokenCostConfig in
  let credit_cost_dollar := o1_cost_per_credit tokenCostConfig in
  input_tokens_per_credit ← tokens_per_credit credit_cost_dollar cost_per_million_input;
  output_tokens_per_credit ← tokens_per_credit credit_cost_dollar cost_per_million_output;
  r_in ← round_tokens input_token_count input_tokens_per_credit;
  let base_credit_cost_input := Z.max 1 r_in in
  let predicted_output_tokens := 250 in
  r_out ← round_tokens predicted_output_tokens output_tokens_per_credit;
  let base_credit_cost_output := Z.max 1 r_out in
  let modifier_input := modifier_or_2 (credit_config_first db "chapter_guide_input") in
  let modifier_output := modifier_or_2 (credit_config_first db "chapter_guide_output") in
  modified_credit_cost_input ← round_modified base_credit_cost_input modifier_input;
  modified_credit_cost_output ← round_modified base_credit_cost_output modifier_output;
  Ok {| p_input_tokens := input_token_count;
        predicted_output_tokens := predicted_output_tokens;
        p_input_tokens_per_credit := input_tokens_per_credit;
        p_output_tokens_per_credit := output_tokens_per_credit;
        p_base_credit_cost_input := base_credit_cost_input;
        p_modified_credit_cost_input := modified_credit_cost_input;
        p_base_credit_cost_output := base_credit_cost_output;
        p_modified_credit_cost_output := modified_credit_cost_output;
        total_predicted_credit_cost :=
          modified_credit_cost_input + modified_credit_cost_output |}.

Definition calculate_actual_chapter_guide_cost (db : Db) (input_token_count : Z)
    (chapter_guide_text : string) : res ActualCost :=
  let model := "o1-mini" in
  let output_token_count := count_tokens env chapter_guide_text model in
  tokenCostConfig ← get_attr (token_cost_config_first db) "o1_cost_per_1m_input";
  let cost_per_million_input := o1_cost_per_1m_input tokenCostConfig in
  let cost_per_million_output := o1_cost_per_1m_output tokenCostConfig in
  let credit_cost_dollar := o1_cost_per_credit tokenCostConfig in
  input_tokens_per_credit ← tokens_per_credit credit_cost_dollar cost_per_million_input;
  output_tokens_per_credit ← tokens_per_credit credit_cost_dollar cost_per_million_output;
  r_in ← round_tokens input_token_count input_tokens_per_credit;
  let base_credit_cost_input := Z.max 1 r_in in
  r_out ← round_tokens output_token_count output_tokens_per_credit;
  let base_credit_cost_output := Z.max 1 r_out in
  let modifier_input := modifier_or_2 (credit_config_first db "chapter_guide_input") in
  let modifier_output := modifier_or_2 (credit_config_first db "chapter_guide_output") in
  modified_credit_cost_input ← round_modified base_credit_cost_input modifier_input;
  modified_credit_cost_output ← round_modified base_credit_cost_output modifier_output;
  Ok {| a_input_tokens := input_token_count;
        a_output_tokens := output_token_count;
        a_model := model;
        a_input_tokens_per_credit := input_tokens_per_credit;
        a_output_tokens_per_credit := output_tokens_per_credit;
        a_base_credit_cost_input := base_credit_cost_input;
        a_modified_credit_cost_input := modified_credit_cost_input;
        a_base_credit_cost_output := base_credit_cost_output;
        a_modified_credit_cost_output := modified_credit_cost_output;
        total_actual_credit_cost :=
          modified_credit_cost_input + modified_credit_cost_output |}.

(** The three subscripts of [calculate_predicted_chapter_cost]: only their
    raising matters here, the rows they fetch go into the prompt text. *)
Definition chapter_neighbours (chapters : list Chapter) (chapter_index : Z)
  : res unit :=
  let n := Z.of_nat (length chapters) in
  _ ← (if chapter_index <? n then _ ← py_index chapters chapter_index; Ok ()
       else Ok ());
  _ ← (if 0 <=? chapter_index - 1
       then _ ← py_index chapters (chapter_index - 1); Ok () else Ok ());
  if chapter_index + 1 <? n
  then _ ← py_index chapters (chapter_index + 1); Ok () else Ok ().

Definition calculate_predicted_chapter_cost (db : Db) (story : Story)
    (chapter_index : Z) : res Prediction :=
  let model := "o1-mini" in
  let chapters := story_chapters db story in
  _ ← chapter_neighbours chapters chapter_index;
  let full_prompt := build_chapter_content_prompt env db story chapter_index in
  let input_token_count := count_tokens env full_prompt model in
  let predicted_output_tokens := 300 in
  tokenCostConfig ← get_attr (token_cost_config_first db) "o1_cost_per_1m_input";
  let cost_per_million_input := o1_cost_per_1m_input tokenCostConfig in
  let cost_per_million_output := o1_cost_per_1m_output tokenCostConfig in
  let credit_cost_dollar := o1_cost_per_credit tokenCostConfig in
  input_tokens_per_credit ← tokens_per_credit credit_cost_dollar cost_per_million_input;
  output_tokens_per_credit ← tokens_per_credit credit_cost_dollar cost_per_million_output;
  base_credit_cost_input ← round_tokens input_token_count input_tokens_per_credit;
  base_credit_cost_output ← round_tokens predicted_output_tokens output_tokens_per_credit;
  let modifier_input := modifier_or_2 (credit_config_first db "chapter_input") in
  let modifier_output := modifier_or_2 (credit_config_first db "chapter_output") in
  modified_credit_cost_input ← round_modified base_credit_cost_input modifier_input;
  modified_credit_cost_output ← round_modified base_credit_cost_output modifier_output;
  Ok {| p_input_tokens := input_token_count;
        predicted_output_tokens := predicted_output_tokens;
        p_input_tokens_per_credit := input_tokens_per_credit;
        p_output_tokens_per_credit := output_tokens_per_credit;
        p_base_credit_cost_input := base_credit_cost_input;
        p_modified_credit_cost_input := modified_credit_cost_input;
        p_base_credit_cost_output := base_credit_cost_output;
        p_modified_credit_cost_output := modified_credit_cost_output;
        total_predicted_credit_cost :=
          modified_credit_cost_input + modified_credit_cost_output |}.

Definition calculate_actual_chapter_cost (db : Db) (input_token_count : Z)
    (chapter_text : string) : res ActualCost :=
  let model := "o1-mini" in
  let output_token_count := count_tokens env chapter_text model in
  tokenCostConfig ← get_attr (token_cost_config_first db) "o1_cost_per_1m_input";
  let cost_per_million_input := o1_cost_per_1m_input tokenCostConfig in
  let cost_per_million_output := o1_cost_per_1m_output tokenCostConfig in
  let credit_cost_dollar := o1_cost_per_credit tokenCostConfig in
  input_tokens_per_credit ← tokens_per_credit credit_cost_dollar cost_per_million_input;
  output_tokens_per_credit ← tokens_per_credit credit_cost_dollar cost_per_million_output;
  base_credit_cost_input ← round_tokens input_token_count input_tokens_per_credit;
  base_credit_cost_output ← round_tokens output_token_count output_tokens_per_credit;
  let modifier_input := modifier_or_2 (credit_config_first db "chapter_input") in
  let modifier_output := modifier_or_2 (credit_config_first db "chapter_output") in
  modified_credit_cost_input ← round_modified base_credit_cost_input modifier_input;
  modified_credit_cost_output ← round_modified base_credit_cost_output modifier_output;
  Ok {| a_input_tokens := input_token_count;
        a_output_tokens := output_token_count;
        a_model := model;
        a_input_tokens_per_credit := input_tokens_per_credit;
        a_output_tokens_per_credit := output_tokens_per_credit;
        a_base_credit_cost_input := base_credit_cost_input;
        a_modified_credit_cost_input := modified_credit_cost_input;
        a_base_credit_cost_output := base_credit_cost_output;
        a_modified_credit_cost_output := modified_credit_cost_output;
        total_actual_credit_cost :=
          modified_credit_cost_input + modified_credit_cost_output |}.

Record AllChaptersPrediction := {
  all_total_predicted_credit_cost : Z;
  breakdown : list (Z * Prediction)
}.

Definition calculate_predicted_all_chapters_cost (db : Db) (story : Story)
  : res AllChaptersPrediction :=
  let chapters := story_chapters db story in
  infos ← mapM (fun i => cost_info ← calculate_predicted_chapter_cost db story i;
                        Ok (i, cost_info))
               (seqZ 0 (Z.of_nat (length chapters)));
  Ok {| all_total_predicted_credit_cost :=
          foldl (fun total_cost ci =>
                   total_cost + total_predicted_credit_cost ci.2) 0 infos;
        breakdown := infos |}.

End Estimator.

(** ** The running system *)

Inductive Event :=
| Notification (message : string) (room : Z)  (* [notify(message, user_id)] *)
| Emitted (event : string) (room : Z).        (* [socketio.emit(event, _, room)] *)

(** A Celery task call, with the arguments [delay] is given. *)
Inductive TaskCall :=
| ImageTask (story : Z) (image_key prompt : string) (user : Z)
            (credit_cost : number) (chapter : option Z)
| MetaTask (story : Z) (prompt : string) (user : Z) (predicted_input_tokens : Z)
| StoryArcsTask (story : Z) (prompt : string) (user : Z) (predicted_input_tokens : Z)
| SummariesTask (story : Z) (prompt : string) (user : Z) (predicted_input_tokens : Z)
| ChapterGuideTask (story : Z) (prompt : string) (user : Z) (predicted_input_tokens : Z)
| ChapterTask (story : Z) (prompt : string) (chapter_number : Z) (user : Z)
              (predicted_input_tokens : Z).

(** [database] holds the committed rows; [session] is what [db.session]
    sees, the committed rows with the changes pending in the transaction.
    [locks] is the set of user ids [u] whose key [generation_lock:u] exists
    in the lock store (the key's expiry is not modelled), [broker] the
    queued task calls with their task ids, [bucket] the image store. *)
Record Sys := {
  database : Db;
  session : Db;
  locks : gset Z;
  outbox : list Event;
  broker : list (string * TaskCall);
  bucket : gmap string string
}.

(** What the outside gives back during one request or one task run: the
    chat completion (by model and prompt), the image endpoint (the url),
    the download of that url, the upload to the bucket and the enqueueing
    of a task (its id).  Each may raise. *)
Record World := {
  chat_completion : string -> string -> res string;
  images_generate : string -> res string;
  requests_get : string -> res string;
  put_object : string -> string -> res unit;
  delay : TaskCall -> res string
}.

(** State and exceptions: a computation maps the system to a result or a
    raised exception, and to the system it leaves behind. *)
Definition M (A : Type) : Type := Sys -> res A * Sys.

#[global] Instance M_ret : MRet M := fun A a s => (Ok a, s).
#[global] Instance M_bind : MBind M := fun A B k m s =>
  match m s with
  | (Ok a, s') => k a s'
  | (Raise e, s') => (Raise e, s')
  end.

Definition lift {A} (r : res A) : M A := fun s => (r, s).

Definition gets {A} (f : Sys -> A) : M A := fun s => (Ok (f s), s).

Definition modify (f : Sys -> Sys) : M unit := fun s => (Ok (), f s).

(** [try: body except Exception as e: handler(e)] *)
Definition try_except {A} (body : M A) (handler : exn -> M A) : M A :=
  fun s =>
    match body s with
    | (Ok a, s') => (Ok a, s')
    | (Raise e, s') => handler e s'
    end.

(** [try: body finally: cleanup]: the cleanup runs whatever the body did;
    the body's outcome stands unless the cleanup itself raises. *)
Definition try_finally {A} (body : M A) (cleanup : M unit) : M A :=
  fun s =>
    let (r, s') := body s in
    match cleanup s' with
    | (Ok _, s'') => (r, s'')
    | (Raise e, s'') => (Raise e, s'')
    end.

Fixpoint for_each {A} (l : list A) (f : A -> M unit) : M unit :=
  match l with
  | [] => mret ()
  | x :: l' => f x;; for_each l' f
  end.

(** *** Updates of the session *)

Definition with_session (f : Db -> Db) (s : Sys) : Sys :=
  {| database := database s; session := f (session s); locks := locks s;
     outbox := outbox s; broker := broker s; bucket := bucket s |}.

Definition set_users (f : gmap Z User -> gmap Z User) (d : Db) : Db :=
  {| users := f (users d); stories := stories d; chapters := chapters d;
     characters := characters d; locations := locations d;
     story_arcs := story_arcs d; chapter_guides := chapter_guides d;
     generation_logs := generation_logs d;
     token_cost_configs := token_cost_configs d;
     credit_configs := credit_configs d |}.

Definition set_stories (f : gmap Z Story -> gmap Z Story) (d : Db) : Db :=
  {| users := users d; stories := f (stories d); chapters := chapters d;
     characters := characters d; locations := locations d;
     story_arcs := story_arcs d; chapter_guides := chapter_guides d;
     generation_logs := generation_logs d;
     token_cost_configs := token_cost_configs d;
     credit_configs := credit_configs d |}.

Definition set_chapters (f : list Chapter -> list Chapter) (d : Db) : Db :=
  {| users := users d; stories := stories d; chapters := f (chapters d);
     characters := characters d; locations := locations d;
     story_arcs := story_arcs d; chapter_guides := chapter_guides d;
     generation_logs := generation_logs d;
     token_cost_configs := token_cost_configs d;
     credit_configs := credit_configs d |}.

Definition set_characters (f : list Character -> list Character) (d : Db) : Db :=
  {| users := users d; stories := stories d; chapters := chapters d;
     characters := f (characters d); locations := locations d;
     story_arcs := story_arcs d; chapter_guides := chapter_guides d;
     generation_logs := generation_logs d;
     token_cost_configs := token_cost_configs d;
     credit_configs := credit_configs d |}.

Definition set_locations (f : list Location -> list Location) (d : Db) : Db :=
  {| users := users d; stories := stories d; chapters := chapters d;
     characters := characters d; locations := f (locations d);
     story_arcs := story_arcs d; chapter_guides := chapter_guides d;
     generation_logs := generation_logs d;
     token_cost_configs := token_cost_configs d;
     credit_configs := credit_configs d |}.

Definition set_story_arcs (f : list StoryArc -> list StoryArc) (d : Db) : Db :=
  {| users := users d; stories := stories d; chapters := chapters d;
     characters := characters d; locations := locations d;
     story_arcs := f (story_arcs d); chapter_guides := chapter_guides d;
     generation_logs := generation_logs d;
     token_cost_configs := token_cost_configs d;
     credit_configs := credit_configs d |}.

Definition set_chapter_guides (f : list ChapterGuide -> list ChapterGuide)
    (d : Db) : Db :=
  {| users := users d; stories := stories d; chapters := chapters d;
     characters := characters d; locations := locations d;
     story_arcs := story_arcs d; chapter_guides := f (chapter_guides d);
     generation_logs := generation_logs d;
     token_cost_configs := token_cost_configs d;
     credit_configs := credit_configs d |}.

Definition set_generation_logs (f : list GenerationLog -> list GenerationLog)
    (d : Db) : Db :=
  {| users := users d; stories := stories d; chapters := chapters d;
     characters := characters d; locations := locations d;
     story_arcs := story_arcs d; chapter_guides := chapter_guides d;
     generation_logs := f (generation_logs d);
     token_cost_configs := token_cost_configs d;
     credit_configs := credit_configs d |}.

(** [db.session.commit()] *)
Definition commit : M unit :=
  modify (fun s =>
    {| database := session s; session := session s; locks := locks s;
       outbox := outbox s; broker := broker s; bucket := bucket s |}).

(** [db.session.rollback()] *)
Definition rollback : M unit :=
  modify (fun s =>
    {| database := database s; session := database s; locks := locks s;
       outbox := outbox s; broker := broker s; bucket := bucket s |}).

(** [db.session.remove()]: the session is dropped with what it had pending. *)
Definition session_remove : M unit := rollback.

(** [notify(message, user_id)] ([src/helpers.py]) *)
Definition notify (message : string) (user_id : Z) : M unit :=
  modify (fun s =>
    {| database := database s; session := session s; locks := locks s;
       outbox := outbox s ++ [Notification message user_id];
       broker := broker s; bucket := bucket s |}).

(** [socketio.emit(event, payload, room=user_id)] *)
Definition emit (event : string) (user_id : Z) : M unit :=
  modify (fun s =>
    {| database := database s; session := session s; locks := locks s;
       outbox := outbox s ++ [Emitted event user_id];
       broker := broker s; bucket := bucket s |}).

(** ** The generation lock ([src/api/generation.py]) *)

(** [locking_queue.set(key, "1", ex=expire, nx=True)]: set if absent. *)
Definition set_user_generation_lock (user_id : Z) : M bool :=
  fun s =>
    if decide (user_id ∈ locks s) then (Ok false, s)
    else (Ok true,
          {| database := database s; session := session s;
             locks := {[user_id]} ∪ locks s;
             outbox := outbox s; broker := broker s; bucket := bucket s |}).

(** [locking_queue.delete(key)] *)
Definition clear_user_generation_lock (user_id : Z) : M unit :=
  modify (fun s =>
    {| database := database s; session := session s;
       locks := locks s ∖ {[user_id]};
       outbox := outbox s; broker := broker s; bucket := bucket s |}).

(** ** The ledger and the overdraft guard ([src/helpers.py]) *)

(** [GenerationLog.query.filter_by(user_id=u).order_by(desc(id)).first()] *)
Definition last_log_of (db : Db) (u : Z) : option GenerationLog :=
  last (filter (fun r => user_id r = u) (generation_logs db)).

Definition is_last_generation_and_negative_creds (db : Db) (uid : Z)
    (user : User) (_type : string) : bool :=
  match last_log_of db uid with
  | None => false
  | Some log_entry =>
      let generation_type := generation_type log_entry in
      if negb (generation_type =? _type)%string then false
      else if (generation_type =? "meta")%string
        then Py.le (text_credits user) (NInt 0)
      else if (generation_type =? "story_arcs")%string
        then Py.le (text_credits user) (NInt 0)
      else if (generation_type =? "summaries")%string
        then Py.le (text_credits user) (NInt 0)
      else if (generation_type =? "chapter_guide")%string
        then Py.le (text_credits user) (NInt 0)
      else if (generation_type =? "chapter")%string
        then Py.le (text_credits user) (NInt 0)
      else if (generation_type =? "image")%string
        then Py.le (image_credits user) (NInt 0)
      else false
  end.

Definition can_spend_credits (user : User) (credit_type : string)
    (cost : number) : bool :=
  if (credit_type =? "text")%string then Py.ge (text_credits user) cost
  else if (credit_type =? "image")%string then Py.ge (image_credits user) cost
  else if (credit_type =? "audio")%string then Py.ge (audio_credits user) cost
  else false.

Definition spend_credits (user_id : Z) (credit_type : string) (cost : number)
  : M unit :=
  user ← gets (fun s => users (session s) !! user_id);
  (if (credit_type =? "text")%string then
     u ← lift (get_attr user "text_credits");
     c ← lift (Py.sub (text_credits u) cost);
     modify (with_session (set_users <[user_id :=
       {| text_credits := c; image_credits := image_credits u;
          audio_credits := audio_credits u |}]>))
   else if (credit_type =? "image")%string then
     u ← lift (get_attr user "image_credits");
     c ← lift (Py.sub (image_credits u) cost);
     modify (with_session (set_users <[user_id :=
       {| text_credits := text_credits u; image_credits := c;
          audio_credits := audio_credits u |}]>))
   else if (credit_type =? "audio")%string then
     u ← lift (get_attr user "audio_credits");
     c ← lift (Py.sub (audio_credits u) cost);
     modify (with_session (set_users <[user_id :=
       {| text_credits := text_credits u; image_credits := image_credits u;
          audio_credits := c |}]>))
   else mret ());;
  commit.

(** ** Python's dynamic operations on parsed JSON *)

Definition type_name (v : json) : string :=
  match v with
  | JNull => "NoneType" | JBool _ => "bool" | JNum (NInt _) => "int"
  | JNum (NFloat _) => "float" | JStr _ => "str" | JArr _ => "list"
  | JObj _ => "dict"
  end.

Definition assoc (key : string) (fields : list (string * json)) : option json :=
  snd <$> head (filter (fun kv => kv.1 = key) fields).

(** [v.get(key, default)]: only a dict has [get]. *)
Definition py_get (v : json) (key : string) (default : json) : res json :=
  match v with
  | JObj fields =>
      Ok (match assoc key fields with Some x => x | None => default end)
  | _ => Raise (Exn AttributeError
           ("'" ++ type_name v ++ "' object has no attribute 'get'"))
  end.

Fixpoint chars_of (s : string) : list json :=
  match s with
  | EmptyString => []
  | String c s' => JStr (String c EmptyString) :: chars_of s'
  end.

(** [len(v)] *)
Definition py_len (v : json) : res Z :=
  match v with
  | JArr items => Ok (Z.of_nat (length items))
  | JObj fields => Ok (Z.of_nat (length fields))
  | JStr s => Ok (Z.of_nat (String.length s))
  | _ => Raise (Exn TypeError
           ("object of type '" ++ type_name v ++ "' has no len()"))
  end.

(** [for x in v]: the items of a list, the keys of a dict, the characters of
    a string. *)
Definition py_iter (v : json) : res (list json) :=
  match v with
  | JArr items => Ok items
  | JObj fields => Ok ((fun kv => JStr kv.1) <$> fields)
  | JStr s => Ok (chars_of s)
  | _ => Raise (Exn TypeError
           ("'" ++ type_name v ++ "' object is not iterable"))
  end.

(** [v.items()] *)
Definition py_items (v : json) : res (list (string * json)) :=
  match v with
  | JObj fields => Ok fields
  | _ => Raise (Exn AttributeError
           ("'" ++ type_name v ++ "' object has no attribute 'items'"))
  end.

Definition is_none (v : json) : bool :=
  match v with JNull => true | _ => false end.

(** ** The workers ([src/tasks.py]) *)

Inductive TaskResult :=
| ReturnedNone                     (* a bare [return] *)
| ReturnedSuccess                  (* [{"status": "success", ...}] *)
| ReturnedError (error : string).  (* [{"status": "error", "error": ...}] *)

Fixpoint find_index {A} (p : A -> bool) (l : list A) : option nat :=
  match l with
  | [] => None
  | x :: l' => if p x then Some 0%nat else S <$> find_index p l'
  end.

(** [GenerationLog.query.filter_by(task_id=t, user_id=u,
    generation_type=g).first()]: the row is held by its position. *)
Definition query_log (t : string) (u : Z) (g : string) : M (option nat) :=
  gets (fun s =>
    find_index (fun r => (task_id r =? t)%string && (user_id r =? u)
                         && (generation_type r =? g)%string)
               (generation_logs (session s))).

Definition update_log (i : nat) (f : GenerationLog -> GenerationLog) : M unit :=
  modify (with_session (set_generation_logs (alter f i))).

(** The assignments of a text task's success block. *)
Definition succeeded_with (actual_cost : ActualCost) (r : GenerationLog)
  : GenerationLog :=
  {| user_id := user_id r; task_id := task_id r;
     generation_type := generation_type r;
     predicted_cost := predicted_cost r;
     real_cost := Some (NInt (total_actual_credit_cost actual_cost));
     status := "succeeded";
     error_message := error_message r;
     model := Some (a_model actual_cost);
     input_tokens := a_input_tokens actual_cost;
     output_tokens := a_output_tokens actual_cost |}.

(** The assignments of the image task's success block. *)
Definition image_succeeded (r : GenerationLog) : GenerationLog :=
  {| user_id := user_id r; task_id := task_id r;
     generation_type := generation_type r;
     predicted_cost := predicted_cost r; real_cost := real_cost r;
     status := "succeeded";
     error_message := error_message r;
     model := Some "dall-e-3";
     input_tokens := input_tokens r; output_tokens := output_tokens r |}.

(** The assignments of every [except] block. *)
Definition failed_with (e : exn) (r : GenerationLog) : GenerationLog :=
  {| user_id := user_id r; task_id := task_id r;
     generation_type := generation_type r;
     predicted_cost := predicted_cost r; real_cost := real_cost r;
     status := "failed";
     error_message := Some (exn_msg e);
     model := model r;
     input_tokens := input_tokens r; output_tokens := output_tokens r |}.

(** [if log_entry: <assignments>; db.session.commit()] *)
Definition if_log_entry (log_entry : option nat)
    (f : GenerationLog -> GenerationLog) : M unit :=
  match log_entry with
  | Some i => update_log i f;; commit
  | None => mret ()
  end.

Section Workers.

Variable env : Env.
Variable w : World.

(** *** The model calls ([src/openai_handler.py]) *)

Definition stripped_or (prefix : string) (r : res string) : res string :=
  match r with
  | Ok content => Ok (str_strip env content)
  | Raise e => Raise (Exn Exception_ (prefix ++ exn_msg e))
  end.

Definition generate_meta_from_prompt (shot_prompt : string) : res string :=
  stripped_or "Error generating characters and locations: "
    (chat_completion w "gpt-4o-mini" shot_prompt).

Definition generate_chapter_summaries_from_prompt (shot_prompt : string)
  : res string :=
  stripped_or "Error generating chapter summaries: "
    (chat_completion w "o1-mini" shot_prompt).

Definition generate_story_arcs_from_prompt (shot_prompt : string) : res string :=
  stripped_or "Error generating story arcs: "
    (chat_completion w "o1-mini" shot_prompt).

Definition generate_chapter_guide_from_prompt (shot_prompt : string)
  : res string :=
  stripped_or "Error generating story arcs: "
    (chat_completion w "o1-mini" shot_prompt).

(** The handler of this one formats its message with [chapter_title], a name
    that is not bound there: the exception that leaves is a [NameError]. *)
Definition generate_chapter_content_from_prompt (shot_prompt : string)
  : res string :=
  match chat_completion w "o1-mini" shot_prompt with
  | Ok content => Ok (str_strip env content)
  | Raise e => Raise (Exn NameError "name 'chapter_title' is not defined")
  end.

Definition generate_image_from_prompt (prompt : string) : res string :=
  match images_generate w prompt with
  | Ok image_url => Ok image_url
  | Raise e =>
      Raise (Exn Exception_ ("Error generating image from prompt: " ++ exn_msg e))
  end.

(** [put_image(image_key, image_data)] ([src/helpers.py]) *)
Definition put_image (image_key image_data : string) : M string :=
  lift (put_object w image_key image_data);;
  modify (fun s =>
    {| database := database s; session := session s; locks := locks s;
       outbox := outbox s; broker := broker s;
       bucket := <[image_key := image_data]> (bucket s) |});;
  mret image_key.

(** *** generate_image_task *)

Definition set_cover_image_key (k : string) (st : Story) : Story :=
  {| st_id := st_id st; chapters_count := chapters_count st;
     cover_image_prompt := cover_image_prompt st;
     cover_image_key := Some k |}.

Definition set_chapter_image_key (k : string) (c : Chapter) : Chapter :=
  {| ch_id := ch_id c; chapter_story := chapter_story c;
     chapter_number := chapter_number c; title := title c;
     summary := summary c; content := content c;
     chapter_image_key := Some k;
     chapter_image_prompt := chapter_image_prompt c |}.

Definition generate_image_task (task : string) (story_id : Z)
    (image_key prompt : string) (user_id : Z) (credit_cost : number)
    (chapter_id : option Z) : M TaskResult :=
  log_entry ← query_log task user_id "image";
  try_finally
    (try_except
       (result_url ← lift (generate_image_from_prompt prompt);
        image_data ← lift (requests_get w result_url);
        match chapter_id with
        | None =>
            story ← gets (fun s => stories (session s) !! story_id);
            match story with
            | None =>
                notify "Story not found" user_id;;
                mret (ReturnedError "Story not found.")
            | Some _ =>
                new_image_url ← put_image image_key image_data;
                modify (with_session (set_stories
                  (alter (set_cover_image_key new_image_url) story_id)));;
                commit;;
                spend_credits user_id "image" credit_cost;;
                if_log_entry log_entry image_succeeded;;
                notify "Image Generation Complete" user_id;;
                emit "image_generated" user_id;;
                mret ReturnedSuccess
            end
        | Some cid =>
            chapter ← gets (fun s =>
              find_index (fun c => (chapter_story c =? story_id)
                                   && (ch_id c =? cid))
                         (chapters (session s)));
            match chapter with
            | None =>
                notify "Chapter not found" user_id;;
                mret (ReturnedError "Chapter not found.")
            | Some i =>
                new_image_url ← put_image image_key image_data;
                modify (with_session (set_chapters
                  (alter (set_chapter_image_key new_image_url) i)));;
                commit;;
                spend_credits user_id "image" credit_cost;;
                if_log_entry log_entry image_succeeded;;
                notify "Image Generation Complete" user_id;;
                emit "image_generated" user_id;;
                mret ReturnedSuccess
            end
        end)
       (fun e =>
          rollback;;
          if_log_entry log_entry (failed_with e);;
          notify "Image Generation Failed" user_id;;
          emit "generation_error" user_id;;
          mret (ReturnedError (exn_msg e))))
    (clear_user_generation_lock user_id;;
     session_remove).

(** *** generate_meta_task *)

(** [len(result.get("locations")) == 0 and len(result.get("characters")) == 0] *)
Definition meta_is_empty (result : json) : res bool :=
  locs ← py_get result "locations" JNull;
  n ← py_len locs;
  if n =? 0 then
    chars ← py_get result "characters" JNull;
    m ← py_len chars;
    Ok (m =? 0)
  else Ok false.

Definition add_character (sid : Z) (char_data : json) : M unit :=
  name ← lift (py_get char_data "name" JNull);
  description ← lift (py_get char_data "description" JNull);
  dialogue ← lift (py_get char_data "example_dialogue" JNull);
  modify (with_session (set_characters (fun l => l ++
    [{| character_story := sid; character_name := name;
        character_description := description;
        example_dialogue := dialogue |}]))).

Definition add_location (sid : Z) (loc_data : json) : M unit :=
  name ← lift (py_get loc_data "name" JNull);
  description ← lift (py_get loc_data "description" JNull);
  modify (with_session (set_locations (fun l => l ++
    [{| location_story := sid; location_name := name;
        location_description := description |}]))).

Definition generate_meta_task (task : string) (story_id : Z) (prompt : string)
    (user_id : Z) (predicted_input_tokens : Z) : M TaskResult :=
  log_entry ← query_log task user_id "meta";
  try_finally
    (try_except
       (result_text ← lift (generate_meta_from_prompt prompt);
        let result :=
          match json_loads env result_text with
          | Some r => r
          | None => JObj [("locations", JArr []); ("characters", JArr [])]
          end in
        empty ← lift (meta_is_empty result);
        if empty : bool then
          notify "Metadata Generation Failed" user_id;;
          clear_user_generation_lock user_id;;
          mret ReturnedNone
        else
          story ← gets (fun s => stories (session s) !! story_id);
          match story with
          | Some st =>
              let sid := st_id st in
              modify (with_session (set_characters
                (filter (fun c => character_story c ≠ sid))));;
              modify (with_session (set_locations
                (filter (fun l => location_story l ≠ sid))));;
              chars ← lift (cs ← py_get result "characters" (JArr []); py_iter cs);
              for_each chars (add_character sid);;
              locs ← lift (ls ← py_get result "locations" (JArr []); py_iter ls);
              for_each locs (add_location sid);;
              commit
          | None => mret ()
          end;;
          db ← gets session;
          actual_cost ← lift (calculate_actual_meta_cost env db
                                predicted_input_tokens result_text);
          let real_total_cost := total_actual_credit_cost actual_cost in
          spend_credits user_id "text" (NInt real_total_cost);;
          if_log_entry log_entry (succeeded_with actual_cost);;
          notify "Metadata Generation Successful" user_id;;
          _ ← lift (get_attr story "id");
          emit "meta_generated" user_id;;
          mret ReturnedSuccess)
       (fun e =>
          if_log_entry log_entry (failed_with e);;
          notify "Metadata Generation Failed" user_id;;
          emit "generation_error" user_id;;
          mret (ReturnedError (exn_msg e))))
    (clear_user_generation_lock user_id;;
     session_remove).

(** [json.loads(text)] where the decode error is not caught on the spot. *)
Definition loads (text : string) : res json :=
  match json_loads env text with
  | Some v => Ok v
  | None => Raise (Exn ValueError "Expecting value")
  end.

(** [enumerate(items, start)] *)
Definition enumerate {A} (items : list A) (start : Z) : list (Z * A) :=
  imap (fun i x => (start + Z.of_nat i, x)) items.

(** *** generate_story_arcs_task *)

Definition generate_story_arcs_task (task : string) (story_id : Z)
    (prompt : string) (user_id : Z) (predicted_input_tokens : Z)
  : M TaskResult :=
  log_entry ← query_log task user_id "story_arcs";
  try_finally
    (try_except
       (arcs_text ← lift (generate_story_arcs_from_prompt prompt);
        arcs ← lift (loads arcs_text);
        story ← gets (fun s => stories (session s) !! story_id);
        match story with
        | Some st =>
            let sid := st_id st in
            modify (with_session (set_story_arcs
              (filter (fun a => arc_story a ≠ sid))));;
            items ← lift (py_iter arcs);
            for_each (enumerate items 0) (fun '(index, arc) =>
              modify (with_session (set_story_arcs (fun l => l ++
                [{| arc_story := sid; arc_text := arc;
                    arc_order := index + 1 |}]))));;
            commit
        | None => mret ()
        end;;
        db ← gets session;
        actual_cost ← lift (calculate_actual_story_arcs_cost env db
                              predicted_input_tokens arcs_text);
        let real_total_cost := total_actual_credit_cost actual_cost in
        spend_credits user_id "text" (NInt real_total_cost);;
        if_log_entry log_entry (succeeded_with actual_cost);;
        notify "Story Arcs Generation Successful" user_id;;
        emit "arcs_generated" user_id;;
        mret ReturnedSuccess)
       (fun e =>
          if_log_entry log_entry (failed_with e);;
          notify "Story Arcs Generation Failed" user_id;;
          emit "generation_error" user_id;;
          mret (ReturnedError (exn_msg e))))
    (clear_user_generation_lock user_id;;
     session_remove).

(** *** generate_summaries_task *)

(** The id a new chapter row is given. *)
Definition fresh_chapter_id (l : list Chapter) : Z :=
  1 + foldr (fun c m => Z.max (ch_id c) m) 0 l.

Definition set_title_summary (t s : json) (c : Chapter) : Chapter :=
  {| ch_id := ch_id c; chapter_story := chapter_story c;
     chapter_number := chapter_number c; title := t; summary := s;
     content := content c; chapter_image_key := chapter_image_key c;
     chapter_image_prompt := chapter_image_prompt c |}.

Definition store_summary (story : option Story) (index : Z)
    (chapter_data : json) : M unit :=
  st ← lift (get_attr story "id");
  rows ← gets (fun s => chapters (session s));
  match find_index (fun c => (chapter_story c =? st_id st)
                             && (chapter_number c =? index)) rows with
  | None =>
      t ← lift (py_get chapter_data "title" (JStr ("Chapter " ++ pretty index)));
      sm ← lift (py_get chapter_data "summary" (JStr ""));
      modify (with_session (set_chapters (fun l => l ++
        [{| ch_id := fresh_chapter_id l; chapter_story := st_id st;
            chapter_number := index; title := t; summary := sm;
            content := None; chapter_image_key := None;
            chapter_image_prompt := None |}])))
  | Some i =>
      match rows !! i with
      | Some chapter =>
          t ← lift (py_get chapter_data "title" (title chapter));
          sm ← lift (py_get chapter_data "summary" (summary chapter));
          modify (with_session (set_chapters (alter (set_title_summary t sm) i)))
      | None => mret ()
      end
  end.

Definition generate_summaries_task (task : string) (story_id : Z)
    (prompt : string) (user_id : Z) (predicted_input_tokens : Z)
  : M TaskResult :=
  log_entry ← query_log task user_id "summaries";
  try_finally
    (try_except
       (story ← gets (fun s => stories (session s) !! story_id);
        generated_summaries_text ←
          lift (generate_chapter_summaries_from_prompt prompt);
        (if (str_strip env generated_summaries_text =? "")%string
         then lift (Raise (Exn ValueError
                "Empty response received for Chapter Summaries."))
         else mret ());;
        generated_summaries ←
          lift (match json_loads env generated_summaries_text with
                | Some v => Ok v
                | None => Raise (Exn ValueError
                    ("Failed to parse Chapter Summaries JSON. Raw output: "
                     ++ generated_summaries_text))
                end);
        items ← lift (py_iter generated_summaries);
        for_each (enumerate items 1) (fun '(index, chapter_data) =>
          store_summary story index chapter_data);;
        commit;;
        db ← gets session;
        actual_cost ← lift (calculate_actual_summaries_cost env db
                              predicted_input_tokens generated_summaries_text);
        let real_total_cost := total_actual_credit_cost actual_cost in
        spend_credits user_id "text" (NInt real_total_cost);;
        if_log_entry log_entry (succeeded_with actual_cost);;
        notify "Summaries Generation Successful" user_id;;
        _ ← lift (get_attr story "chapters");
        emit "summaries_generated" user_id;;
        mret ReturnedSuccess)
       (fun e =>
          if_log_entry log_entry (failed_with e);;
          notify "Summaries Generation Failed" user_id;;
          emit "generation_error" user_id;;
          mret (ReturnedError (exn_msg e))))
    (clear_user_generation_lock user_id;;
     session_remove).

(** *** generate_chapter_guide_task *)

Definition add_guide_part (story_id : Z) (chapter_title : string)
    (arc_obj : json) : M unit :=
  arc_number ← lift (py_get arc_obj "arc" JNull);
  arc_text ← lift (py_get arc_obj "arc_text" JNull);
  characters ← lift (py_get arc_obj "characters" (JArr []));
  locations ← lift (py_get arc_obj "locations" (JArr []));
  if is_none arc_text || is_none arc_number then mret ()
  else
    modify (with_session (set_chapter_guides (fun l => l ++
      [{| guide_story := story_id; chapter_title := chapter_title;
          part_index := arc_number; part_text := arc_text;
          guide_characters := characters;
          guide_locations := locations |}]))).

Definition generate_chapter_guide_task (task : string) (story_id : Z)
    (full_prompt : string) (user_id : Z) (predicted_input_tokens : Z)
  : M TaskResult :=
  log_entry ← query_log task user_id "chapter_guide";
  try_finally
    (try_except
       (chapter_guide_text ← lift (generate_chapter_guide_from_prompt full_prompt);
        chapter_guide ← lift (loads chapter_guide_text);
        modify (with_session (set_chapter_guides
          (filter (fun g => guide_story g ≠ story_id))));;
        items ← lift (py_items chapter_guide);
        for_each items (fun '(chapter_title, arcs_list) =>
          arcs ← lift (py_iter arcs_list);
          for_each arcs (add_guide_part story_id chapter_title));;
        commit;;
        db ← gets session;
        actual_cost ← lift (calculate_actual_chapter_guide_cost env db
                              predicted_input_tokens chapter_guide_text);
        let real_total_cost := total_actual_credit_cost actual_cost in
        spend_credits user_id "text" (NInt real_total_cost);;
        if_log_entry log_entry (succeeded_with actual_cost);;
        notify "Detailed Story Arcs Generation Successful" user_id;;
        emit "chapter_guide_generated" user_id;;
        mret ReturnedSuccess)
       (fun e =>
          if_log_entry log_entry (failed_with e);;
          notify "Detailed Story Arcs Generation Failed" user_id;;
          emit "generation_error" user_id;;
          mret (ReturnedError (exn_msg e))))
    (clear_user_generation_lock user_id;;
     session_remove).

(** *** generate_chapter_task *)

Definition set_content (text : string) (c : Chapter) : Chapter :=
  {| ch_id := ch_id c; chapter_story := chapter_story c;
     chapter_number := chapter_number c; title := title c;
     summary := summary c; content := Some text;
     chapter_image_key := chapter_image_key c;
     chapter_image_prompt := chapter_image_prompt c |}.

(** [Chapter.chapter_number], under a name the task's parameter does not hide. *)
Definition number_of (c : Chapter) : Z := chapter_number c.

Definition generate_chapter_task (task : string) (story_id : Z)
    (prompt : string) (chapter_number : Z) (user_id : Z)
    (predicted_input_tokens : Z) : M TaskResult :=
  log_entry ← query_log task user_id "chapter";
  try_finally
    (try_except
       (text ← lift (generate_chapter_content_from_prompt prompt);
        chapter ← gets (fun s =>
          find_index (fun c => (chapter_story c =? story_id)
                               && (number_of c =? chapter_number))
                     (chapters (session s)));
        match chapter with
        | Some i => modify (with_session (set_chapters (alter (set_content text) i)))
        | None => mret ()
        end;;
        commit;;
        db ← gets session;
        actual_cost ← lift (calculate_actual_chapter_cost env db
                              predicted_input_tokens text);
        let real_total_cost := total_actual_credit_cost actual_cost in
        spend_credits user_id "text" (NInt real_total_cost);;
        if_log_entry log_entry (succeeded_with actual_cost);;
        notify "Chapter Generation Successful" user_id;;
        _ ← lift (get_attr chapter "title");
        emit "chapter_generated" user_id;;
        mret ReturnedSuccess)
       (fun e =>
          if_log_entry log_entry (failed_with e);;
          notify "Chapter Generation Failed" user_id;;
          emit "generation_error" user_id;;
          mret (ReturnedError (exn_msg e))))
    (clear_user_generation_lock user_id;;
     session_remove).

(** The worker that serves a queued call. *)
Definition run_task (task : string) (call : TaskCall) : M TaskResult :=
  match call with
  | ImageTask story image_key prompt user credit_cost chapter =>
      generate_image_task task story image_key prompt user credit_cost chapter
  | MetaTask story prompt user tokens =>
      generate_meta_task task story prompt user tokens
  | StoryArcsTask story prompt user tokens =>
      generate_story_arcs_task task story prompt user tokens
  | SummariesTask story prompt user tokens =>
      generate_summaries_task task story prompt user tokens
  | ChapterGuideTask story prompt user tokens =>
      generate_chapter_guide_task task story prompt user tokens
  | ChapterTask story prompt number user tokens =>
      generate_chapter_task task story prompt number user tokens
  end.

End Workers.

(** ** The dispatch endpoints ([src/api/generation.py]) *)

Inductive Response :=
| ErrorTrue                          (* [{"error": True}] *)
| StoryNotFound                      (* [{"error": "Story not found."}], 404 *)
| Aborted404                         (* [get_or_404], [first_or_404] *)
| AlreadyInProgress                  (* "A generation task is already in progress.", 400 *)
| ChapterDataNotFound                (* [{"error": "Chapter data not found."}], 400 *)
| NotEnoughCredits (required : number) (available : option number)   (* 400 *)
| Queued (task_id : option string) (predicted_cost : number)
| Error500 (error : string).

Definition pending_log (user : Z) (task g : string)
    (predicted real : option number) : GenerationLog :=
  {| user_id := user; task_id := task; generation_type := g;
     predicted_cost := predicted; real_cost := real; status := "pending";
     error_message := None; model := None;
     input_tokens := 0; output_tokens := 0 |}.

(** [db.session.add(log_entry)] *)
Definition add_log (r : GenerationLog) : M unit :=
  modify (with_session (set_generation_logs (fun l => l ++ [r]))).

Section Dispatch.

Variable env : Env.
Variable w : World.

(** [task.delay(...)]: the call is queued under the id the broker gives. *)
Definition enqueue (call : TaskCall) : M string :=
  task ← lift (delay w call);
  modify (fun s =>
    {| database := database s; session := session s; locks := locks s;
       outbox := outbox s; broker := broker s ++ [(task, call)];
       bucket := bucket s |});;
  mret task.

(** [get_current_user()], for the authenticated user [uid]. *)
Definition get_current_user (uid : Z) : M User :=
  user ← gets (fun s => users (session s) !! uid);
  lift (get_attr user "id").

Definition guard (uid : Z) (user : User) (_type : string) : M bool :=
  db ← gets session;
  mret (is_last_generation_and_negative_creds db uid user _type).

Definition set_cover_image_prompt (p : string) (st : Story) : Story :=
  {| st_id := st_id st; chapters_count := chapters_count st;
     cover_image_prompt := Some p; cover_image_key := cover_image_key st |}.

Definition set_chapter_image_prompt (p : string) (c : Chapter) : Chapter :=
  {| ch_id := ch_id c; chapter_story := chapter_story c;
     chapter_number := chapter_number c; title := title c;
     summary := summary c; content := content c;
     chapter_image_key := chapter_image_key c;
     chapter_image_prompt := Some p |}.

Definition api_generate_cover_image (uid story_id : Z) (cover_prompt : string)
  : M Response :=
  user ← get_current_user uid;
  blocked ← guard uid user "image";
  if blocked : bool then
    notify "Top up your credits to see generation" uid;;
    mret ErrorTrue
  else
    story ← gets (fun s => stories (session s) !! story_id);
    match story with
    | None => mret Aborted404
    | Some st =>
        modify (with_session (set_stories
          (alter (set_cover_image_prompt cover_prompt) story_id)));;
        commit;;
        db ← gets session;
        cost ← lift (calculate_image_cost db);
        let prediction := total_credit_cost cost in
        if negb (can_spend_credits user "image" prediction) then
          notify "You don't have enough credits!" uid;;
          mret (NotEnoughCredits prediction None)
        else
          try_except
            (let image_key := ("stories/" ++ pretty story_id ++ "/cover.jpg")%string in
             cover_task ← enqueue (ImageTask (st_id st) image_key cover_prompt
                                     uid prediction None);
             add_log (pending_log uid cover_task "image"
                        (Some prediction) (Some prediction));;
             commit;;
             notify "Generating Cover Image..." uid;;
             mret (Queued None prediction))
            (fun e =>
               notify "Cover Image Generation Failed" uid;;
               clear_user_generation_lock uid;;
               mret (Error500 (exn_msg e)))
    end.

Definition api_generate_chapter_image (uid story_id chapter_id : Z)
    (chapter_prompt : string) : M Response :=
  user ← get_current_user uid;
  blocked ← guard uid user "image";
  if blocked : bool then
    notify "Top up your credits to see generation" uid;;
    mret ErrorTrue
  else
    chapter ← gets (fun s =>
      find_index (fun c => (chapter_story c =? story_id)
                           && (ch_id c =? chapter_id))
                 (chapters (session s)));
    match chapter with
    | None => mret Aborted404
    | Some i =>
        modify (with_session (set_chapters
          (alter (set_chapter_image_prompt chapter_prompt) i)));;
        commit;;
        db ← gets session;
        cost ← lift (calculate_image_cost db);
        let prediction := total_credit_cost cost in
        if negb (can_spend_credits user "image" prediction) then
          notify "You don't have enough credits!" uid;;
          mret (NotEnoughCredits prediction None)
        else
          try_except
            (let image_key := ("stories/" ++ pretty story_id ++ "/chapters/"
                               ++ pretty chapter_id ++ ".jpg")%string in
             chap_task ← enqueue (ImageTask story_id image_key chapter_prompt
                                    uid prediction (Some chapter_id));
             add_log (pending_log uid chap_task "image" (Some prediction) None);;
             commit;;
             notify "Generating Chapter Image..." uid;;
             mret (Queued None prediction))
            (fun e =>
               notify "Chapter Image Generation Failed" uid;;
               clear_user_generation_lock uid;;
               mret (Error500 (exn_msg e)))
    end.

Definition api_generate_meta (uid story_id : Z) : M Response :=
  user ← get_current_user uid;
  blocked ← guard uid user "meta";
  if blocked : bool then
    notify "Top up your credits to see generation" uid;;
    mret ErrorTrue
  else
    story ← gets (fun s => stories (session s) !! story_id);
    match story with
    | None => mret StoryNotFound
    | Some st =>
        db ← gets session;
        prediction ← lift (calculate_predicted_meta_cost env db st);
        let total_predicted_cost := NInt (total_predicted_credit_cost prediction) in
        if negb (can_spend_credits user "text" total_predicted_cost) then
          notify "You Don't Have Enough Credits!" uid;;
          mret (NotEnoughCredits total_predicted_cost (Some (text_credits user)))
        else
          let full_prompt := build_meta_prompt env db st in
          try_except
            (task ← enqueue (MetaTask story_id full_prompt uid
                               (p_input_tokens prediction));
             add_log (pending_log uid task "meta" (Some total_predicted_cost) None);;
             commit;;
             notify "Generating Metadata..." uid;;
             mret (Queued (Some task) total_predicted_cost))
            (fun e =>
               notify "Metadata Generation Failed" uid;;
               clear_user_generation_lock uid;;
               mret (Error500 (exn_msg e)))
    end.

Definition api_generate_arcs (uid story_id : Z) : M Response :=
  user ← get_current_user uid;
  blocked ← guard uid user "story_arcs";
  if blocked : bool then
    notify "Top up your credits to see generation" uid;;
    mret ErrorTrue
  else
    story ← gets (fun s => stories (session s) !! story_id);
    match story with
    | None => mret StoryNotFound
    | Some st =>
        db ← gets session;
        let full_prompt := build_story_arcs_prompt env db st in
        prediction ← lift (calculate_predicted_story_arcs_cost env db st);
        let total_predicted_cost := NInt (total_predicted_credit_cost prediction) in
        if negb (can_spend_credits user "text" total_predicted_cost) then
          notify "You Don't Have Enough Credits!" uid;;
          mret (NotEnoughCredits total_predicted_cost (Some (text_credits user)))
        else
          try_except
            (task ← enqueue (StoryArcsTask story_id full_prompt uid
                               (p_input_tokens prediction));
             add_log (pending_log uid task "story_arcs"
                        (Some total_predicted_cost) None);;
             commit;;
             notify "Generating Story Arcs..." uid;;
             mret (Queued (Some task) total_predicted_cost))
            (fun e =>
               notify "Story Arcs Generation Failed" uid;;
               clear_user_generation_lock uid;;
               mret (Error500 (exn_msg e)))
    end.

Definition api_generate_summaries (uid story_id : Z) : M Response :=
  user ← get_current_user uid;
  blocked ← guard uid user "summaries";
  if blocked : bool then
    notify "Top up your credits to see generation" uid;;
    mret ErrorTrue
  else
    story ← gets (fun s => stories (session s) !! story_id);
    match story with
    | None => mret StoryNotFound
    | Some st =>
        was_set ← set_user_generation_lock uid;
        if negb was_set then
          notify "A generation task is already in progress" uid;;
          mret AlreadyInProgress
        else
          db ← gets session;
          let full_prompt := build_chapter_summaries_prompt env db st in
          prediction ← lift (calculate_predicted_summaries_cost env db st);
          let total_predicted_cost :=
            NInt (total_predicted_credit_cost prediction) in
          if negb (can_spend_credits user "text" total_predicted_cost) then
            notify "You Don't Have Enough Credits!" uid;;
            mret (NotEnoughCredits total_predicted_cost (Some (text_credits user)))
          else
            try_except
              (task ← enqueue (SummariesTask story_id full_prompt uid
                                 (p_input_tokens prediction));
               add_log (pending_log uid task "summaries"
                          (Some total_predicted_cost) None);;
               commit;;
               notify "Generating Summaries..." uid;;
               mret (Queued (Some task) total_predicted_cost))
              (fun e =>
                 notify "Summaries Generation Failed" uid;;
                 clear_user_generation_lock uid;;
                 mret (Error500 (exn_msg e)))
    end.

Definition api_generate_chapter_guide (uid story_id : Z) : M Response :=
  user ← get_current_user uid;
  blocked ← guard uid user "chapter_guide";
  if blocked : bool then
    notify "Top up your credits to see generation" uid;;
    mret ErrorTrue
  else
    story ← gets (fun s => stories (session s) !! story_id);
    match story with
    | None => mret StoryNotFound
    | Some st =>
        db ← gets session;
        let full_prompt := build_chapter_guide_prompt env db st in
        prediction ← lift (calculate_predicted_chapter_guide_cost env db st);
        let total_predicted_cost := NInt (total_predicted_credit_cost prediction) in
        if negb (can_spend_credits user "text" total_predicted_cost) then
          notify "You Don't Have Enough Credits!" uid;;
          mret (NotEnoughCredits total_predicted_cost (Some (text_credits user)))
        else
          try_except
            (task ← enqueue (ChapterGuideTask story_id full_prompt uid
                               (p_input_tokens prediction));
             add_log (pending_log uid task "chapter_guide"
                        (Some total_predicted_cost) None);;
             commit;;
             notify "Generating Detailed Story Arcs..." uid;;
             mret (Queued (Some task) total_predicted_cost))
            (fun e =>
               notify "Detailed Story Arcs Generation Failed" uid;;
               clear_user_generation_lock uid;;
               mret (Error500 (exn_msg e)))
    end.

(** The subscripts [api_generate_chapter] takes of its chapter list (the rows
    go into the prompt; what matters here is whether they raise). *)
Definition chapter_subscripts (chapters : list Chapter) (chapter_number : Z)
  : res unit :=
  _ ← py_index chapters (chapter_number - 1);
  _ ← (if 0 <=? chapter_number - 2
       then _ ← py_index chapters (chapter_number - 2); Ok () else Ok ());
  if chapter_number <? Z.of_nat (length chapters)
  then _ ← py_index chapters chapter_number; Ok () else Ok ().

Definition api_generate_chapter (uid story_id chapter_number : Z) : M Response :=
  user ← get_current_user uid;
  blocked ← guard uid user "chapter";
  if blocked : bool then
    notify "Top up your credits to see generation" uid;;
    mret ErrorTrue
  else
    user ← get_current_user uid;
    story ← gets (fun s => stories (session s) !! story_id);
    match story with
    | None => mret StoryNotFound
    | Some st =>
        was_set ← set_user_generation_lock uid;
        if negb was_set then
          notify "A generation task is already in progress" uid;;
          mret AlreadyInProgress
        else
          db ← gets session;
          let chapters := story_chapters db st in
          if (Z.of_nat (length chapters) =? 0)
             || (Z.of_nat (length chapters) <? chapter_number) then
            clear_user_generation_lock uid;;
            mret ChapterDataNotFound
          else
            lift (chapter_subscripts chapters chapter_number);;
            let full_prompt := render_chapter_prompt env db st chapter_number in
            prediction ← lift (calculate_predicted_chapter_cost env db st
                                 (chapter_number - 1));
            let total_predicted_cost :=
              NInt (total_predicted_credit_cost prediction) in
            if negb (can_spend_credits user "text" total_predicted_cost) then
              notify "You Don't Have Enough Credits!" uid;;
              clear_user_generation_lock uid;;
              mret (NotEnoughCredits total_predicted_cost
                      (Some (text_credits user)))
            else
              try_except
                (task ← enqueue (ChapterTask story_id full_prompt chapter_number
                                   uid (p_input_tokens prediction));
                 add_log (pending_log uid task "chapter"
                            (Some total_predicted_cost) None);;
                 commit;;
                 notify "Generating Chapter..." uid;;
                 mret (Queued (Some task) total_predicted_cost))
                (fun e =>
                   notify "Chapter Generation Failed" uid;;
                   clear_user_generation_lock uid;;
                   mret (Error500 (exn_msg e)))
    end.

Definition api_generate_all_chapters (uid story_id : Z) : M Response :=
  user ← get_current_user uid;
  blocked ← guard uid user "chapter";
  if blocked : bool then
    notify "Top up your credits to see generation" uid;;
    mret ErrorTrue
  else
    user ← get_current_user uid;
    story ← gets (fun s => stories (session s) !! story_id);
    match story with
    | None => mret StoryNotFound
    | Some st =>
        was_set ← set_user_generation_lock uid;
        if negb was_set then
          notify "A generation task is already in progress" uid;;
          mret AlreadyInProgress
        else
          db ← gets session;
          let total_chapters := Z.of_nat (length (story_chapters db st)) in
          prediction_all ← lift (calculate_predicted_all_chapters_cost env db st);
          let total_predicted_cost :=
            NInt (all_total_predicted_credit_cost prediction_all) in
          if negb (can_spend_credits user "text" total_predicted_cost) then
            notify "You Don't Have Enough Credits!" uid;;
            clear_user_generation_lock uid;;
            mret (NotEnoughCredits total_predicted_cost
                    (Some (text_credits user)))
          else
            for_each (seqZ 0 total_chapters) (fun i =>
              db ← gets session;
              let full_prompt := render_chapter_prompt env db st (i + 1) in
              chapter_prediction ←
                lift (calculate_predicted_chapter_cost env db st i);
              task ← enqueue (ChapterTask story_id full_prompt (i + 1) uid
                                (p_input_tokens chapter_prediction));
              add_log (pending_log uid task "chapter"
                (Some (NInt (total_predicted_credit_cost chapter_prediction)))
                None);;
              commit);;
            notify "Generating All Chapters..." uid;;
            mret (Queued None total_predicted_cost)
    end.

End Dispatch.

(** ** Requests and task runs as steps of the system *)

(** A request is served in a session of its own, dropped when the request
    ends; an exception that leaves the view is a 500 response. *)
Definition serve (view : M Response) (s : Sys) : Response * Sys :=
  match try_finally view session_remove s with
  | (Ok r, s') => (r, s')
  | (Raise e, s') => (Error500 (exn_msg e), s')
  end.

(** A task run: its return value (or the exception that left it) and the
    system afterwards. *)
Definition work (run : M TaskResult) (s : Sys) : res TaskResult * Sys :=
  run s.

(** A dispatch request, by endpoint, from the authenticated user [uid]. *)
Inductive Request :=
| GenerateCoverImage (uid story : Z) (cover_prompt : string)
| GenerateChapterImage (uid story chapter : Z) (chapter_prompt : string)
| GenerateMeta (uid story : Z)
| GenerateArcs (uid story : Z)
| GenerateSummaries (uid story : Z)
| GenerateChapterGuide (uid story : Z)
| GenerateChapter (uid story chapter_number : Z)
| GenerateAllChapters (uid story : Z).

Definition handle (env : Env) (w : World) (req : Request) : M Response :=
  match req with
  | GenerateCoverImage uid story p => api_generate_cover_image w uid story p
  | GenerateChapterImage uid story chapter p =>
      api_generate_chapter_image w uid story chapter p
  | GenerateMeta uid story => api_generate_meta env w uid story
  | GenerateArcs uid story => api_generate_arcs env w uid story
  | GenerateSummaries uid story => api_generate_summaries env w uid story
  | GenerateChapterGuide uid story => api_generate_chapter_guide env w uid story
  | GenerateChapter uid story n => api_generate_chapter env w uid story n
  | GenerateAllChapters uid story => api_generate_all_chapters env w uid story
  end.

Definition request_user (req : Request) : Z :=
  match req with
  | GenerateCoverImage uid _ _ | GenerateChapterImage uid _ _ _
  | GenerateMeta uid _ | GenerateArcs uid _ | GenerateSummaries uid _
  | GenerateChapterGuide uid _ | GenerateChapter uid _ _
  | GenerateAllChapters uid _ => uid
  end.

(** The [generation_type] an endpoint passes to the guard and writes to the
    rows it creates. *)
Definition request_kind (req : Request) : string :=
  match req with
  | GenerateCoverImage _ _ _ | GenerateChapterImage _ _ _ _ => "image"
  | GenerateMeta _ _ => "meta"
  | GenerateArcs _ _ => "story_arcs"
  | GenerateSummaries _ _ => "summaries"
  | GenerateChapterGuide _ _ => "chapter_guide"
  | GenerateChapter _ _ _ | GenerateAllChapters _ _ => "chapter"
  end.

Definition task_user (call : TaskCall) : Z :=
  match call with
  | ImageTask _ _ _ user _ _ | MetaTask _ _ user _ | StoryArcsTask _ _ user _
  | SummariesTask _ _ user _ | ChapterGuideTask _ _ user _
  | ChapterTask _ _ _ user _ => user
  end.


(** Between steps no session is open. *)
Definition idle (s : Sys) : Prop := session s = database s.

(** ** Views used to state the properties *)

Inductive Kind := Meta | Summaries | StoryArcs | ChapterGuideKind | ChapterContent.

Inductive Path := Predicted (k : Kind) | Actual (k : Kind).

(** What every token estimator returns, whatever its path. *)
Record Costs := {
  tokens_in : Z;
  per_credit_in : float;
  base_in : Z;
  modified_in : Z;
  tokens_out : Z;
  per_credit_out : float;
  base_out : Z;
  modified_out : Z;
  total : Z
}.

Definition costs_of_prediction (p : Prediction) : Costs :=
  {| tokens_in := p_input_tokens p;
     per_credit_in := p_input_tokens_per_credit p;
     base_in := p_base_credit_cost_input p;
     modified_in := p_modified_credit_cost_input p;
     tokens_out := predicted_output_tokens p;
     per_credit_out := p_output_tokens_per_credit p;
     base_out := p_base_credit_cost_output p;
     modified_out := p_modified_credit_cost_output p;
     total := total_predicted_credit_cost p |}.

Definition costs_of_actual (a : ActualCost) : Costs :=
  {| tokens_in := a_input_tokens a;
     per_credit_in := a_input_tokens_per_credit a;
     base_in := a_base_credit_cost_input a;
     modified_in := a_modified_credit_cost_input a;
     tokens_out := a_output_tokens a;
     per_credit_out := a_output_tokens_per_credit a;
     base_out := a_base_credit_cost_output a;
     modified_out := a_modified_credit_cost_output a;
     total := total_actual_credit_cost a |}.

(** The estimator of a path.  A prediction is made for [story] (and the
    chapter at [chapter_index]); a reconciliation for the input token count
    of the dispatch and the text the model returned. *)
Definition estimate (env : Env) (db : Db) (path : Path) (story : Story)
    (chapter_index input_token_count : Z) (text : string) : res Costs :=
  match path with
  | Predicted Meta =>
      p ← calculate_predicted_meta_cost env db story; Ok (costs_of_prediction p)
  | Predicted Summaries =>
      p ← calculate_predicted_summaries_cost env db story;
      Ok (costs_of_prediction p)
  | Predicted StoryArcs =>
      p ← calculate_predicted_story_arcs_cost env db story;
      Ok (costs_of_prediction p)
  | Predicted ChapterGuideKind =>
      p ← calculate_predicted_chapter_guide_cost env db story;
      Ok (costs_of_prediction p)
  | Predicted ChapterContent =>
      p ← calculate_predicted_chapter_cost env db story chapter_index;
      Ok (costs_of_prediction p)
  | Actual Meta =>
      a ← calculate_actual_meta_cost env db input_token_count text;
      Ok (costs_of_actual a)
  | Actual Summaries =>
      a ← calculate_actual_summaries_cost env db input_token_count text;
      Ok (costs_of_actual a)
  | Actual StoryArcs =>
      a ← calculate_actual_story_arcs_cost env db input_token_count text;
      Ok (costs_of_actual a)
  | Actual ChapterGuideKind =>
      a ← calculate_actual_chapter_guide_cost env db input_token_count text;
      Ok (costs_of_actual a)
  | Actual ChapterContent =>
      a ← calculate_actual_chapter_cost env db input_token_count text;
      Ok (costs_of_actual a)
  end.

(** The action names a kind's estimators look up in [CreditConfig]. *)
Definition input_action (k : Kind) : string :=
  match k with
  | Meta => "meta_input" | Summaries => "summary_input"
  | StoryArcs => "arcs_input" | ChapterGuideKind => "chapter_guide_input"
  | ChapterContent => "chapter_input"
  end.

Definition output_action (k : Kind) : string :=
  match k with
  | Meta => "meta_output" | Summaries => "summary_output"
  | StoryArcs => "arcs_output" | ChapterGuideKind => "chapter_guide_output"
  | ChapterContent => "chapter_output"
  end.

(** The kinds whose estimators wrap the base costs in [max(1, _)]. *)
Definition floored (k : Kind) : bool :=
  match k with
  | Meta | StoryArcs | ChapterGuideKind => true
  | Summaries | ChapterContent => false
  end.

Definition path_kind (path : Path) : Kind :=
  match path with Predicted k | Actual k => k end.

Definition set_credit_configs (f : list CreditConfig -> list CreditConfig)
    (d : Db) : Db :=
  {| users := users d; stories := stories d; chapters := chapters d;
     characters := characters d; locations := locations d;
     story_arcs := story_arcs d; chapter_guides := chapter_guides d;
     generation_logs := generation_logs d;
     token_cost_configs := token_cost_configs d;
     credit_configs := f (credit_configs d) |}.

(** The both-directions base costs of a path, before any modifier: the
    common prefix of the ten estimators, written once. *)
Definition prices (k : Kind) (c : TokenCostConfig) : float * float * float :=
  match k with
  | Meta => (cost_per_credit c, cost_per_1m_input c, cost_per_1m_output c)
  | _ => (o1_cost_per_credit c, o1_cost_per_1m_input c, o1_cost_per_1m_output c)
  end.

Definition first_attr (k : Kind) : string :=
  match k with Meta => "cost_per_1m_input" | _ => "o1_cost_per_1m_input" end.

Definition model_of (k : Kind) : string :=
  match k with Meta => "gpt-4o-mini" | _ => "o1-mini" end.

Definition path_tokens (env : Env) (db : Db) (path : Path) (story : Story)
    (chapter_index input_token_count : Z) (text : string) : Z * Z :=
  match path with
  | Predicted Meta =>
      (count_tokens env (build_meta_prompt env db story) "gpt-4o-mini", 200)
  | Predicted Summaries =>
      (count_tokens env (build_chapter_summaries_prompt env db story) "o1-mini",
       chapters_count story * 50)
  | Predicted StoryArcs =>
      (count_tokens env (build_story_arcs_prompt env db story) "o1-mini", 250)
  | Predicted ChapterGuideKind =>
      (count_tokens env (build_chapter_guide_prompt env db story) "o1-mini", 250)
  | Predicted ChapterContent =>
      (count_tokens env (build_chapter_content_prompt env db story chapter_index)
         "o1-mini", 300)
  | Actual k => (input_token_count, count_tokens env text (model_of k))
  end.

Definition base_costs (env : Env) (db : Db) (path : Path) (story : Story)
    (chapter_index input_token_count : Z) (text : string)
  : res (Z * float * Z * Z * float * Z) :=
  let k := path_kind path in
  let '(t_in, t_out) :=
    path_tokens env db path story chapter_index input_token_count text in
  _ ← match path with
      | Predicted ChapterContent =>
          chapter_neighbours (story_chapters db story) chapter_index
      | _ => Ok ()
      end;
  c ← get_attr (token_cost_config_first db) (first_attr k);
  let '(credit, per_m_in, per_m_out) := prices k c in
  pc_in ← tokens_per_credit credit per_m_in;
  pc_out ← tokens_per_credit credit per_m_out;
  q_in ← round_tokens t_in pc_in;
  q_out ← round_tokens t_out pc_out;
  Ok (t_in, pc_in, (if floored k then Z.max 1 q_in else q_in),
      t_out, pc_out, (if floored k then Z.max 1 q_out else q_out)).

(** The modifier step that follows the base costs in every estimator. *)
Definition with_modifiers (db : Db) (k : Kind)
    (b : Z * float * Z * Z * float * Z) : res Costs :=
  let '(t_in, pc_in, b_in, t_out, pc_out, b_out) := b in
  m_in ← round_modified b_in
           (modifier_or_2 (credit_config_first db (input_action k)));
  m_out ← round_modified b_out
            (modifier_or_2 (credit_config_first db (output_action k)));
  Ok {| tokens_in := t_in; per_credit_in := pc_in; base_in := b_in;
        modified_in := m_in; tokens_out := t_out; per_credit_out := pc_out;
        base_out := b_out; modified_out := m_out; total := m_in + m_out |}.

(** ** A concrete deployment

    The pricing rows are the ones [src/app.py] seeds an empty database
    with. *)
Module Scenario.

Definition seeded_token_cost_config : TokenCostConfig :=
  {| cost_per_credit := 0.000999;
     cost_per_1m_input := 0.150;
     cost_per_1m_output := 0.600;
     o1_cost_per_credit := 0.000999;
     o1_cost_per_1m_input := 15.00;
     o1_cost_per_1m_output := 60.00;
     dall_e_price_per_image := 0.08 |}.

Definition seeded_credit_configs : list CreditConfig :=
  [ {| config_type := "image"; action := "image"; modifier := 50 |};
    {| config_type := "text"; action := "meta_input"; modifier := 50 |};
    {| config_type := "text"; action := "meta_output"; modifier := 50 |};
    {| config_type := "text"; action := "summary_input"; modifier := 2 |};
    {| config_type := "text"; action := "summary_output"; modifier := 2 |};
    {| config_type := "text"; action := "arcs_input"; modifier := 2 |};
    {| config_type := "text"; action := "arcs_output"; modifier := 2 |};
    {| config_type := "text"; action := "chapter_guide_input"; modifier := 2 |};
    {| config_type := "text"; action := "chapter_guide_output"; modifier := 2 |};
    {| config_type := "text"; action := "chapter_input"; modifier := 2 |};
    {| config_type := "text"; action := "chapter_output"; modifier := 2 |} ].

Definition quote : string := String (Ascii.ascii_of_nat 34) EmptyString.

(** [{"characters":[],"locations":[]}] *)
Definition empty_meta_text : string :=
  ("{" ++ quote ++ "characters" ++ quote ++ ":[],"
       ++ quote ++ "locations" ++ quote ++ ":[]}")%string.

Definition empty_meta : json :=
  JObj [("characters", JArr []); ("locations", JArr [])].

(** A prompt counts 10,000 tokens for [gpt-4o-mini] and 3,000 for [o1-mini],
    a text of at most 40 characters 40; the only text that parses is
    [empty_meta_text]. *)
Definition env0 : Env :=
  {| count_tokens := fun text model =>
       if (String.length text <=? 40)%nat then 40
       else if (model =? "gpt-4o-mini")%string then 10000 else 3000;
     json_loads := fun text =>
       if (text =? empty_meta_text)%string then Some empty_meta else None;
     str_strip := fun text => text;
     build_meta_prompt := fun _ _ =>
       "Create the characters and the locations of this story.";
     build_chapter_summaries_prompt := fun _ _ =>
       "Summarise every chapter of this story in two sentences.";
     build_story_arcs_prompt := fun _ _ =>
       "Outline the arcs this story moves through, in order.";
     build_chapter_guide_prompt := fun _ _ =>
       "Break every chapter of this story into its parts.";
     build_chapter_content_prompt := fun _ _ _ =>
       "Write this chapter of the story, in Markdown, in full.";
     render_chapter_prompt := fun _ _ _ =>
       "Write this chapter of the story, in Markdown, in full." |}.

(** The model answers with the empty metadata; nothing outside fails. *)
Definition world0 : World :=
  {| chat_completion := fun _ _ => Ok empty_meta_text;
     images_generate := fun _ => Ok "https://images.example/1.png";
     requests_get := fun _ => Ok "JPEG";
     put_object := fun _ _ => Ok ();
     delay := fun call =>
       match call with
       | ImageTask _ _ _ _ _ _ => Ok "task-2"
       | _ => Ok "task-1"
       end |}.

(** The model is unreachable. *)
Definition world_down : World :=
  {| chat_completion := fun _ _ => Raise (Exn Exception_ "Connection error.");
     images_generate := fun _ => Raise (Exn Exception_ "Connection error.");
     requests_get := fun _ => Ok "JPEG";
     put_object := fun _ _ => Ok ();
     delay := fun _ => Ok "task-3" |}.

Definition story1 : Story :=
  {| st_id := 1; chapters_count := 3;
     cover_image_prompt := None; cover_image_key := None |}.

Definition chapter_of_story1 (n : Z) : Chapter :=
  {| ch_id := n; chapter_story := 1; chapter_number := n;
     title := JStr "Untitled"; summary := JNull; content := None;
     chapter_image_key := None; chapter_image_prompt := None |}.

(** User 1 holds 5 text credits, user 2 holds 1000 of each kind. *)
Definition db0 : Db :=
  {| users := {[ 1 := {| text_credits := NInt 5; image_credits := NInt 1;
                         audio_credits := NInt 0 |};
                 2 := {| text_credits := NInt 1000; image_credits := NInt 1000;
                         audio_credits := NInt 1000 |} ]};
     stories := {[ 1 := story1 ]};
     chapters := [chapter_of_story1 1; chapter_of_story1 2; chapter_of_story1 3];
     characters := [{| character_story := 1; character_name := JStr "Ada";
                       character_description := JNull;
                       example_dialogue := JNull |}];
     locations := [];
     story_arcs := [];
     chapter_guides := [];
     generation_logs := [];
     token_cost_configs := [seeded_token_cost_config];
     credit_configs := seeded_credit_configs |}.

Definition sys_of (d : Db) (held : gset Z) : Sys :=
  {| database := d; session := d; locks := held; outbox := [];
     broker := []; bucket := ∅ |}.

Definition sys0 : Sys := sys_of db0 ∅.

(** User 2 asks for chapter 1, then for a cover image; the image task runs
    while the chapter task is still queued. *)
Definition after_chapter_dispatch : Sys :=
  snd (serve (api_generate_chapter env0 world0 2 1 1) sys0).

Definition after_cover_dispatch : Sys :=
  snd (serve (api_generate_cover_image world0 2 1 "A lighthouse at dusk")
         after_chapter_dispatch).

Definition after_image_task : Sys :=
  snd (work (generate_image_task world0 "task-2" 1 "stories/1/cover.jpg"
               "A lighthouse at dusk" 2 (NFloat 4) None)
         after_cover_dispatch).

(** User 2 asks for metadata; the task runs, once with the model answering
    the empty metadata and once with the model unreachable. *)
Definition after_meta_dispatch : Sys :=
  snd (serve (api_generate_meta env0 world0 2 1) sys0).

Definition meta_call : TaskCall :=
  MetaTask 1 "Create the characters and the locations of this story." 2 10000.

Definition after_empty_meta : Sys :=
  snd (work (run_task env0 world0 "task-1" meta_call) after_meta_dispatch).

Definition after_failed_meta : Sys :=
  snd (work (run_task env0 world_down "task-1" meta_call) after_meta_dispatch).


(** The same deployment with the [o1] tier priced as the other one. *)
Definition db_cheap : Db :=
  {| users := users db0; stories := stories db0; chapters := chapters db0;
     characters := characters db0; locations := locations db0;
     story_arcs := story_arcs db0; chapter_guides := chapter_guides db0;
     generation_logs := generation_logs db0;
     token_cost_configs :=
       [{| cost_per_credit := 0.000999;
           cost_per_1m_input := 0.150;
           cost_per_1m_output := 0.600;
           o1_cost_per_credit := 0.000999;
           o1_cost_per_1m_input := 0.150;
           o1_cost_per_1m_output := 0.600;
           dall_e_price_per_image := 0.08 |}];
     credit_configs := credit_configs db0 |}.

(** The same deployment with no [CreditConfig] row at all. *)
Definition db_no_modifiers : Db := set_credit_configs (fun _ => []) db0.

End Scenario.

(** ** Predicates used to state the properties *)

(** A computation keeps an invariant of the system, however it ends. *)
Definition preserves {A} (I : Sys -> Prop) (m : M A) : Prop :=
  forall s, I s -> I (m s).2.

(** No lock beyond those of [L] is held. *)
Definition locks_within (L : gset Z) (s : Sys) : Prop := locks s ⊆ L.

(** Apart from user [u]'s, the locks held are those of [L]. *)
Definition locks_but (u : Z) (L : gset Z) (s : Sys) : Prop :=
  locks s ∖ {[u]} = L ∖ {[u]}.








(** ** The quote endpoints ([src/api/generation.py])

    The eight [predict_*] views: what a generation would cost, for a story
    the requester may see. *)

Inductive Quote :=
| QuoteStoryNotFound               (* [{"error": "Story not found."}], 404 *)
| QuoteTotal (cost : number).      (* [{"total_predicted_credit_cost": cost}] *)

Section Predict.

Variable env : Env.

Definition predict_meta_cost (story_id : Z) : M Quote :=
  story ← gets (fun s => stories (session s) !! story_id);
  match story with
  | None => mret QuoteStoryNotFound
  | Some st =>
      db ← gets session;
      prediction ← lift (calculate_predicted_meta_cost env db st);
      mret (QuoteTotal (NInt (total_predicted_credit_cost prediction)))
  end.

Definition predict_arcs_cost (story_id : Z) : M Quote :=
  story ← gets (fun s => stories (session s) !! story_id);
  match story with
  | None => mret QuoteStoryNotFound
  | Some st =>
      db ← gets session;
      prediction ← lift (calculate_predicted_story_arcs_cost env db st);
      mret (QuoteTotal (NInt (total_predicted_credit_cost prediction)))
  end.

Definition predict_chapter_guide_cost (story_id : Z) : M Quote :=
  story ← gets (fun s => stories (session s) !! story_id);
  match story with
  | None => mret QuoteStoryNotFound
  | Some st =>
      db ← gets session;
      prediction ← lift (calculate_predicted_chapter_guide_cost env db st);
      mret (QuoteTotal (NInt (total_predicted_credit_cost prediction)))
  end.

Definition predict_summaries_cost (story_id : Z) : M Quote :=
  story ← gets (fun s => stories (session s) !! story_id);
  match story with
  | None => mret QuoteStoryNotFound
  | Some st =>
      db ← gets session;
      prediction ← lift (calculate_predicted_summaries_cost env db st);
      mret (QuoteTotal (NInt (total_predicted_credit_cost prediction)))
  end.

Definition predict_chapter_cost (story_id chapter_number : Z) : M Quote :=
  story ← gets (fun s => stories (session s) !! story_id);
  match story with
  | None => mret QuoteStoryNotFound
  | Some st =>
      let chapter_index := chapter_number - 1 in
      db ← gets session;
      prediction ← lift (calculate_predicted_chapter_cost env db st chapter_index);
      mret (QuoteTotal (NInt (total_predicted_credit_cost prediction)))
  end.

Definition predict_all_chapters_cost (story_id : Z) : M Quote :=
  story ← gets (fun s => stories (session s) !! story_id);
  match story with
  | None => mret QuoteStoryNotFound
  | Some st =>
      db ← gets session;
      prediction ← lift (calculate_predicted_all_chapters_cost env db st);
      mret (QuoteTotal (NInt (all_total_predicted_credit_cost prediction)))
  end.

Definition predict_image_cost (story_id : Z) : M Quote :=
  story ← gets (fun s => stories (session s) !! story_id);
  match story with
  | None => mret QuoteStoryNotFound
  | Some st =>
      db ← gets session;
      prediction ← lift (calculate_image_cost db);
      mret (QuoteTotal (total_credit_cost prediction))
  end.

End Predict.

(** A quote request, by endpoint. *)
Inductive QuoteRequest :=
| PredictMeta (story : Z)
| PredictArcs (story : Z)
| PredictChapterGuide (story : Z)
| PredictSummaries (story : Z)
| PredictChapter (story chapter_number : Z)
| PredictAllChapters (story : Z)
| PredictImage (story : Z).

Definition handle_quote (env : Env) (q : QuoteRequest) : M Quote :=
  match q with
  | PredictMeta story => predict_meta_cost env story
  | PredictArcs story => predict_arcs_cost env story
  | PredictChapterGuide story => predict_chapter_guide_cost env story
  | PredictSummaries story => predict_summaries_cost env story
  | PredictChapter story n => predict_chapter_cost env story n
  | PredictAllChapters story => predict_all_chapters_cost env story
  | PredictImage story => predict_image_cost story
  end.

(** A quote is served as a request is: in a session of its own; an exception
    that leaves the view is a 500 response, here the exception itself. *)
Definition serve_quote (view : M Quote) (s : Sys) : res Quote * Sys :=
  try_finally view session_remove s.

(** The quote endpoint for what a dispatch request asks for. *)
Definition quote_of (req : Request) : QuoteRequest :=
  match req with
  | GenerateCoverImage _ story _ | GenerateChapterImage _ story _ _ =>
      PredictImage story
  | GenerateMeta _ story => PredictMeta story
  | GenerateArcs _ story => PredictArcs story
  | GenerateSummaries _ story => PredictSummaries story
  | GenerateChapterGuide _ story => PredictChapterGuide story
  | GenerateChapter _ story n => PredictChapter story n
  | GenerateAllChapters _ story => PredictAllChapters story
  end.

(** ** Start-up seeding of the pricing tables ([src/app.py])

    The two blocks of the application's start-up that fill an empty
    [TokenCostConfig] table and an empty [CreditConfig] table, and the
    commit that ends the start-up.  (The roles and the administrator's
    account created between them are rows of tables that are not part of
    this model.) *)

Definition set_token_cost_configs
    (f : list TokenCostConfig -> list TokenCostConfig) (d : Db) : Db :=
  {| users := users d; stories := stories d; chapters := chapters d;
     characters := characters d; locations := locations d;
     story_arcs := story_arcs d; chapter_guides := chapter_guides d;
     generation_logs := generation_logs d;
     token_cost_configs := f (token_cost_configs d);
     credit_configs := credit_configs d |}.

Definition seed_pricing : M unit :=
  token_rows ← gets (fun s => length (token_cost_configs (session s)));
  (if (token_rows =? 0)%nat then
     modify (with_session (set_token_cost_configs
       (fun l => l ++ [Scenario.seeded_token_cost_config])))
   else mret ());;
  credit_rows ← gets (fun s => length (credit_configs (session s)));
  (if (credit_rows =? 0)%nat then
     for_each Scenario.seeded_credit_configs (fun conf =>
       modify (with_session (set_credit_configs (fun l => l ++ [conf]))))
   else mret ());;
  commit.

(** ** The administrator's pricing and credit forms ([src/api/admin.py])

    The form fields arrive parsed ([float(...)], [int(...)]); a field that
    does not parse ends the request before anything below runs. *)

Inductive AdminResponse :=
| Redirected (flash : string)       (* [flash(...)], then a redirect *)
| AdminNotFound.                    (* [get_or_404] *)

(** [update_token_config]: the seven prices are written to the first pricing
    row.  The branch for an empty table builds the row from names that are
    not bound ([o1_cost_per_token] is the first it reads). *)
Definition update_token_config (prices : TokenCostConfig) : M AdminResponse :=
  token_config ← gets (fun s => token_cost_config_first (session s));
  match token_config with
  | None => lift (Raise (Exn NameError "name 'o1_cost_per_token' is not defined"))
  | Some _ =>
      modify (with_session (set_token_cost_configs (fun l => prices :: tail l)))
  end;;
  commit;;
  mret (Redirected "Token configuration updated successfully.").

(** [adjust_credits]: a balance of the user is set to the amount given. *)
Definition adjust_credits (user_id : Z) (credit_type : string)
    (new_credits : Z) : M AdminResponse :=
  user ← gets (fun s => users (session s) !! user_id);
  match user with
  | None => mret AdminNotFound
  | Some u =>
      (if (credit_type =? "text")%string then
         modify (with_session (set_users <[user_id :=
           {| text_credits := NInt new_credits;
              image_credits := image_credits u;
              audio_credits := audio_credits u |}]>))
       else if (credit_type =? "image")%string then
         modify (with_session (set_users <[user_id :=
           {| text_credits := text_credits u;
              image_credits := NInt new_credits;
              audio_credits := audio_credits u |}]>))
       else if (credit_type =? "audio")%string then
         modify (with_session (set_users <[user_id :=
           {| text_credits := text_credits u;
              image_credits := image_credits u;
              audio_credits := NInt new_credits |}]>))
       else mret ());;
      commit;;
      mret (Redirected "User Credits Adjusted")
  end.

(** An administrator's request is served as any request is. *)
Definition serve_admin (view : M AdminResponse) (s : Sys)
  : res AdminResponse * Sys :=
  try_finally view session_remove s.

(** ** Further predicates used to state the properties *)

(** The five text generation tasks. *)
Definition text_call (call : TaskCall) : bool :=
  match call with ImageTask _ _ _ _ _ _ => false | _ => true end.

(** The [generation_type] a task looks its row up by. *)
Definition call_kind (call : TaskCall) : string :=
  match call with
  | ImageTask _ _ _ _ _ _ => "image"
  | MetaTask _ _ _ _ => "meta"
  | StoryArcsTask _ _ _ _ => "story_arcs"
  | SummariesTask _ _ _ _ => "summaries"
  | ChapterGuideTask _ _ _ _ => "chapter_guide"
  | ChapterTask _ _ _ _ _ => "chapter"
  end.

(** The row a task run finds as its own: the first one with its task id, its
    user and its kind. *)
Definition own_row (task : string) (call : TaskCall) (l : list GenerationLog)
  : option nat :=
  find_index (fun r => (task_id r =? task)%string
                       && (user_id r =? task_user call)
                       && (generation_type r =? call_kind call)%string) l.

(** The events addressed to a room. *)
Definition room_of (e : Event) : Z :=
  match e with Notification _ room | Emitted _ room => room end.

(** The endpoints that enqueue one task for one row. *)
Definition single_job (req : Request) : bool :=
  match req with GenerateAllChapters _ _ => false | _ => true end.

(** The classes of the exceptions the pricing arithmetic can raise. *)
Definition pricing_error (e : exn) : Prop :=
  exn_cls e = AttributeError \/ exn_cls e = ZeroDivisionError \/
  exn_cls e = OverflowError \/ exn_cls e = ValueError.

(** Further deployments the properties are run on. *)
Module Scenario2.

(** Every text counts 200 tokens. *)
Definition env_flat : Env :=
  {| count_tokens := fun _ _ => 200;
     json_loads := json_loads Scenario.env0;
     str_strip := str_strip Scenario.env0;
     build_meta_prompt := build_meta_prompt Scenario.env0;
     build_chapter_summaries_prompt :=
       build_chapter_summaries_prompt Scenario.env0;
     build_story_arcs_prompt := build_story_arcs_prompt Scenario.env0;
     build_chapter_guide_prompt := build_chapter_guide_prompt Scenario.env0;
     build_chapter_content_prompt := build_chapter_content_prompt Scenario.env0;
     render_chapter_prompt := render_chapter_prompt Scenario.env0 |}.

(** The broker is unreachable: no call can be enqueued. *)
Definition world_no_broker : World :=
  {| chat_completion := chat_completion Scenario.world0;
     images_generate := images_generate Scenario.world0;
     requests_get := requests_get Scenario.world0;
     put_object := put_object Scenario.world0;
     delay := fun _ => Raise (Exn Exception_ "Error 111 connecting to broker.") |}.

(** A deployment whose pricing row was never created. *)
Definition db_unpriced : Db :=
  set_token_cost_configs (fun _ => []) Scenario.db0.


(** The model's reply parses to the number 5, whatever it is. *)
Definition env_scalar : Env :=
  {| count_tokens := count_tokens Scenario.env0;
     json_loads := fun _ => Some (JNum (NInt 5));
     str_strip := str_strip Scenario.env0;
     build_meta_prompt := build_meta_prompt Scenario.env0;
     build_chapter_summaries_prompt :=
       build_chapter_summaries_prompt Scenario.env0;
     build_story_arcs_prompt := build_story_arcs_prompt Scenario.env0;
     build_chapter_guide_prompt := build_chapter_guide_prompt Scenario.env0;
     build_chapter_content_prompt := build_chapter_content_prompt Scenario.env0;
     render_chapter_prompt := render_chapter_prompt Scenario.env0 |}.

(** Story 1 has two arcs and story 2 one; user 2's story-arcs job for story 1
    is queued. *)
Definition db_with_arcs : Db :=
  set_generation_logs
    (fun _ => [pending_log 2 "task-5" "story_arcs" (Some (NInt 120)) None])
    (set_story_arcs
       (fun _ => [ {| arc_story := 1; arc_text := JStr "Departure";
                      arc_order := 1 |};
                   {| arc_story := 2; arc_text := JStr "Another story";
                      arc_order := 1 |};
                   {| arc_story := 1; arc_text := JStr "Return";
                      arc_order := 2 |} ])
       Scenario.db0).




End Scenario2.

(** What a computation may not touch when it only fills in content: the
    users' rows and the generation log, as the session sees them. *)
Definition ledger (s : Sys) : gmap Z User * list GenerationLog :=
  (users (session s), generation_logs (session s)).

(** The tables no dispatch request writes to: the users (their credits), the
    generated characters, locations, arcs and guides, and the two pricing
    tables. *)
Definition beyond_dispatch (d : Db) :=
  (users d, characters d, locations d, story_arcs d, chapter_guides d,
   token_cost_configs d, credit_configs d).

(** The tables no worker writes to. *)
Definition pricing (d : Db) := (token_cost_configs d, credit_configs d).

(** A view of the system has the value [x], on the committed rows and in the
    session. *)
Definition keeps {X} (view : Db -> X) (x : X) (s : Sys) : Prop :=
  view (database s) = x /\ view (session s) = x.

(** Since the outbox was [o], only room [u] has been written to. *)
Definition only_to (u : Z) (o : list Event) (s : Sys) : Prop :=
  exists l, outbox s = o ++ l /\ Forall (fun e => room_of e = u) l.

(** The model call a task opens with, as [src/openai_handler.py] wraps it. *)
Definition model_call (env : Env) (w : World) (call : TaskCall) : res string :=
  match call with
  | ImageTask _ _ prompt _ _ _ => generate_image_from_prompt w prompt
  | MetaTask _ prompt _ _ => generate_meta_from_prompt env w prompt
  | StoryArcsTask _ prompt _ _ => generate_story_arcs_from_prompt env w prompt
  | SummariesTask _ prompt _ _ =>
      generate_chapter_summaries_from_prompt env w prompt
  | ChapterGuideTask _ prompt _ _ =>
      generate_chapter_guide_from_prompt env w prompt
  | ChapterTask _ prompt _ _ _ => generate_chapter_content_from_prompt env w prompt
  end.

(** A user's row after [cost] was taken from the text credits, which are
    then [balance]. *)
Definition debited (u : User) (balance : number) : User :=
  {| text_credits := balance; image_credits := image_credits u;
     audio_credits := audio_credits u |}.



(** [user.<credit_type>_credits], for the three credit types. *)
Definition credits_of (credit_type : string) (u : User) : option number :=
  if (credit_type =? "text")%string then Some (text_credits u)
  else if (credit_type =? "image")%string then Some (image_credits u)
  else if (credit_type =? "audio")%string then Some (audio_credits u)
  else None.

(** A user's row with the image credits at [balance]. *)
Definition image_debited (u : User) (balance : number) : User :=
  {| text_credits := text_credits u; image_credits := balance;
     audio_credits := audio_credits u |}.

(** * Properties *)

(** ** Reasoning about the error monad *)

Lemma bind_Ok {A B} (r : res A) (k : A -> res B) (b : B) :
  r ≫= k = Ok b -> exists a, r = Ok a /\ k a = Ok b.
Proof. destruct r as [a|e]; simpl; [eauto | discriminate]. Qed.

(** Splits the first bind of a hypothesis [x ← r; k = Ok b]. *)
Ltac bind_inv H :=
  let a := fresh "a" in
  let Ha := fresh "E" in
  apply bind_Ok in H; destruct H as (a & Ha & H).

Lemma find_index_Some {A} (p : A -> bool) (l : list A) i :
  find_index p l = Some i -> exists x, l !! i = Some x /\ p x = true.
Proof.
  revert i. induction l as [|x l IH]; intros i; simpl; [discriminate|].
  destruct (p x) eqn:Hp.
  - intros [= <-]. eauto.
  - destruct (find_index p l) as [j|]; simpl; [|discriminate].
    intros [= <-]. apply (IH j eq_refl).
Qed.

Lemma round_modified_2 (b : Z) : round_modified b (NInt 2) = Ok (b * 2).
Proof. reflexivity. Qed.

Lemma modifier_or_2_absent (db : Db) (a : string) :
  (forall c, c ∈ credit_configs db -> action c <> a) ->
  modifier_or_2 (credit_config_first db a) = NInt 2.
Proof.
  intros Hno. unfold credit_config_first.
  destruct (filter _ (credit_configs db)) as [|c l] eqn:E; [reflexivity|].
  assert (Hc : c ∈ filter (fun c => action c = a) (credit_configs db))
    by (rewrite E; left).
  apply list_elem_of_filter in Hc as [Ha Hin]. destruct (Hno c Hin Ha).
Qed.

(** ** The estimator *)

Ltac res_cases :=
  repeat (match goal with
          | |- context [token_cost_config_first ?d] =>
              destruct (token_cost_config_first d) eqn:?
          | |- context [chapter_neighbours ?l ?i] =>
              destruct (chapter_neighbours l i) eqn:?
          | |- context [tokens_per_credit ?a ?b] =>
              destruct (tokens_per_credit a b) eqn:?
          | |- context [round_tokens ?a ?b] =>
              destruct (round_tokens a b) eqn:?
          | |- context [round_modified ?a ?b] =>
              destruct (round_modified a b) eqn:?
          end; simpl).

(** Every estimator is its base costs followed by the modifier step. *)
Lemma estimate_spec env db path story idx itc text :
  estimate env db path story idx itc text =
  base_costs env db path story idx itc text ≫= with_modifiers db (path_kind path).
Proof.
  destruct path as [[]|[]];
  unfold estimate, base_costs, with_modifiers,
    calculate_predicted_meta_cost, calculate_actual_meta_cost,
    calculate_predicted_summaries_cost, calculate_actual_summaries_cost,
    calculate_predicted_story_arcs_cost, calculate_actual_story_arcs_cost,
    calculate_predicted_chapter_guide_cost, calculate_actual_chapter_guide_cost,
    calculate_predicted_chapter_cost, calculate_actual_chapter_cost, get_attr,
    mbind, res_bind;
  simpl.
  all: res_cases; reflexivity.
Qed.

Lemma base_costs_Ok env db path story idx itc text t_in pc_in b_in t_out pc_out b_out :
  base_costs env db path story idx itc text
    = Ok (t_in, pc_in, b_in, t_out, pc_out, b_out) ->
  exists q_in q_out,
    round_tokens t_in pc_in = Ok q_in /\
    round_tokens t_out pc_out = Ok q_out /\
    b_in = (if floored (path_kind path) then Z.max 1 q_in else q_in) /\
    b_out = (if floored (path_kind path) then Z.max 1 q_out else q_out).
Proof.
  unfold base_costs.
  destruct (path_tokens env db path story idx itc text) as [ti to].
  intros H. bind_inv H. bind_inv H.
  destruct (prices (path_kind path) a0) as [[credit per_in] per_out].
  bind_inv H. bind_inv H. bind_inv H. bind_inv H.
  injection H as <- <- <- <- <- <-. eauto 6.
Qed.

Lemma with_modifiers_Ok db k b r :
  with_modifiers db k b = Ok r ->
  exists t_in pc_in b_in t_out pc_out b_out,
    b = (t_in, pc_in, b_in, t_out, pc_out, b_out) /\
    tokens_in r = t_in /\ per_credit_in r = pc_in /\ base_in r = b_in /\
    tokens_out r = t_out /\ per_credit_out r = pc_out /\ base_out r = b_out /\
    round_modified b_in
      (modifier_or_2 (credit_config_first db (input_action k)))
      = Ok (modified_in r) /\
    round_modified b_out
      (modifier_or_2 (credit_config_first db (output_action k)))
      = Ok (modified_out r) /\
    total r = modified_in r + modified_out r.
Proof.
  destruct b as [[[[[t_in pc_in] b_in] t_out] pc_out] b_out]. simpl.
  intros H. bind_inv H. bind_inv H. injection H as <-. simpl.
  exists t_in, pc_in, b_in, t_out, pc_out, b_out. rewrite E, E0. tauto.
Qed.

(** C5, as the code has it: the minimum of 1 goes by kind, not by path.  The
    metadata, story-arcs and chapter-guide estimators compute
    [base_credit_cost_input = max(1, round(input_tokens / input_tokens_per_credit))]
    on their prediction and on their reconciliation path alike; the
    chapter-summaries and chapter-content estimators compute
    [round(input_tokens / input_tokens_per_credit)], unfloored, on both. *)
Theorem base_cost_floor_by_kind env db path story idx itc text r :
  estimate env db path story idx itc text = Ok r ->
  exists q,
    round_tokens (tokens_in r) (per_credit_in r) = Ok q /\
    base_in r = (if floored (path_kind path) then Z.max 1 q else q).
Proof.
  rewrite estimate_spec. intros H. bind_inv H.
  apply with_modifiers_Ok in H
    as (t_in & pc_in & b_in & t_out & pc_out & b_out & -> & Ht & Hp & Hb & _).
  apply base_costs_Ok in E as (q_in & q_out & Hq & _ & Hin & _).
  exists q_in. rewrite Ht, Hp, Hb. auto.
Qed.

Lemma base_cost_floor_by_kind_witness :
  exists r,
    estimate Scenario.env0 Scenario.db0 (Predicted Meta) Scenario.story1 0 0 ""
      = Ok r /\
    exists q,
      round_tokens (tokens_in r) (per_credit_in r) = Ok q /\
      base_in r = Z.max 1 q.
Proof.
  eexists. split; [vm_compute; reflexivity|].
  apply (base_cost_floor_by_kind Scenario.env0 Scenario.db0 (Predicted Meta)
           Scenario.story1 0 0 "").
  vm_compute; reflexivity.
Defined.

(** C5, as stated, fails in both directions.  With the [o1] tier priced at
    6660 tokens per credit, the chapter-content prediction of a 3,000-token
    prompt has base input cost 0 (a prediction path without the minimum),
    and the metadata reconciliation of 3,000 input tokens has base input
    cost 1 where the rounding gives 0 (a reconciliation path with it). *)
Lemma floor_is_not_by_path :
  (exists p,
     calculate_predicted_chapter_cost Scenario.env0 Scenario.db_cheap
       Scenario.story1 0 = Ok p /\
     p_input_tokens p = 3000 /\
     p_base_credit_cost_input p = 0) /\
  (exists a,
     calculate_actual_meta_cost Scenario.env0 Scenario.db_cheap 3000
       Scenario.empty_meta_text = Ok a /\
     round_tokens (a_input_tokens a) (a_input_tokens_per_credit a) = Ok 0 /\
     a_base_credit_cost_input a = 1).
Proof.
  split; eexists; (split; [vm_compute; reflexivity|]); split; reflexivity.
Qed.

(** C9: when [CreditConfig] has no row for an action [a], every estimator
    that looks [a] up (the ten token estimators, prediction and
    reconciliation, for their input or output action, and the image
    estimator for ["image"]) multiplies by 2 at that lookup and gets no
    error from it: it is exactly its base costs (where alone it can raise)
    followed by the other lookup's step and a doubling. *)
Theorem modifier_fallback env db a :
  (forall c, c ∈ credit_configs db -> action c <> a) ->
  (forall path story idx itc text,
     input_action (path_kind path) = a ->
     estimate env db path story idx itc text =
     base_costs env db path story idx itc text ≫=
       fun '(t_in, pc_in, b_in, t_out, pc_out, b_out) =>
         m_out ← round_modified b_out
            (modifier_or_2 (credit_config_first db (output_action (path_kind path))));
         Ok {| tokens_in := t_in; per_credit_in := pc_in; base_in := b_in;
               modified_in := b_in * 2;
               tokens_out := t_out; per_credit_out := pc_out;
               base_out := b_out; modified_out := m_out;
               total := b_in * 2 + m_out |}) /\
  (forall path story idx itc text,
     output_action (path_kind path) = a ->
     estimate env db path story idx itc text =
     base_costs env db path story idx itc text ≫=
       fun '(t_in, pc_in, b_in, t_out, pc_out, b_out) =>
         m_in ← round_modified b_in
            (modifier_or_2 (credit_config_first db (input_action (path_kind path))));
         Ok {| tokens_in := t_in; per_credit_in := pc_in; base_in := b_in;
               modified_in := m_in;
               tokens_out := t_out; per_credit_out := pc_out;
               base_out := b_out; modified_out := b_out * 2;
               total := m_in + b_out * 2 |}) /\
  (a = "image" ->
     calculate_image_cost db =
     c ← get_attr (token_cost_config_first db) "dall_e_price_per_image";
     Ok {| ic_base_credit_cost := dall_e_price_per_image c;
           ic_modifier := NInt 2;
           total_credit_cost := NFloat (dall_e_price_per_image c * 2) |}).
Proof.
  intros Hno. apply modifier_or_2_absent in Hno. repeat split.
  - intros path story idx itc text <-. rewrite estimate_spec.
    destruct (base_costs _ _ _ _ _ _ _)
      as [[[[[[t_in pc_in] b_in] t_out] pc_out] b_out]|e]; [|reflexivity].
    simpl. rewrite Hno, round_modified_2. reflexivity.
  - intros path story idx itc text <-. rewrite estimate_spec.
    destruct (base_costs _ _ _ _ _ _ _)
      as [[[[[[t_in pc_in] b_in] t_out] pc_out] b_out]|e]; [|reflexivity].
    simpl. rewrite Hno, round_modified_2.
    destruct (round_modified b_in _); reflexivity.
  - intros ->. unfold calculate_image_cost. rewrite Hno.
    destruct (get_attr _ _); reflexivity.
Qed.

Lemma modifier_fallback_witness :
  estimate Scenario.env0 Scenario.db_no_modifiers (Predicted Meta)
    Scenario.story1 0 0 ""
  = Ok {| tokens_in := 10000; per_credit_in := 6660; base_in := 2;
          modified_in := 4; tokens_out := 200; per_credit_out := 1665;
          base_out := 1; modified_out := 2; total := 6 |}.
Proof.
  assert (Hno : forall c, c ∈ credit_configs Scenario.db_no_modifiers ->
                          action c <> "meta_input")
    by (intros c Hc; inversion Hc).
  destruct (modifier_fallback Scenario.env0 Scenario.db_no_modifiers
              "meta_input" Hno) as [Hin _].
  rewrite (Hin (Predicted Meta) Scenario.story1 0 0 "" eq_refl).
  vm_compute. reflexivity.
Defined.

(** C10 (Scenario A): with [cost_per_credit = 0.000999] and
    [cost_per_1m_input = 0.150], a metadata prompt of exactly 10,000 tokens
    and the [meta_input] modifier 50, the prediction has
    [input_tokens_per_credit = 6660.0], [base_credit_cost_input = 2] and
    [modified_credit_cost_input = 100]. *)
Theorem scenario_a_metadata_prediction env db story c m p :
  token_cost_config_first db = Some c ->
  cost_per_credit c = 0.000999%float ->
  cost_per_1m_input c = 0.150%float ->
  count_tokens env (build_meta_prompt env db story) "gpt-4o-mini" = 10000 ->
  credit_config_first db "meta_input" = Some m ->
  modifier m = 50%float ->
  calculate_predicted_meta_cost env db story = Ok p ->
  p_input_tokens p = 10000 /\
  p_input_tokens_per_credit p = 6660%float /\
  p_base_credit_cost_input p = 2 /\
  p_modified_credit_cost_input p = 100.
Proof.
  intros Hc Hcredit Hin Htok Hm Hmod Hp.
  unfold calculate_predicted_meta_cost in Hp.
  rewrite Hc, Htok, Hm in Hp. simpl in Hp. rewrite Hcredit, Hin, Hmod in Hp.
  replace (tokens_per_credit 0.000999 0.150) with (Ok (A:=float) 6660%float) in Hp
    by (vm_compute; reflexivity).
  simpl in Hp. bind_inv Hp.
  replace (round_tokens 10000 6660) with (Ok (A:=Z) 2) in Hp
    by (vm_compute; reflexivity).
  simpl in Hp. bind_inv Hp.
  replace (round_modified (1 `max` 2) (NFloat 50)) with (Ok (A:=Z) 100) in Hp
    by (vm_compute; reflexivity).
  simpl in Hp. bind_inv Hp. injection Hp as <-. simpl. auto.
Qed.

Lemma scenario_a_metadata_prediction_witness :
  exists p,
    calculate_predicted_meta_cost Scenario.env0 Scenario.db0 Scenario.story1
      = Ok p /\
    p_input_tokens p = 10000 /\
    p_input_tokens_per_credit p = 6660%float /\
    p_base_credit_cost_input p = 2 /\
    p_modified_credit_cost_input p = 100.
Proof.
  eexists. split; [vm_compute; reflexivity|].
  eapply (scenario_a_metadata_prediction Scenario.env0 Scenario.db0
            Scenario.story1 Scenario.seeded_token_cost_config
            {| config_type := "text"; action := "meta_input"; modifier := 50 |});
    vm_compute; reflexivity.
Defined.

(** ** Invariants of computations in [M] *)

Section Preserves.
Context (I : Sys -> Prop).

Lemma preserves_ret {A} (a : A) : preserves I (mret a).
Proof. intros s H. exact H. Qed.

Lemma preserves_lift {A} (r : res A) : preserves I (lift r).
Proof. intros s H. exact H. Qed.

Lemma preserves_gets {A} (f : Sys -> A) : preserves I (gets f).
Proof. intros s H. exact H. Qed.

Lemma preserves_modify (f : Sys -> Sys) :
  (forall s, I s -> I (f s)) -> preserves I (modify f).
Proof. intros Hf s H. apply Hf, H. Qed.

Lemma preserves_bind {A B} (m : M A) (k : A -> M B) :
  preserves I m -> (forall a, preserves I (k a)) -> preserves I (m ≫= k).
Proof.
  intros Hm Hk s H. unfold mbind, M_bind. specialize (Hm s H).
  destruct (m s) as [[a|e] s']; simpl in *; [apply Hk, Hm | exact Hm].
Qed.

Lemma preserves_try_except {A} (body : M A) (handler : exn -> M A) :
  preserves I body -> (forall e, preserves I (handler e)) ->
  preserves I (try_except body handler).
Proof.
  intros Hb Hh s H. unfold try_except. specialize (Hb s H).
  destruct (body s) as [[a|e] s']; simpl in *; [exact Hb | apply Hh, Hb].
Qed.

Lemma preserves_try_finally {A} (body : M A) (cleanup : M unit) :
  preserves I body -> preserves I cleanup ->
  preserves I (try_finally body cleanup).
Proof.
  intros Hb Hc s H. unfold try_finally. specialize (Hb s H).
  destruct (body s) as [r s']; simpl in *. specialize (Hc s' Hb).
  destruct (cleanup s') as [[u|e] s'']; exact Hc.
Qed.

Lemma preserves_for_each {A} (l : list A) (f : A -> M unit) :
  (forall x, preserves I (f x)) -> preserves I (for_each l f).
Proof.
  intros Hf. induction l as [|x l IH]; simpl.
  - apply preserves_ret.
  - apply preserves_bind; [apply Hf | intros _; exact IH].
Qed.

End Preserves.

(** Whatever the body did, the state after [try: ... finally: cleanup] is one
    the cleanup has just run on. *)
Lemma try_finally_post {A} (body : M A) (cleanup : M unit) (Q : Sys -> Prop) :
  (forall s, Q (cleanup s).2) -> forall s, Q (try_finally body cleanup s).2.
Proof.
  intros Hc s. unfold try_finally. destruct (body s) as [r s'].
  specialize (Hc s'). destruct (cleanup s') as [[u|e] s'']; exact Hc.
Qed.

Ltac head_of t := lazymatch t with ?f _ => head_of f | _ => t end.

(** One structural step of an invariant proof: the combinators by their
    lemmas, a branch by cases, and any other computation by its definition. *)
Ltac pres_step :=
  lazymatch goal with
  | |- preserves _ (mret _) => apply preserves_ret
  | |- preserves _ (lift _) => apply preserves_lift
  | |- preserves _ (gets _) => apply preserves_gets
  | |- preserves _ (mbind _ _) => apply preserves_bind; [|intros ?]
  | |- preserves _ (try_except _ _) => apply preserves_try_except; [|intros ?]
  | |- preserves _ (try_finally _ _) => apply preserves_try_finally
  | |- preserves _ (for_each _ _) => apply preserves_for_each; intros ?
  | |- preserves _ (match ?x with _ => _ end) => destruct x
  | |- preserves _ (modify _) => apply preserves_modify; intros ? ?
  | |- preserves _ ?m => let h := head_of m in unfold h
  end.

(** ** The generation lock *)

Lemma cleanup_releases (u : Z) (s : Sys) :
  u ∉ locks ((clear_user_generation_lock u;; session_remove) s).2.
Proof. simpl. set_solver. Qed.

Lemma task_cleanup_releases {A} (body : M A) (u : Z) (s : Sys) :
  u ∉ locks (try_finally body
               (clear_user_generation_lock u;; session_remove) s).2.
Proof.
  apply (try_finally_post body _ (fun s' => u ∉ locks s')).
  apply cleanup_releases.
Qed.

Lemma run_task_releases env w task call s :
  task_user call ∉ locks (run_task env w task call s).2.
Proof.
  destruct call; unfold run_task; simpl;
    [ unfold generate_image_task | unfold generate_meta_task
    | unfold generate_story_arcs_task | unfold generate_summaries_task
    | unfold generate_chapter_guide_task | unfold generate_chapter_task ];
    unfold query_log, gets, mbind at 1, M_bind at 1;
    apply task_cleanup_releases.
Qed.


Lemma serve_preserves (I : Sys -> Prop) (view : M Response) (s : Sys) :
  preserves I view -> preserves I session_remove -> I s -> I (serve view s).2.
Proof.
  intros Hv Hr H. unfold serve.
  pose proof (preserves_try_finally I view session_remove Hv Hr s H) as H'.
  destruct (try_finally view session_remove s) as [[r|e] s']; exact H'.
Qed.

(** Solves an invariant on the locks once the computation is taken apart. *)
Ltac locks_solve :=
  unfold locks_within, locks_but in *; simpl; try case_decide; simpl;
  set_solver.

Lemma session_remove_locks_within L : preserves (locks_within L) session_remove.
Proof. repeat pres_step. locks_solve. Qed.

Lemma session_remove_locks_but u L : preserves (locks_but u L) session_remove.
Proof. repeat pres_step. locks_solve. Qed.

Lemma cover_image_dispatch_takes_no_lock w uid story prompt L :
  preserves (locks_within L) (api_generate_cover_image w uid story prompt).
Proof. unfold api_generate_cover_image. repeat pres_step; locks_solve. Qed.

Lemma chapter_image_dispatch_takes_no_lock w uid story chapter prompt L :
  preserves (locks_within L) (api_generate_chapter_image w uid story chapter prompt).
Proof. unfold api_generate_chapter_image. repeat pres_step; locks_solve. Qed.

Lemma image_task_touches_one_lock w task story key prompt user cost chapter L :
  preserves (locks_but user L)
    (generate_image_task w task story key prompt user cost chapter).
Proof. unfold generate_image_task. repeat pres_step; locks_solve. Qed.

(** C4: the image endpoints never acquire the generation lock (no lock is
    held after an image dispatch that was not held before it), yet the image
    task deletes its user's lock in its cleanup on every run: after it the
    locks held are those held before, less that user's, whoever had taken
    it.  So when a text job of the same user is in flight, the image job's
    end removes that job's lock. *)
Theorem image_task_deletes_lock_it_never_took w :
  (forall uid story prompt s,
     locks (serve (api_generate_cover_image w uid story prompt) s).2 ⊆ locks s) /\
  (forall uid story chapter prompt s,
     locks (serve (api_generate_chapter_image w uid story chapter prompt) s).2
       ⊆ locks s) /\
  (forall task story key prompt user cost chapter s,
     locks (work (generate_image_task w task story key prompt user cost chapter) s).2
       = locks s ∖ {[user]}).
Proof.
  split; [|split].
  - intros uid story prompt s.
    apply (serve_preserves (locks_within (locks s))).
    + apply cover_image_dispatch_takes_no_lock.
    + apply session_remove_locks_within.
    + unfold locks_within. set_solver.
  - intros uid story chapter prompt s.
    apply (serve_preserves (locks_within (locks s))).
    + apply chapter_image_dispatch_takes_no_lock.
    + apply session_remove_locks_within.
    + unfold locks_within. set_solver.
  - intros task story key prompt user cost chapter s.
    pose proof (run_task_releases Scenario.env0 w task
                  (ImageTask story key prompt user cost chapter) s) as Hfree.
    pose proof (image_task_touches_one_lock w task story key prompt user cost
                  chapter (locks s) s eq_refl) as Hframe.
    unfold work in *. simpl in Hfree. unfold locks_but in Hframe.
    set_solver.
Qed.

(** The race of C4, run: user 2's chapter job holds the lock; the same
    user's cover-image job is dispatched beside it and finishes first; the
    lock is gone although the chapter job is still pending, and a summaries
    request that was refused before the image task ended is now accepted. *)
Example image_job_frees_the_chapter_jobs_lock :
  2 ∈ locks Scenario.after_cover_dispatch /\
  fst (serve (api_generate_summaries Scenario.env0 Scenario.world0 2 1)
         Scenario.after_cover_dispatch) = AlreadyInProgress /\
  locks Scenario.after_image_task = ∅ /\
  (status <$> generation_logs (database Scenario.after_image_task))
    = ["pending"; "succeeded"] /\
  fst (serve (api_generate_summaries Scenario.env0 Scenario.world0 2 1)
         Scenario.after_image_task) = Queued (Some "task-1") (NInt 108).
Proof. repeat split; vm_compute; reflexivity. Qed.

(** ** The dispatch endpoints, path by path *)

#[local] Arguments can_spend_credits : simpl never.
#[local] Arguments is_last_generation_and_negative_creds : simpl never.
#[local] Arguments calculate_image_cost : simpl never.
#[local] Arguments calculate_predicted_meta_cost : simpl never.
#[local] Arguments calculate_predicted_story_arcs_cost : simpl never.
#[local] Arguments calculate_predicted_summaries_cost : simpl never.
#[local] Arguments calculate_predicted_chapter_guide_cost : simpl never.
#[local] Arguments calculate_predicted_chapter_cost : simpl never.
#[local] Arguments calculate_predicted_all_chapters_cost : simpl never.
#[local] Arguments calculate_actual_meta_cost : simpl never.
#[local] Arguments chapter_subscripts : simpl never.
#[local] Arguments story_chapters : simpl never.
#[local] Arguments for_each : simpl never.
#[local] Arguments find_index : simpl never.
#[local] Arguments meta_is_empty : simpl never.

(** Opens a request or a task run down to the results it branches on. *)
Ltac unfold_M :=
  unfold serve, work, try_finally, try_except, handle,
    api_generate_cover_image, api_generate_chapter_image, api_generate_meta,
    api_generate_arcs, api_generate_summaries, api_generate_chapter_guide,
    api_generate_chapter, api_generate_all_chapters,
    get_current_user, guard, enqueue, add_log, notify, emit, commit, rollback,
    session_remove, set_user_generation_lock, clear_user_generation_lock,
    query_log, lift, gets, modify, mbind, M_bind, mret, M_ret, get_attr.







(** Runs a request or a task symbolically, by cases on every result it
    branches on. *)
Ltac exec :=
  unfold_M; simpl;
  repeat (first [progress unfold_M | case_match]; simplify_eq/=).









(** *** Requests rejected for insufficient credits *)

(** No rejected request creates a job: the log and the queue are as before.
    The response carries the available amount exactly for the text kinds. *)
Lemma rejection_creates_no_job env w req s required available :
  idle s ->
  fst (serve (handle env w req) s) = NotEnoughCredits required available ->
  generation_logs (database (snd (serve (handle env w req) s)))
    = generation_logs (database s) /\
  broker (snd (serve (handle env w req) s)) = broker s /\
  (available = None <-> request_kind req = "image").
Proof.
  unfold idle. intros Hidle. destruct req.
  all: exec; try discriminate; intros; simplify_eq/=; rewrite ?Hidle;
    repeat split; auto; try discriminate.
Qed.

(** The chapter endpoints release the lock they took. *)
Lemma chapter_rejection_releases_lock env w uid story n s required available :
  uid ∉ locks s ->
  fst (serve (api_generate_chapter env w uid story n) s)
    = NotEnoughCredits required available ->
  uid ∉ locks (snd (serve (api_generate_chapter env w uid story n) s)).
Proof.
  intros Hfree. exec; try discriminate; intros; simplify_eq/=; set_solver.
Qed.

Lemma all_chapters_rejection_releases_lock env w uid story s required available :
  uid ∉ locks s ->
  fst (serve (api_generate_all_chapters env w uid story) s)
    = NotEnoughCredits required available ->
  uid ∉ locks (snd (serve (api_generate_all_chapters env w uid story) s)).
Proof.
  intros Hfree. exec; try discriminate; intros; simplify_eq/=; set_solver.
Qed.

(** C3, where the code departs from it: a chapter-summaries request rejected
    for insufficient credits has taken the user's generation lock and
    returns without releasing it (its siblings for chapter content do
    release it); no job row is created and nothing is queued, but the lock
    stays held after the rejection. *)
Theorem summaries_rejection_keeps_lock env w uid story s required available :
  uid ∉ locks s ->
  fst (serve (api_generate_summaries env w uid story) s)
    = NotEnoughCredits required available ->
  uid ∈ locks (snd (serve (api_generate_summaries env w uid story) s)) /\
  database (snd (serve (api_generate_summaries env w uid story) s))
    = database s /\
  broker (snd (serve (api_generate_summaries env w uid story) s)) = broker s.
Proof.
  intros Hfree. exec; try discriminate; intros; simplify_eq/=;
    (split; [set_solver|auto]).
Qed.

Lemma summaries_rejection_keeps_lock_witness :
  fst (serve (api_generate_summaries Scenario.env0 Scenario.world0 1 1)
         Scenario.sys0) = NotEnoughCredits (NInt 108) (Some (NInt 5)) /\
  1 ∈ locks (snd (serve (api_generate_summaries Scenario.env0 Scenario.world0
                            1 1) Scenario.sys0)).
Proof.
  split; [vm_compute; reflexivity|].
  apply (summaries_rejection_keeps_lock Scenario.env0 Scenario.world0 1 1
           Scenario.sys0 (NInt 108) (Some (NInt 5)));
    [vm_compute; set_solver | vm_compute; reflexivity].
Defined.

(** ** The metadata task on an empty result *)

(** C6, where the code departs from it: when the model's metadata parses to
    zero locations and zero characters, the task takes the failure path up
    to a point (it notifies "Metadata Generation Failed", persists nothing,
    debits nothing and releases the lock) and then returns early, before
    anything writes the job's row: the whole database, the row included, is
    as the task found it, so the job stays [pending] and is never marked
    [failed]. *)
Theorem empty_metadata_leaves_job_pending
    env w task story prompt user tokens s text result :
  chat_completion w "gpt-4o-mini" prompt = Ok text ->
  json_loads env (str_strip env text) = Some result ->
  meta_is_empty result = Ok true ->
  let out := work (generate_meta_task env w task story prompt user tokens) s in
  fst out = Ok ReturnedNone /\
  database (snd out) = database s /\
  (user ∉ locks (snd out)) /\
  outbox (snd out) = outbox s ++ [Notification "Metadata Generation Failed" user].
Proof.
  intros Hchat Hjson Hempty out. subst out.
  unfold generate_meta_task, generate_meta_from_prompt, stripped_or.
  unfold_M. simpl. rewrite Hchat. simpl. rewrite Hjson, Hempty. simpl.
  repeat split; auto. set_solver.
Qed.

Lemma empty_metadata_leaves_job_pending_witness :
  (status <$> generation_logs (database Scenario.after_meta_dispatch))
    = ["pending"] /\
  (status <$> generation_logs (database Scenario.after_empty_meta))
    = ["pending"] /\
  database Scenario.after_empty_meta = database Scenario.after_meta_dispatch /\
  2 ∉ locks Scenario.after_empty_meta.
Proof.
  pose proof (empty_metadata_leaves_job_pending Scenario.env0 Scenario.world0
                "task-1" 1
                "Create the characters and the locations of this story."
                2 10000 Scenario.after_meta_dispatch Scenario.empty_meta_text
                Scenario.empty_meta eq_refl eq_refl eq_refl)
    as (_ & Hdb & Hlock & _).
  split; [vm_compute; reflexivity|].
  split; [vm_compute; reflexivity|].
  split; [exact Hdb | exact Hlock].
Defined.

(** The sibling path: when the model call raises, the same row is marked
    [failed]. *)
Example failed_metadata_marks_job_failed :
  (status <$> generation_logs (database Scenario.after_failed_meta))
    = ["failed"].
Proof. vm_compute. reflexivity. Qed.

(** ** The life of a job row *)





Section LogsInv.
Context (l0 : list GenerationLog).







End LogsInv.

















(** ** The estimator: bounds, sums and agreement of the two paths *)

Lemma py_index_in_range {A} (l : list A) (i : Z) :
  - Z.of_nat (length l) <= i < Z.of_nat (length l) ->
  exists a, py_index l i = Ok a.
Proof.
  intros Hi. unfold py_index.
  set (n := Z.of_nat (length l)) in *.
  set (j := if i <? 0 then i + n else i).
  assert (Hj : 0 <= j < n) by (subst j; destruct (Z.ltb_spec i 0); lia).
  destruct (Z.ltb_spec j 0); [lia|]. destruct (Z.leb_spec n j); [lia|]. simpl.
  destruct (lookup_lt_is_Some_2 l (Z.to_nat j)) as [a Ha]; [lia|].
  rewrite Ha. eauto.
Qed.

Lemma py_index_out_of_range {A} (l : list A) (i : Z) :
  i < - Z.of_nat (length l) \/ Z.of_nat (length l) <= i ->
  py_index l i = Raise (Exn IndexError "list index out of range").
Proof.
  intros Hi. unfold py_index.
  set (n := Z.of_nat (length l)) in *.
  set (j := if i <? 0 then i + n else i).
  assert (Hj : j < 0 \/ n <= j) by (subst j; destruct (Z.ltb_spec i 0); lia).
  destruct (Z.ltb_spec j 0); [reflexivity|].
  destruct (Z.leb_spec n j); [reflexivity|lia].
Qed.

(** The subscripts of the chapter estimator succeed exactly on the window
    [-n .. n] of a story with [n] chapters. *)
Lemma chapter_neighbours_spec (l : list Chapter) (i : Z) :
  chapter_neighbours l i =
  if (- Z.of_nat (length l) <=? i) && (i <=? Z.of_nat (length l))
  then Ok () else Raise (Exn IndexError "list index out of range").
Proof.
  unfold chapter_neighbours. set (n := Z.of_nat (length l)).
  destruct (Z.leb_spec (- n) i) as [Hlo|Hlo]; simpl.
  - destruct (Z.leb_spec i n) as [Hhi|Hhi]; simpl.
    + assert (H1 : (if i <? n then _ ← py_index l i; Ok () else Ok ())
                   = Ok ()).
      { destruct (Z.ltb_spec i n); [|reflexivity].
        destruct (py_index_in_range l i) as [a ->]; [fold n; lia|reflexivity]. }
      rewrite H1. simpl.
      assert (H2 : (if 0 <=? i - 1 then _ ← py_index l (i - 1); Ok () else Ok ())
                   = Ok ()).
      { destruct (Z.leb_spec 0 (i - 1)); [|reflexivity].
        destruct (py_index_in_range l (i - 1)) as [a ->];
          [fold n; lia|reflexivity]. }
      rewrite H2. simpl.
      destruct (Z.ltb_spec (i + 1) n); [|reflexivity].
      destruct (py_index_in_range l (i + 1)) as [a ->];
        [fold n; lia|reflexivity].
    + destruct (Z.ltb_spec i n); [lia|]. simpl.
      destruct (Z.leb_spec 0 (i - 1)); [|lia].
      rewrite (py_index_out_of_range l (i - 1)) by (fold n; lia). reflexivity.
  - destruct (Z.ltb_spec i n); [|lia].
    rewrite (py_index_out_of_range l i) by (fold n; lia). reflexivity.
Qed.

Lemma get_attr_error {A} (o : option A) attr e :
  get_attr o attr = Raise e -> pricing_error e.
Proof. destruct o; intros [= <-]. left. reflexivity. Qed.

Lemma truediv_error x y e : Py.truediv x y = Raise e -> pricing_error e.
Proof.
  unfold Py.truediv. destruct (is_zero y); intros [= <-].
  right. left. reflexivity.
Qed.

Lemma float_of_int_error z e : Py.float_of_int z = Raise e -> pricing_error e.
Proof.
  unfold Py.float_of_int. destruct (is_infinity _); intros [= <-].
  right. right. left. reflexivity.
Qed.

Lemma round_error x e : Py.round x = Raise e -> pricing_error e.
Proof.
  unfold Py.round. destruct (Prim2SF x); intros [= <-]; unfold pricing_error;
    simpl; auto.
Qed.

Lemma bind_Raise {A B} (r : res A) (k : A -> res B) (e : exn) :
  r ≫= k = Raise e -> r = Raise e \/ exists a, r = Ok a /\ k a = Raise e.
Proof. destruct r as [a|e']; simpl; [eauto | intros [= ->]; auto]. Qed.

Lemma tokens_per_credit_error c m e :
  tokens_per_credit c m = Raise e -> pricing_error e.
Proof.
  unfold tokens_per_credit. intros H.
  apply bind_Raise in H as [H | (q & _ & [=])]. eapply truediv_error, H.
Qed.

Lemma round_tokens_error t p e : round_tokens t p = Raise e -> pricing_error e.
Proof.
  unfold round_tokens. intros H.
  apply bind_Raise in H as [H | (f & _ & H)]; [eapply float_of_int_error, H|].
  apply bind_Raise in H as [H | (q & _ & H)]; [eapply truediv_error, H|].
  eapply round_error, H.
Qed.

Lemma to_float_error a e : Py.to_float a = Raise e -> pricing_error e.
Proof. destruct a; simpl; [apply float_of_int_error | discriminate]. Qed.

Lemma round_modified_error b m e :
  round_modified b m = Raise e -> pricing_error e.
Proof.
  unfold round_modified. intros H.
  apply bind_Raise in H as [H | (x & _ & H)].
  - destruct m as [z|f]; simpl in H; [discriminate|].
    apply bind_Raise in H as [H | (x & _ & H)]; [eapply float_of_int_error, H|].
    discriminate.
  - destruct x; simpl in H; [discriminate | eapply round_error, H].
Qed.

Lemma with_modifiers_error db k b e :
  with_modifiers db k b = Raise e -> pricing_error e.
Proof.
  destruct b as [[[[[t_in pc_in] b_in] t_out] pc_out] b_out]. simpl. intros H.
  apply bind_Raise in H as [H | (m & _ & H)]; [eapply round_modified_error, H|].
  apply bind_Raise in H as [H | (m' & _ & H)]; [eapply round_modified_error, H|].
  discriminate.
Qed.

(** Past the chapter subscripts, an estimator raises nothing but a pricing
    error. *)
Lemma base_costs_error env db path story idx itc text e :
  base_costs env db path story idx itc text = Raise e ->
  pricing_error e \/
  (path = Predicted ChapterContent /\
   chapter_neighbours (story_chapters db story) idx = Raise e).
Proof.
  unfold base_costs.
  destruct (path_tokens env db path story idx itc text) as [ti to].
  intros H. apply bind_Raise in H as [H | (u & _ & H)].
  - right. destruct path as [[]|k]; try discriminate H. auto.
  - left. apply bind_Raise in H as [H | (c & _ & H)]; [eapply get_attr_error, H|].
    destruct (prices (path_kind path) c) as [[credit per_in] per_out].
    apply bind_Raise in H as [H | (x1 & _ & H)];
      [eapply tokens_per_credit_error, H|].
    apply bind_Raise in H as [H | (x2 & _ & H)];
      [eapply tokens_per_credit_error, H|].
    apply bind_Raise in H as [H | (x3 & _ & H)]; [eapply round_tokens_error, H|].
    apply bind_Raise in H as [H | (x4 & _ & H)]; [eapply round_tokens_error, H|].
    discriminate.
Qed.

Lemma estimate_error env db path story idx itc text e :
  estimate env db path story idx itc text = Raise e ->
  pricing_error e \/
  (path = Predicted ChapterContent /\
   chapter_neighbours (story_chapters db story) idx = Raise e).
Proof.
  rewrite estimate_spec. intros H.
  apply bind_Raise in H as [H | (b & _ & H)].
  - eapply base_costs_error, H.
  - left. eapply with_modifiers_error, H.
Qed.

Lemma predicted_chapter_estimate env db story i :
  estimate env db (Predicted ChapterContent) story i 0 "" =
  p ← calculate_predicted_chapter_cost env db story i; Ok (costs_of_prediction p).
Proof. reflexivity. Qed.

(** X1.  The chapter estimator takes Python subscripts of the story's chapter
    list at [chapter_index], [chapter_index - 1] and [chapter_index + 1],
    each behind its own test.  For a story of [n] chapters they succeed
    exactly for [-n <= chapter_index <= n]: outside that window the estimator
    raises [IndexError] before it looks at any price; inside it (negative
    indices and the index [n] one past the last chapter included) no
    [IndexError] is raised, whatever else goes wrong. *)
Theorem chapter_prediction_index_window env db story chapter_index :
  let n := Z.of_nat (length (story_chapters db story)) in
  (chapter_index < - n \/ n < chapter_index ->
   calculate_predicted_chapter_cost env db story chapter_index
     = Raise (Exn IndexError "list index out of range")) /\
  (- n <= chapter_index <= n ->
   forall e,
     calculate_predicted_chapter_cost env db story chapter_index = Raise e ->
     exn_cls e <> IndexError).
Proof.
  intros n. split.
  - intros Hout. unfold calculate_predicted_chapter_cost.
    rewrite chapter_neighbours_spec. fold n.
    destruct (Z.leb_spec (- n) chapter_index); simpl; [|reflexivity].
    destruct (Z.leb_spec chapter_index n); simpl; [lia|reflexivity].
  - intros Hin e He.
    assert (H : estimate env db (Predicted ChapterContent) story chapter_index
                  0 "" = Raise e)
      by (rewrite predicted_chapter_estimate, He; reflexivity).
    apply estimate_error in H as [H | [_ H]].
    + unfold pricing_error in H. intros Hc. rewrite Hc in H.
      destruct H as [H|[H|[H|H]]]; discriminate H.
    + rewrite chapter_neighbours_spec in H. fold n in H.
      destruct (Z.leb_spec (- n) chapter_index); [|lia].
      destruct (Z.leb_spec chapter_index n); [|lia]. discriminate H.
Qed.

Lemma mapM_res_Ok {A B} (f : A -> res B) (l : list A) (ys : list B) :
  mapM f l = Ok ys -> Forall2 (fun x y => f x = Ok y) l ys.
Proof.
  revert ys. induction l as [|x l IH]; intros ys; simpl.
  - intros [= <-]. constructor.
  - intros H. bind_inv H. bind_inv H. injection H as <-.
    constructor; [assumption | apply IH; assumption].
Qed.

Lemma foldl_total_cost (infos : list (Z * Prediction)) (z : Z) :
  foldl (fun total_cost ci => total_cost + total_predicted_credit_cost ci.2)
        z infos
  = z + foldr Z.add 0 ((fun ci => total_predicted_credit_cost ci.2) <$> infos).
Proof.
  revert z. induction infos as [|ci infos IH]; intros z; simpl.
  - symmetry. apply Z.add_0_r.
  - rewrite IH. symmetry. apply Z.add_assoc.
Qed.

(** X2.  The bulk prediction is the per-chapter predictions put together:
    when it returns, its breakdown has one entry per chapter of the story, in
    order, the entry of index [k] being what the chapter estimator returns
    for [k] on the same database, and its total is the sum of the entries'
    totals. *)
Theorem all_chapters_prediction_is_the_sum env db story r :
  calculate_predicted_all_chapters_cost env db story = Ok r ->
  length (breakdown r) = length (story_chapters db story) /\
  (forall k ci, breakdown r !! k = Some ci ->
     fst ci = Z.of_nat k /\
     calculate_predicted_chapter_cost env db story (Z.of_nat k) = Ok (snd ci)) /\
  all_total_predicted_credit_cost r
    = foldr Z.add 0 ((fun ci => total_predicted_credit_cost ci.2) <$> breakdown r).
Proof.
  unfold calculate_predicted_all_chapters_cost. intros H. bind_inv H.
  injection H as <-. simpl. apply mapM_res_Ok in E.
  split; [|split].
  - apply Forall2_length in E. rewrite <- E, length_seqZ. lia.
  - intros k ci Hk.
    eapply Forall2_lookup_r in Hk as (i & Hi & Hf); [|exact E].
    apply lookup_seqZ in Hi as [-> _]. simpl in Hf.
    bind_inv Hf. injection Hf as <-. simpl.
    rewrite Z.add_0_l in E0. auto.
  - rewrite foldl_total_cost. lia.
Qed.

Lemma all_chapters_prediction_is_the_sum_witness :
  exists r,
    calculate_predicted_all_chapters_cost Scenario.env0 Scenario.db0
      Scenario.story1 = Ok r /\
    length (breakdown r) = 3%nat /\
    all_total_predicted_credit_cost r
      = foldr Z.add 0 ((fun ci => total_predicted_credit_cost ci.2) <$> breakdown r).
Proof.
  eexists. split; [vm_compute; reflexivity|].
  destruct (all_chapters_prediction_is_the_sum Scenario.env0 Scenario.db0
              Scenario.story1 _ eq_refl) as (Hlen & _ & Hsum).
  split; [exact Hlen | exact Hsum].
Defined.

Lemma base_costs_actual env db k story idx itc0 text0 text
    t_in pc_in b_in t_out pc_out b_out :
  base_costs env db (Predicted k) story idx itc0 text0
    = Ok (t_in, pc_in, b_in, t_out, pc_out, b_out) ->
  count_tokens env text (model_of k) = t_out ->
  base_costs env db (Actual k) story idx t_in text
    = Ok (t_in, pc_in, b_in, t_out, pc_out, b_out).
Proof.
  unfold base_costs. simpl path_kind. intros H Htok.
  destruct (path_tokens env db (Predicted k) story idx itc0 text0)
    as [ti to] eqn:Ep.
  bind_inv H. bind_inv H.
  destruct (prices k a0) as [[credit per_in] per_out] eqn:Epr.
  bind_inv H. bind_inv H. bind_inv H. bind_inv H.
  injection H as <- <- <- <- <- <-.
  simpl. rewrite Htok, E0. simpl. rewrite Epr, E1, E2. simpl.
  rewrite E3, E4. reflexivity.
Qed.

(** X3.  A prediction and its reconciliation are the same arithmetic: if the
    text the model returns counts exactly the output tokens the prediction
    assumed, then the reconciliation made for the prediction's input token
    count returns the prediction's figures, so the amount debited is the
    amount quoted.  This holds for each of the five text kinds. *)
Theorem reconciliation_matches_prediction env db k story idx itc0 text0 text p :
  estimate env db (Predicted k) story idx itc0 text0 = Ok p ->
  count_tokens env text (model_of k) = tokens_out p ->
  estimate env db (Actual k) story idx (tokens_in p) text = Ok p.
Proof.
  rewrite !estimate_spec. simpl path_kind. intros H Htok. bind_inv H.
  pose proof H as Hm.
  apply with_modifiers_Ok in Hm
    as (t_in & pc_in & b_in & t_out & pc_out & b_out & -> & Ht & _ & _ & Ho & _).
  rewrite Ht. rewrite Ho in Htok.
  rewrite (base_costs_actual _ _ _ _ _ _ _ _ _ _ _ _ _ _ E Htok). exact H.
Qed.

Lemma reconciliation_matches_prediction_witness :
  estimate Scenario2.env_flat Scenario.db0 (Actual Meta) Scenario.story1 0 200
    "{}"
  = Ok {| tokens_in := 200; per_credit_in := 6660; base_in := 1;
          modified_in := 50; tokens_out := 200; per_credit_out := 1665;
          base_out := 1; modified_out := 50; total := 100 |}.
Proof.
  apply (reconciliation_matches_prediction Scenario2.env_flat Scenario.db0 Meta
           Scenario.story1 0 0 "" "{}"
           {| tokens_in := 200; per_credit_in := 6660; base_in := 1;
              modified_in := 50; tokens_out := 200; per_credit_out := 1665;
              base_out := 1; modified_out := 50; total := 100 |});
    vm_compute; reflexivity.
Defined.

(** ** What dispatch and workers never do *)

(** One structural step of a frame proof: as [pres_step], with the lock
    acquisition opened by cases. *)
Ltac frame_step :=
  lazymatch goal with
  | |- preserves _ (set_user_generation_lock _) =>
      let s := fresh "s" in let H := fresh "H" in
      intros s H; unfold set_user_generation_lock; case_decide
  | |- preserves _ (commit) => apply preserves_modify; intros ? ?
  | |- preserves _ (rollback) => apply preserves_modify; intros ? ?
  | |- _ => pres_step
  end.

Ltac open_request req :=
  destruct req; unfold handle;
    [ unfold api_generate_cover_image | unfold api_generate_chapter_image
    | unfold api_generate_meta | unfold api_generate_arcs
    | unfold api_generate_summaries | unfold api_generate_chapter_guide
    | unfold api_generate_chapter | unfold api_generate_all_chapters ].

Ltac open_task call :=
  destruct call; unfold run_task;
    [ unfold generate_image_task | unfold generate_meta_task
    | unfold generate_story_arcs_task | unfold generate_summaries_task
    | unfold generate_chapter_guide_task | unfold generate_chapter_task ].

Ltac keeps_solve :=
  unfold keeps, beyond_dispatch, pricing in *; simpl in *;
  intuition congruence.

Lemma handle_keeps env w req x :
  preserves (keeps beyond_dispatch x) (handle env w req).
Proof. open_request req; repeat frame_step; keeps_solve. Qed.

Lemma handle_keeps_bucket env w req b :
  preserves (fun s => bucket s = b) (handle env w req).
Proof. open_request req; repeat frame_step; simpl in *; congruence. Qed.

Lemma session_remove_keeps {X} (view : Db -> X) x :
  preserves (keeps view x) session_remove.
Proof. repeat frame_step. unfold keeps in *. simpl. tauto. Qed.

(** X4.  Dispatch writes job rows and image prompts and nothing else: no
    request, on any path, changes a user's credits, the generated
    characters, locations, arcs or guides, a price, or the image store.
    Credits are only ever debited by the workers. *)
Theorem dispatch_never_debits env w req s :
  idle s ->
  beyond_dispatch (database (snd (serve (handle env w req) s)))
    = beyond_dispatch (database s) /\
  bucket (snd (serve (handle env w req) s)) = bucket s.
Proof.
  intros Hidle. split.
  - apply (serve_preserves (keeps beyond_dispatch (beyond_dispatch (database s)))).
    + apply handle_keeps.
    + apply session_remove_keeps.
    + split; [reflexivity | rewrite Hidle; reflexivity].
  - apply (serve_preserves (fun s' => bucket s' = bucket s)).
    + apply handle_keeps_bucket.
    + repeat frame_step. simpl. assumption.
    + reflexivity.
Qed.

Lemma dispatch_never_debits_witness :
  users (database Scenario.after_chapter_dispatch) = users Scenario.db0.
Proof.
  destruct (dispatch_never_debits Scenario.env0 Scenario.world0
              (GenerateChapter 2 1 1) Scenario.sys0 eq_refl) as [H _].
  unfold beyond_dispatch in H. 
  exact (f_equal (fun x => x.1.1.1.1.1.1) H).
Defined.

Lemma only_to_refl u s : only_to u (outbox s) s.
Proof. exists []. rewrite app_nil_r. auto. Qed.

Ltac only_to_solve :=
  lazymatch goal with
  | H : only_to ?u ?o ?s |- only_to ?u ?o _ =>
      let l := fresh "l" in let Hl := fresh "Hl" in let Hf := fresh "Hf" in
      destruct H as (l & Hl & Hf); unfold only_to; simpl;
      first [ exists l; split; [exact Hl | exact Hf]
            | eexists (l ++ [_]); rewrite Hl, app_assoc;
              split; [reflexivity | apply Forall_app; split; [exact Hf|];
                                    repeat constructor ] ]
  end.

Lemma handle_only_to env w req o :
  preserves (only_to (request_user req) o) (handle env w req).
Proof. open_request req; repeat frame_step; only_to_solve. Qed.

Lemma run_task_only_to env w task call o :
  preserves (only_to (task_user call) o) (run_task env w task call).
Proof. open_task call; repeat frame_step; only_to_solve. Qed.

(** X5.  Nobody else is told: whatever a request or a task run does, the
    notifications and events it sends go to the room of the requesting user,
    respectively of the job's user, and what was sent before stays as it
    was. *)
Theorem events_go_to_the_jobs_user env w :
  (forall req s,
     exists l, outbox (snd (serve (handle env w req) s)) = outbox s ++ l /\
               Forall (fun e => room_of e = request_user req) l) /\
  (forall task call s,
     exists l, outbox (snd (work (run_task env w task call) s)) = outbox s ++ l /\
               Forall (fun e => room_of e = task_user call) l).
Proof.
  split.
  - intros req s.
    apply (serve_preserves (only_to (request_user req) (outbox s))).
    + apply handle_only_to.
    + repeat frame_step. only_to_solve.
    + apply only_to_refl.
  - intros task call s. unfold work.
    apply (run_task_only_to env w task call (outbox s) s), only_to_refl.
Qed.

Lemma run_task_keeps_broker env w task call b :
  preserves (fun s => broker s = b) (run_task env w task call).
Proof. open_task call; repeat frame_step; simpl in *; congruence. Qed.

Lemma run_task_touches_one_lock env w task call L :
  preserves (locks_but (task_user call) L) (run_task env w task call).
Proof. open_task call; repeat frame_step; locks_solve. Qed.

Lemma run_task_keeps_pricing env w task call x :
  preserves (keeps pricing x) (run_task env w task call).
Proof. open_task call; repeat frame_step; keeps_solve. Qed.

Lemma text_task_keeps_bucket env w task call b :
  text_call call = true ->
  preserves (fun s => bucket s = b) (run_task env w task call).
Proof.
  intros Ht. open_task call; try discriminate Ht;
    repeat frame_step; simpl in *; congruence.
Qed.

Lemma text_task_keeps_stories env w task call x :
  text_call call = true ->
  preserves (keeps stories x) (run_task env w task call).
Proof.
  intros Ht. open_task call; try discriminate Ht;
    repeat frame_step; keeps_solve.
Qed.

(** X6.  What a worker leaves alone.  A task run, of any of the six tasks and
    on any path, enqueues nothing, changes no price and takes no lock: the
    locks held after it are exactly those held before, less its user's.  A
    text task moreover leaves the stories' own rows and the image store as
    they were. *)
Theorem worker_frame env w task call s :
  idle s ->
  let s' := snd (work (run_task env w task call) s) in
  broker s' = broker s /\
  locks s' = locks s ∖ {[task_user call]} /\
  pricing (database s') = pricing (database s) /\
  (text_call call = true ->
   stories (database s') = stories (database s) /\ bucket s' = bucket s).
Proof.
  intros Hidle s'. subst s'. unfold work. repeat split.
  - apply (run_task_keeps_broker env w task call (broker s) s eq_refl).
  - pose proof (run_task_releases env w task call s) as Hfree.
    pose proof (run_task_touches_one_lock env w task call (locks s) s eq_refl)
      as Hframe.
    unfold locks_but in Hframe. set_solver.
  - apply (run_task_keeps_pricing env w task call (pricing (database s)) s).
    split; [reflexivity | rewrite Hidle; reflexivity].
  - apply (text_task_keeps_stories env w task call (stories (database s)) H s).
    split; [reflexivity | rewrite Hidle; reflexivity].
  - apply (text_task_keeps_bucket env w task call (bucket s) H s eq_refl).
Qed.

Lemma worker_frame_witness :
  broker Scenario.after_failed_meta = broker Scenario.after_meta_dispatch /\
  locks Scenario.after_failed_meta
    = locks Scenario.after_meta_dispatch ∖ {[2]}.
Proof.
  destruct (worker_frame Scenario.env0 Scenario.world_down "task-1"
              Scenario.meta_call Scenario.after_meta_dispatch)
    as (Hb & Hl & _).
  - vm_compute. reflexivity.
  - split; [exact Hb | exact Hl].
Defined.

(** ** Dispatch, path by path *)

Lemma queued_dispatch_shape env w req s t c :
  idle s -> single_job req = true ->
  fst (serve (handle env w req) s) = Queued t c ->
  exists task call real,
    generation_logs (database (snd (serve (handle env w req) s)))
      = generation_logs (database s)
        ++ [pending_log (request_user req) task (request_kind req) (Some c) real] /\
    broker (snd (serve (handle env w req) s)) = broker s ++ [(task, call)] /\
    delay w call = Ok task /\
    task_user call = request_user req /\
    call_kind call = request_kind req /\
    (request_kind req = "image" \/ (t = Some task /\ real = None)).
Proof.
  unfold idle. intros Hidle Hsingle. destruct s as [d ss L o b bk].
  simpl in Hidle. subst ss. destruct req; try discriminate Hsingle.
  all: exec; try discriminate; intros; simplify_eq/=.
  all: do 3 eexists; repeat split; eauto.
Qed.

Lemma find_index_cons {A} (p : A -> bool) (x : A) (l : list A) :
  find_index p (x :: l) = if p x then Some 0%nat else S <$> find_index p l.
Proof. reflexivity. Qed.

Lemma find_index_app_fresh {A} (p : A -> bool) (l : list A) (x : A) :
  Forall (fun y => p y = false) l -> p x = true ->
  find_index p (l ++ [x]) = Some (length l).
Proof.
  intros Hl Hx. induction Hl as [|y l Hy Hl IH]; simpl app;
    rewrite find_index_cons.
  - rewrite Hx. reflexivity.
  - rewrite Hy, IH. reflexivity.
Qed.

(** X7.  A queued request is one job: when a single-job endpoint answers
    "queued" with the cost [c], it has appended exactly one row to the
    generation log (pending, of the requester, of the endpoint's kind,
    carrying the broker's task id and [c] as predicted cost) and exactly one
    call to the queue, made for the requester; and unless an older row
    already carries that task id, the row is the one the call's task will
    look up as its own. *)
Theorem queued_dispatch_creates_one_job env w req s t c :
  idle s -> single_job req = true ->
  fst (serve (handle env w req) s) = Queued t c ->
  exists task call real,
    generation_logs (database (snd (serve (handle env w req) s)))
      = generation_logs (database s)
        ++ [pending_log (request_user req) task (request_kind req) (Some c) real] /\
    broker (snd (serve (handle env w req) s)) = broker s ++ [(task, call)] /\
    task_user call = request_user req /\
    (Forall (fun r => task_id r <> task) (generation_logs (database s)) ->
     own_row task call
       (generation_logs (database (snd (serve (handle env w req) s))))
     = Some (length (generation_logs (database s)))).
Proof.
  intros Hidle Hsingle Hq.
  destruct (queued_dispatch_shape env w req s t c Hidle Hsingle Hq)
    as (task & call & real & Hlogs & Hbroker & _ & Huser & Hkind & _).
  exists task, call, real. repeat split; try assumption.
  intros Hfresh. rewrite Hlogs. unfold own_row. apply find_index_app_fresh.
  - eapply Forall_impl; [exact Hfresh|]. intros r Hr. simpl in Hr.
    destruct (String.eqb_spec (task_id r) task); [contradiction|reflexivity].
  - simpl. rewrite Huser, Hkind, String.eqb_refl, Z.eqb_refl, String.eqb_refl.
    reflexivity.
Qed.

Lemma queued_dispatch_creates_one_job_witness :
  (task_id <$> generation_logs (database Scenario.after_meta_dispatch))
    = ["task-1"] /\
  (fst <$> broker Scenario.after_meta_dispatch) = ["task-1"].
Proof.
  destruct (queued_dispatch_creates_one_job Scenario.env0 Scenario.world0
              (GenerateMeta 2 1) Scenario.sys0 (Some "task-1") (NInt 150))
    as (task & call & real & Hlogs & Hbroker & _).
  - reflexivity.
  - reflexivity.
  - vm_compute. reflexivity.
  - split; vm_compute; reflexivity.
Defined.

(** X8.  The broker is down.  A single-job request that would have been
    queued is answered with a 500 carrying the broker's error when the
    enqueueing raises instead: no row is created, nothing is queued, and the
    handler deletes the requester's generation lock, whether the endpoint
    had taken it or not. *)
Theorem enqueue_failure_creates_no_job env w w' req s t c e :
  idle s -> single_job req = true ->
  fst (serve (handle env w req) s) = Queued t c ->
  (forall call, delay w' call = Raise e) ->
  fst (serve (handle env w' req) s) = Error500 (exn_msg e) /\
  generation_logs (database (snd (serve (handle env w' req) s)))
    = generation_logs (database s) /\
  broker (snd (serve (handle env w' req) s)) = broker s /\
  request_user req ∉ locks (snd (serve (handle env w' req) s)).
Proof.
  unfold idle. intros Hidle Hsingle. destruct s as [d ss L o b bk].
  simpl in Hidle. subst ss. destruct req; try discriminate Hsingle.
  all: intros Hq Hdown; revert Hq.
  all: unfold_M; simpl;
    repeat (first [progress unfold_M | rewrite Hdown | case_match];
            simplify_eq/=).
  all: try discriminate; intros; simplify_eq/=.
  all: repeat split; auto; set_solver.
Qed.

Lemma enqueue_failure_creates_no_job_witness :
  fst (serve (handle Scenario.env0 Scenario2.world_no_broker (GenerateSummaries 2 1))
         Scenario.sys0) = Error500 "Error 111 connecting to broker." /\
  2 ∉ locks (snd (serve (handle Scenario.env0 Scenario2.world_no_broker
                           (GenerateSummaries 2 1)) Scenario.sys0)).
Proof.
  destruct (enqueue_failure_creates_no_job Scenario.env0 Scenario.world0
              Scenario2.world_no_broker (GenerateSummaries 2 1) Scenario.sys0
              (Some "task-1") (NInt 108)
              (Exn Exception_ "Error 111 connecting to broker."))
    as (Hr & _ & _ & Hl).
  - reflexivity.
  - reflexivity.
  - vm_compute. reflexivity.
  - intros call. reflexivity.
  - split; [exact Hr | exact Hl].
Defined.

(** X9.  An estimation error after the lock was taken leaves it held.  The
    three lock-taking endpoints acquire the generation lock before they
    estimate the cost, outside any [try]: when the estimator raises (no
    pricing row, a zero price, a chapter subscript out of range), the
    exception leaves the view as a 500, nothing is queued, no row is
    created, and the requester's lock is still held. *)
Theorem estimation_failure_keeps_lock env w uid story_id s user st e :
  users (session s) !! uid = Some user ->
  is_last_generation_and_negative_creds (session s) uid user "summaries" = false ->
  is_last_generation_and_negative_creds (session s) uid user "chapter" = false ->
  stories (session s) !! story_id = Some st ->
  uid ∉ locks s ->
  (calculate_predicted_summaries_cost env (session s) st = Raise e ->
   let out := serve (api_generate_summaries env w uid story_id) s in
   fst out = Error500 (exn_msg e) /\ uid ∈ locks (snd out) /\
   database (snd out) = database s /\ broker (snd out) = broker s) /\
  (calculate_predicted_all_chapters_cost env (session s) st = Raise e ->
   let out := serve (api_generate_all_chapters env w uid story_id) s in
   fst out = Error500 (exn_msg e) /\ uid ∈ locks (snd out) /\
   database (snd out) = database s /\ broker (snd out) = broker s) /\
  (forall chapter_number,
     (story_chapters (session s) st <> [] /\
      chapter_number <= Z.of_nat (length (story_chapters (session s) st))) ->
     (chapter_subscripts (story_chapters (session s) st) chapter_number = Raise e \/
      (chapter_subscripts (story_chapters (session s) st) chapter_number = Ok () /\
       calculate_predicted_chapter_cost env (session s) st (chapter_number - 1)
         = Raise e)) ->
     let out := serve (api_generate_chapter env w uid story_id chapter_number) s in
     fst out = Error500 (exn_msg e) /\ uid ∈ locks (snd out) /\
     database (snd out) = database s /\ broker (snd out) = broker s).
Proof.
  intros Hu Hgs Hgc Hst Hfree. split; [|split].
  - intros He. unfold_M. simpl. rewrite Hu. simpl. rewrite Hgs. simpl.
    rewrite Hst. simpl. case_decide; [contradiction|]. simpl. rewrite He. simpl.
    repeat split; auto. set_solver.
  - intros He. unfold_M. simpl. rewrite Hu. simpl. rewrite Hgc. simpl.
    rewrite Hu. simpl. rewrite Hst. simpl.
    case_decide; [contradiction|]. simpl. rewrite He. simpl.
    repeat split; auto. set_solver.
  - intros n [Hne Hle] He. unfold_M. simpl. rewrite Hu. simpl. rewrite Hgc. simpl.
    rewrite Hu. simpl. rewrite Hst. simpl.
    case_decide; [contradiction|]. simpl.
    destruct (story_chapters (session s) st) as [|c l] eqn:El; [contradiction|].
    destruct (Z.ltb_spec (Z.of_nat (length (c :: l))) n); [lia|].
    replace (Z.of_nat (length (c :: l)) =? 0) with false
      by (symmetry; apply Z.eqb_neq; simpl; lia).
    simpl. destruct He as [He | [Hs He]].
    + rewrite He. simpl. repeat split; auto. set_solver.
    + rewrite Hs. simpl. rewrite He. simpl. repeat split; auto. set_solver.
Qed.

Lemma estimation_failure_keeps_lock_witness :
  fst (serve (api_generate_summaries Scenario.env0 Scenario.world0 2 1)
         (Scenario.sys_of Scenario2.db_unpriced ∅))
    = Error500 "'NoneType' object has no attribute 'o1_cost_per_1m_input'" /\
  2 ∈ locks (snd (serve (api_generate_summaries Scenario.env0 Scenario.world0 2 1)
                    (Scenario.sys_of Scenario2.db_unpriced ∅))).
Proof.
  destruct (estimation_failure_keeps_lock Scenario.env0 Scenario.world0 2 1
              (Scenario.sys_of Scenario2.db_unpriced ∅)
              {| text_credits := NInt 1000; image_credits := NInt 1000;
                 audio_credits := NInt 1000 |}
              Scenario.story1
              (Exn AttributeError
                 "'NoneType' object has no attribute 'o1_cost_per_1m_input'"))
    as (Hs & _ & _).
  - vm_compute. reflexivity.
  - vm_compute. reflexivity.
  - vm_compute. reflexivity.
  - vm_compute. reflexivity.
  - vm_compute. set_solver.
  - destruct Hs as (Hr & Hl & _); [vm_compute; reflexivity|].
    split; [exact Hr | exact Hl].
Defined.

(** X10.  A rejected image request has already saved its prompt.  Both image
    endpoints store the submitted prompt on the story, respectively the
    chapter, and commit, before they price the image and check the balance:
    a request turned down for insufficient credits leaves the new prompt in
    the database (and nothing else changed: no row, nothing queued). *)
Theorem rejected_image_request_keeps_prompt w uid story_id s required available :
  idle s ->
  (forall prompt,
     let out := serve (api_generate_cover_image w uid story_id prompt) s in
     fst out = NotEnoughCredits required available ->
     database (snd out)
       = set_stories (alter (set_cover_image_prompt prompt) story_id)
           (database s) /\
     broker (snd out) = broker s) /\
  (forall chapter_id prompt,
     let out :=
       serve (api_generate_chapter_image w uid story_id chapter_id prompt) s in
     fst out = NotEnoughCredits required available ->
     exists i c,
       chapters (database s) !! i = Some c /\
       chapter_story c = story_id /\ ch_id c = chapter_id /\
       database (snd out)
         = set_chapters (alter (set_chapter_image_prompt prompt) i)
             (database s) /\
       broker (snd out) = broker s).
Proof.
  unfold idle. intros Hidle. destruct s as [d ss L o b bk].
  simpl in Hidle. subst ss. split.
  - intros prompt. exec; try discriminate; intros; simplify_eq/=. auto.
  - intros chapter_id prompt. exec; try discriminate; intros; simplify_eq/=.
    match goal with
    | H : find_index _ _ = Some ?i |- _ =>
        apply find_index_Some in H as (c & Hc & Hp); exists i, c
    end.
    apply andb_prop in Hp as [Hstory Hchapter].
    apply Z.eqb_eq in Hstory, Hchapter. auto.
Qed.

Lemma rejected_image_request_keeps_prompt_witness :
  cover_image_prompt <$>
    stories (database (snd (serve (api_generate_cover_image Scenario.world0 1 1
                                     "A lighthouse at dusk") Scenario.sys0)))
      !! 1
  = Some (Some "A lighthouse at dusk").
Proof.
  destruct (rejected_image_request_keeps_prompt Scenario.world0 1 1
              Scenario.sys0 (NFloat 4) None eq_refl) as [Hcover _].
  destruct (Hcover "A lighthouse at dusk") as [Hdb _];
    [vm_compute; reflexivity|].
  rewrite Hdb. vm_compute. reflexivity.
Defined.

(** ** The quote endpoints *)

Ltac unfold_quote :=
  unfold serve_quote, handle_quote, quote_of, predict_meta_cost,
    predict_arcs_cost, predict_chapter_guide_cost, predict_summaries_cost,
    predict_chapter_cost, predict_all_chapters_cost, predict_image_cost.

Lemma quote_reads_only env q s :
  snd (serve_quote (handle_quote env q) s) = snd (session_remove s).
Proof.
  destruct q; unfold_quote; unfold_M; simpl;
    repeat (case_match; simplify_eq/=); reflexivity.
Qed.

Lemma image_cost_reads_pricing d d' :
  pricing d' = pricing d -> calculate_image_cost d' = calculate_image_cost d.
Proof.
  unfold pricing, calculate_image_cost, token_cost_config_first,
    credit_config_first.
  intros [= -> ->]. reflexivity.
Qed.

Lemma quoted_is_charged env w req s T :
  fst (serve_quote (handle_quote env (quote_of req)) s) = Ok (QuoteTotal T) ->
  (forall t c, fst (serve (handle env w req) s) = Queued t c -> c = T) /\
  (forall required available,
     fst (serve (handle env w req) s) = NotEnoughCredits required available ->
     required = T).
Proof.
  destruct req; unfold_quote.
  all: exec; try discriminate; intros; simplify_eq/=.
  all: split; intros; simplify_eq/=; try reflexivity; try congruence.
  all: match goal with
       | H : calculate_image_cost (session ?s) = _,
         H' : calculate_image_cost ?d = _ |- _ =>
           lazymatch d with
           | session _ => fail
           | _ => rewrite (image_cost_reads_pricing (session s) d) in H'
                    by reflexivity
           end
       end; congruence.
Qed.

(** X11.  A quote changes nothing and is what dispatch goes by.  Serving any
    of the [predict_*] requests leaves the system as it was (no row, no
    lock, nothing queued, no event), whatever it answers; and when the quote
    for a generation is the total [T], the dispatch endpoint for the same
    generation on the same state prices it the same: if it queues the job,
    the predicted cost it logs and returns is [T], and if it rejects the
    request for insufficient credits, the amount it requires is [T]. *)
Theorem quote_agrees_with_dispatch env w req s :
  snd (serve_quote (handle_quote env (quote_of req)) s) = snd (session_remove s) /\
  (forall T,
     fst (serve_quote (handle_quote env (quote_of req)) s) = Ok (QuoteTotal T) ->
     (forall t c, fst (serve (handle env w req) s) = Queued t c -> c = T) /\
     (forall required available,
        fst (serve (handle env w req) s) = NotEnoughCredits required available ->
        required = T)).
Proof.
  split; [apply quote_reads_only | apply quoted_is_charged].
Qed.

(** ** The workers, path by path *)

#[local] Arguments py_get : simpl never.
#[local] Arguments py_len : simpl never.
#[local] Arguments py_iter : simpl never.
#[local] Arguments py_items : simpl never.
#[local] Arguments Py.sub : simpl never.

Ltac unfold_task :=
  unfold run_task, generate_image_task, generate_meta_task,
    generate_story_arcs_task, generate_summaries_task,
    generate_chapter_guide_task, generate_chapter_task,
    spend_credits, if_log_entry, update_log, put_image, loads.

(** Runs a task symbolically, by cases on every result it branches on. *)
Ltac exec_task :=
  unfold_task; unfold_M; simpl;
  repeat (first [progress unfold_M | progress unfold_task | case_match];
          simplify_eq/=).

(** X12.  When the model call fails, the job costs nothing.  If the provider
    call a task opens with raises (as wrapped by the handler of
    [src/openai_handler.py]), the task returns the error, the job's row, if
    the task found one, is marked [failed] with the error's message, and
    nothing else in the database or the image store changes: no credits are
    debited, nothing is stored.  For a chapter job the message logged is
    never the provider's: the wrapper's own handler fails on an unbound
    name, so every provider error is logged as that [NameError]. *)
Theorem provider_failure_costs_nothing env w task call s e :
  idle s ->
  model_call env w call = Raise e ->
  let out := work (run_task env w task call) s in
  fst out = Ok (ReturnedError (exn_msg e)) /\
  database (snd out)
    = match own_row task call (generation_logs (database s)) with
      | Some i => set_generation_logs (alter (failed_with e) i) (database s)
      | None => database s
      end /\
  bucket (snd out) = bucket s /\
  (forall story prompt number user tokens,
     call = ChapterTask story prompt number user tokens ->
     e = Exn NameError "name 'chapter_title' is not defined").
Proof.
  unfold idle, own_row. intros Hidle He. destruct s as [d ss L o b bk].
  simpl in Hidle. subst ss.
  destruct call; simpl in He |- *; unfold_task; unfold_M; simpl; rewrite He;
    simpl.
  all: destruct (find_index _ (generation_logs d)); simpl.
  all: repeat split; auto; intros; simplify_eq/=.
  all: unfold generate_chapter_content_from_prompt in He;
    destruct (chat_completion _ _ _); simplify_eq/=; reflexivity.
Qed.

Lemma provider_failure_costs_nothing_witness :
  fst (work (run_task Scenario.env0 Scenario.world_down "task-1"
               Scenario.meta_call) Scenario.after_meta_dispatch)
    = Ok (ReturnedError
            "Error generating characters and locations: Connection error.") /\
  users (database Scenario.after_failed_meta) = users Scenario.db0.
Proof.
  destruct (provider_failure_costs_nothing Scenario.env0 Scenario.world_down
              "task-1" Scenario.meta_call Scenario.after_meta_dispatch
              (Exn Exception_
                 "Error generating characters and locations: Connection error."))
    as (Hr & Hdb & _).
  - vm_compute. reflexivity.
  - vm_compute. reflexivity.
  - split; [exact Hr|]. unfold Scenario.after_failed_meta. rewrite Hdb.
    vm_compute. reflexivity.
Defined.

Lemma for_each_keeps {A} (I : Sys -> Prop) (l : list A) (f : A -> M unit) s r s' :
  (forall x, preserves I (f x)) -> I s -> for_each l f s = (r, s') -> I s'.
Proof.
  intros Hf HI Heq. pose proof (preserves_for_each I l f Hf s HI) as H.
  rewrite Heq in H. exact H.
Qed.

(** The loops of the text tasks fill in content; they leave the ledger as
    it is.  [loop_frame] derives this for every loop run in the context. *)
Ltac clear_loops :=
  repeat match goal with H : for_each _ _ _ = _ |- _ => clear H end.

Ltac body_frame :=
  unfold store_summary, add_character, add_location, add_guide_part;
  unfold_M; simpl;
  repeat (first [progress unfold_M | case_match]; simplify_eq/=);
  repeat match goal with
         | |- context [for_each ?l ?f ?s] =>
             destruct (for_each l f s) as [? ?] eqn:?
         end;
  loop_frame;
  unfold ledger in *; simpl in *; (congruence)
with loop_frame :=
  repeat match goal with
  | H : for_each ?l ?f ?s0 = (?r, ?s1) |- _ =>
      let HI := fresh "HI" in
      assert (HI : forall x, preserves (fun s => ledger s = ledger s0) (f x));
      [ clear_loops;
        let x := fresh "x" in let s' := fresh "s'" in
        let Hs := fresh "Hs" in
        intros x s' Hs;
        lazymatch type of x with
        | prod _ _ => destruct x
        | _ => idtac
        end;
        revert Hs; body_frame
      | apply (fun Hf => for_each_keeps (fun s => ledger s = ledger s0)
                           l f s0 r s1 Hf eq_refl H) in HI;
        clear H ]
  end.




(** X14.  Billed, then failed.  The chapter task stores the text on the row
    whose [chapter_number] is the one it was given, if there is one, but
    bills in any case and only then reads the row's title.  When no chapter
    of the story has that number (the dispatcher picks its chapter by
    position, the task by number), nothing is stored, the user is debited
    the reconciled cost, and the exception raised on the missing row turns
    the job's row from [succeeded] to [failed], its real cost still set. *)
Theorem unmatched_chapter_job_is_billed_and_fails
    env w task story prompt number user tokens s text a u balance :
  idle s ->
  generate_chapter_content_from_prompt env w prompt = Ok text ->
  find_index (fun c => (chapter_story c =? story) && (number_of c =? number))
             (chapters (database s)) = None ->
  calculate_actual_chapter_cost env (database s) tokens text = Ok a ->
  users (database s) !! user = Some u ->
  Py.sub (text_credits u) (NInt (total_actual_credit_cost a)) = Ok balance ->
  let e := Exn AttributeError "'NoneType' object has no attribute 'title'" in
  let out :=
    work (generate_chapter_task env w task story prompt number user tokens) s in
  fst out = Ok (ReturnedError (exn_msg e)) /\
  users (database (snd out)) = <[user := debited u balance]> (users (database s)) /\
  chapters (database (snd out)) = chapters (database s) /\
  generation_logs (database (snd out))
    = match own_row task (ChapterTask story prompt number user tokens)
              (generation_logs (database s)) with
      | Some i =>
          alter (fun r => failed_with e (succeeded_with a r)) i
            (generation_logs (database s))
      | None => generation_logs (database s)
      end.
Proof.
  intros Hidle Htext Hnone Hcost Hu Hsub e out. subst e out.
  unfold idle, own_row in *. destruct s as [d ss L o b bk]. simpl in *.
  subst ss.
  unfold_task. unfold_M. simpl. rewrite Htext. simpl. rewrite Hnone. simpl.
  rewrite Hcost. simpl. rewrite Hu. simpl. rewrite Hsub. simpl.
  destruct (find_index _ (generation_logs d)) as [i|]; simpl.
  - repeat split. rewrite list_alter_alter_eq. reflexivity.
  - repeat split.
Qed.

Lemma unmatched_chapter_job_is_billed_and_fails_witness :
  fst (work (generate_chapter_task Scenario.env0 Scenario.world0 "task-9" 1
               "Write chapter seven." 7 2 3000) Scenario.sys0)
    = Ok (ReturnedError "'NoneType' object has no attribute 'title'") /\
  text_credits <$>
    users (database (snd (work (generate_chapter_task Scenario.env0
                                  Scenario.world0 "task-9" 1
                                  "Write chapter seven." 7 2 3000)
                            Scenario.sys0))) !! 2
    = Some (NInt 906).
Proof.
  edestruct (unmatched_chapter_job_is_billed_and_fails Scenario.env0
               Scenario.world0 "task-9" 1 "Write chapter seven." 7 2 3000
               Scenario.sys0) as (Hr & Hu & _).
  - reflexivity.
  - vm_compute. reflexivity.
  - vm_compute. reflexivity.
  - vm_compute. reflexivity.
  - vm_compute. reflexivity.
  - vm_compute. reflexivity.
  - split; [exact Hr|]. rewrite Hu. vm_compute. reflexivity.
Defined.

(** X15.  A failed job can still destroy content.  The text tasks' [except]
    blocks do not roll back: they mark the row and commit, and with it
    whatever the body had pending.  For the story-arcs task: when the
    model's reply parses to a value that cannot be iterated, the arcs of the
    story have already been deleted in the session, and if the task found
    its row the failure handler commits that deletion, so the job fails, is
    not billed, and the story's arcs are gone; if it found no row, nothing
    is committed and the arcs stay. *)
Theorem failed_arcs_job_deletes_the_arcs
    env w task story prompt user tokens s text v e st :
  idle s ->
  generate_story_arcs_from_prompt env w prompt = Ok text ->
  json_loads env text = Some v ->
  py_iter v = Raise e ->
  stories (database s) !! story = Some st ->
  let out :=
    work (generate_story_arcs_task env w task story prompt user tokens) s in
  fst out = Ok (ReturnedError (exn_msg e)) /\
  users (database (snd out)) = users (database s) /\
  match own_row task (StoryArcsTask story prompt user tokens)
          (generation_logs (database s)) with
  | Some i =>
      story_arcs (database (snd out))
        = filter (fun a => arc_story a ≠ st_id st) (story_arcs (database s)) /\
      generation_logs (database (snd out))
        = alter (failed_with e) i (generation_logs (database s))
  | None => database (snd out) = database s
  end.
Proof.
  intros Hidle Htext Hjson Hiter Hst out. subst out.
  unfold idle, own_row in *. destruct s as [d ss L o b bk]. simpl in *.
  subst ss.
  unfold_task. unfold_M. simpl. rewrite Htext. simpl. rewrite Hjson. simpl.
  rewrite Hst. simpl. rewrite Hiter. simpl.
  destruct (find_index _ (generation_logs d)) as [i|]; simpl; auto.
Qed.

Lemma failed_arcs_job_deletes_the_arcs_witness :
  (arc_story <$> story_arcs Scenario2.db_with_arcs) = [1; 2; 1] /\
  (arc_story <$>
     story_arcs (database (snd
       (work (generate_story_arcs_task Scenario2.env_scalar Scenario.world0
                "task-5" 1 "Outline the arcs." 2 3000)
          (Scenario.sys_of Scenario2.db_with_arcs ∅))))) = [2] /\
  (status <$>
     generation_logs (database (snd
       (work (generate_story_arcs_task Scenario2.env_scalar Scenario.world0
                "task-5" 1 "Outline the arcs." 2 3000)
          (Scenario.sys_of Scenario2.db_with_arcs ∅))))) = ["failed"].
Proof.
  split; [reflexivity|].
  destruct (failed_arcs_job_deletes_the_arcs Scenario2.env_scalar
              Scenario.world0 "task-5" 1 "Outline the arcs." 2 3000
              (Scenario.sys_of Scenario2.db_with_arcs ∅)
              Scenario.empty_meta_text (JNum (NInt 5))
              (Exn TypeError "'int' object is not iterable") Scenario.story1)
    as (_ & _ & Hrow).
  - reflexivity.
  - reflexivity.
  - reflexivity.
  - reflexivity.
  - reflexivity.
  - replace (own_row "task-5" (StoryArcsTask 1 "Outline the arcs." 2 3000)
               (generation_logs
                  (database (Scenario.sys_of Scenario2.db_with_arcs ∅))))
      with (Some 0%nat) in Hrow by (vm_compute; reflexivity).
    destruct Hrow as [Harcs Hlogs]. rewrite Harcs, Hlogs.
    split; vm_compute; reflexivity.
Defined.

(** X16.  An image job whose story or chapter is gone stays pending.  When
    the image was generated and downloaded but the story (for a cover) or
    the chapter (for a chapter image) no longer exists, the image task
    returns an error from inside its [try] block: nothing is uploaded or
    debited and the lock is released, but no handler runs, so the database,
    the job's row included, is exactly as before and the job stays
    [pending]. *)
Theorem image_job_without_target_stays_pending
    w task story key prompt user cost chapter s url data :
  idle s ->
  images_generate w prompt = Ok url ->
  requests_get w url = Ok data ->
  match chapter with
  | None => stories (database s) !! story = None
  | Some cid =>
      find_index (fun c => (chapter_story c =? story) && (ch_id c =? cid))
                 (chapters (database s)) = None
  end ->
  let out :=
    work (generate_image_task w task story key prompt user cost chapter) s in
  fst out = Ok (ReturnedError (match chapter with
                               | None => "Story not found."
                               | Some _ => "Chapter not found."
                               end)) /\
  database (snd out) = database s /\
  bucket (snd out) = bucket s /\
  locks (snd out) = locks s ∖ {[user]}.
Proof.
  intros Hidle Hgen Hget Hgone out. subst out.
  unfold idle in *. destruct s as [d ss L o b bk]. simpl in *. subst ss.
  unfold_task. unfold generate_image_from_prompt. unfold_M. simpl.
  rewrite Hgen. simpl. rewrite Hget. simpl.
  destruct chapter as [cid|]; simpl; rewrite Hgone; simpl; auto.
Qed.

Lemma image_job_without_target_stays_pending_witness :
  fst (work (generate_image_task Scenario.world0 "task-2" 9
               "stories/9/cover.jpg" "A lighthouse at dusk" 2 (NFloat 4) None)
         Scenario.after_cover_dispatch)
    = Ok (ReturnedError "Story not found.") /\
  (status <$> generation_logs (database (snd
     (work (generate_image_task Scenario.world0 "task-2" 9
              "stories/9/cover.jpg" "A lighthouse at dusk" 2 (NFloat 4) None)
        Scenario.after_cover_dispatch))))
    = ["pending"; "pending"].
Proof.
  destruct (image_job_without_target_stays_pending Scenario.world0 "task-2" 9
              "stories/9/cover.jpg" "A lighthouse at dusk" 2 (NFloat 4) None
              Scenario.after_cover_dispatch "https://images.example/1.png"
              "JPEG") as (Hr & Hdb & _).
  - vm_compute. reflexivity.
  - reflexivity.
  - reflexivity.
  - vm_compute. reflexivity.
  - split; [exact Hr|]. rewrite Hdb. vm_compute. reflexivity.
Defined.

(** ** Start-up seeding *)

Lemma seed_pricing_spec s :
  snd (seed_pricing s)
  = let d := session s in
    let d1 := match token_cost_configs d with
              | [] => set_token_cost_configs
                        (fun _ => [Scenario.seeded_token_cost_config]) d
              | _ => d
              end in
    let d2 := match credit_configs d1 with
              | [] => set_credit_configs (fun _ => Scenario.seeded_credit_configs) d1
              | _ => d1
              end in
    {| database := d2; session := d2; locks := locks s; outbox := outbox s;
       broker := broker s; bucket := bucket s |}.
Proof.
  destruct s as [d ss L o b bk]. unfold seed_pricing. unfold_M. simpl.
  destruct ss as [u st ch cs ls ar gs gl tc cc]. simpl.
  destruct tc as [|t tc]; destruct cc as [|c cc]; reflexivity.
Qed.

(** X17.  Start-up seeding fills empty pricing tables only, and prices
    everything.  The seeding gives an empty [TokenCostConfig] table its
    default row and an empty [CreditConfig] table its eleven default rows;
    a table that has any row is left exactly as it is, and no other table
    changes, so running the start-up again changes nothing.  After it the
    pricing row exists, and if the [CreditConfig] table was empty every
    action an estimator looks up has its row: the fallback modifier 2 is
    not used for any kind, nor for images. *)
Theorem seeding_fills_empty_pricing_tables s :
  let s' := snd (seed_pricing s) in
  snd (seed_pricing s') = s' /\
  (token_cost_configs (session s) <> [] ->
   token_cost_configs (database s') = token_cost_configs (session s)) /\
  (credit_configs (session s) <> [] ->
   credit_configs (database s') = credit_configs (session s)) /\
  is_Some (token_cost_config_first (database s')) /\
  (credit_configs (session s) = [] ->
   is_Some (credit_config_first (database s') "image") /\
   forall k,
     is_Some (credit_config_first (database s') (input_action k)) /\
     is_Some (credit_config_first (database s') (output_action k))).
Proof.
  intros s'. subst s'. rewrite !seed_pricing_spec.
  destruct s as [d ss L o b bk]. simpl.
  destruct ss as [u st ch cs ls ar gs gl tc cc]. simpl.
  destruct tc as [|t tc]; destruct cc as [|c cc]; simpl;
    unfold token_cost_config_first; simpl.
  all: repeat split; try congruence; try (eexists; reflexivity).
  all: destruct k; eexists; unfold credit_config_first; simpl; reflexivity.
Qed.

(** ** The bulk dispatch *)





(** ** From a job to the next request *)









(** ** The ledger *)

Lemma le_int (x y : Z) : Py.le (NInt x) (NInt y) = (x <=? y).
Proof.
  unfold Py.le, Py.exact_of, Py.compare_fin. simpl.
  rewrite !Z.mul_1_r. unfold Z.leb. destruct (x ?= y); reflexivity.
Qed.

(** X21.  A debit that was checked leaves no debt.  On integer balances the
    check [can_spend_credits] is exact (it holds exactly when the cost is at
    most the balance of the named credit type), and [spend_credits] takes
    the cost from that balance of that user only and commits; so a debit of
    an amount that passed the check leaves a balance of at least zero.  A
    credit type other than the three known ones never passes the check, and
    spending on it changes no balance. *)
Theorem checked_debit_leaves_no_debt uid credit_type u c s :
  users (session s) !! uid = Some u ->
  let s' := snd (spend_credits uid credit_type (NInt c) s) in
  (forall b,
     credits_of credit_type u = Some (NInt b) ->
     (can_spend_credits u credit_type (NInt c) = true <-> c <= b) /\
     exists u',
       users (database s') = <[uid := u']> (users (session s)) /\
       credits_of credit_type u' = Some (NInt (b - c)) /\
       (forall other, other <> credit_type ->
          credits_of other u' = credits_of other u)) /\
  (credits_of credit_type u = None ->
   can_spend_credits u credit_type (NInt c) = false /\
   users (database s') = users (session s)).
Proof.
  intros Hu s'. subst s'. unfold credits_of, can_spend_credits, spend_credits.
  unfold_M. simpl. rewrite Hu. simpl. unfold Py.ge.
  destruct (String.eqb_spec credit_type "text") as [->|Ht]; simpl.
  { split; [|discriminate]. intros b [= Hb]. rewrite Hb, le_int.
    split; [apply Z.leb_le|]. unfold Py.sub. eexists. split; [reflexivity|].
    simpl. split; [reflexivity|]. intros other Ho.
    destruct (String.eqb_spec other "text"); [contradiction|reflexivity]. }
  destruct (String.eqb_spec credit_type "image") as [->|Hi]; simpl.
  { split; [|discriminate]. intros b [= Hb]. rewrite Hb, le_int.
    split; [apply Z.leb_le|]. unfold Py.sub. eexists. split; [reflexivity|].
    simpl. split; [reflexivity|]. intros other Ho.
    destruct (String.eqb_spec other "text"); [reflexivity|].
    destruct (String.eqb_spec other "image"); [contradiction|reflexivity]. }
  destruct (String.eqb_spec credit_type "audio") as [->|Ha]; simpl.
  { split; [|discriminate]. intros b [= Hb]. rewrite Hb, le_int.
    split; [apply Z.leb_le|]. unfold Py.sub. eexists. split; [reflexivity|].
    simpl. split; [reflexivity|]. intros other Ho.
    destruct (String.eqb_spec other "text"); [reflexivity|].
    destruct (String.eqb_spec other "image"); [reflexivity|].
    destruct (String.eqb_spec other "audio"); [contradiction|reflexivity]. }
  split; [discriminate | auto].
Qed.

Lemma checked_debit_leaves_no_debt_witness :
  can_spend_credits {| text_credits := NInt 5; image_credits := NInt 1;
                       audio_credits := NInt 0 |} "text" (NInt 5) = true /\
  text_credits <$>
    users (database (snd (spend_credits 1 "text" (NInt 5) Scenario.sys0))) !! 1
    = Some (NInt 0).
Proof.
  destruct (checked_debit_leaves_no_debt 1 "text"
              {| text_credits := NInt 5; image_credits := NInt 1;
                 audio_credits := NInt 0 |} 5 Scenario.sys0 eq_refl)
    as [Hknown _].
  destruct (Hknown 5 eq_refl) as [Hcheck (u' & Hdb & Hbal & _)].
  split; [apply Hcheck; lia|].
  rewrite Hdb, lookup_insert_eq. simpl. 
  injection Hbal as ->. reflexivity.
Defined.

(** X22.  An image job that succeeds is billed the quoted cost.  The image
    task takes as its cost the figure its dispatch computed.  When it
    returns success, the downloaded image is in the store under the job's
    key, the key is on the story (for a cover) or on the chapter (for a
    chapter image), the user's image credits have gone down by exactly that
    figure, nothing else in the balances changed, and the job's row, if the
    task found it, is [succeeded] with the model recorded. *)
Theorem successful_image_job_is_billed_the_quoted_cost
    w task story key prompt user cost chapter s :
  idle s ->
  let out :=
    work (generate_image_task w task story key prompt user cost chapter) s in
  fst out = Ok ReturnedSuccess ->
  exists u balance url data,
    images_generate w prompt = Ok url /\
    requests_get w url = Ok data /\
    bucket (snd out) = <[key := data]> (bucket s) /\
    users (database s) !! user = Some u /\
    Py.sub (image_credits u) cost = Ok balance /\
    users (database (snd out))
      = <[user := image_debited u balance]> (users (database s)) /\
    match chapter with
    | None =>
        stories (database (snd out))
          = alter (set_cover_image_key key) story (stories (database s)) /\
        chapters (database (snd out)) = chapters (database s)
    | Some cid =>
        exists i,
          find_index (fun c => (chapter_story c =? story) && (ch_id c =? cid))
                     (chapters (database s)) = Some i /\
          chapters (database (snd out))
            = alter (set_chapter_image_key key) i (chapters (database s)) /\
          stories (database (snd out)) = stories (database s)
    end /\
    generation_logs (database (snd out))
      = match own_row task (ImageTask story key prompt user cost chapter)
                (generation_logs (database s)) with
        | Some i => alter image_succeeded i (generation_logs (database s))
        | None => generation_logs (database s)
        end.
Proof.
  intros Hidle out. subst out. unfold idle, own_row in *.
  destruct s as [d ss L o b bk]. simpl in Hidle. subst ss.
  exec_task; try discriminate; intros _.
  all: unfold generate_image_from_prompt in *; repeat case_match;
    simplify_eq/=.
  all: do 4 eexists; repeat split; eauto.
Qed.

Lemma successful_image_job_is_billed_the_quoted_cost_witness :
  image_credits <$> users (database Scenario.after_image_task) !! 2
    = Some (NFloat 996).
Proof.
  destruct (successful_image_job_is_billed_the_quoted_cost Scenario.world0
              "task-2" 1 "stories/1/cover.jpg" "A lighthouse at dusk" 2
              (NFloat 4) None Scenario.after_cover_dispatch)
    as (u & balance & url & data & _ & _ & _ & Hu & Hsub & Hdb & _).
  - vm_compute. reflexivity.
  - vm_compute. reflexivity.
  - unfold Scenario.after_image_task. rewrite Hdb, lookup_insert_eq. simpl.
    f_equal. 
    assert (u = {| text_credits := NInt 1000; image_credits := NInt 1000;
                   audio_credits := NInt 1000 |}) as ->
      by (vm_compute in Hu; congruence).
    vm_compute in Hsub. congruence.
Defined.

(** ** The administrator's forms *)

Ltac unfold_admin :=
  unfold serve_admin, update_token_config, adjust_credits.

(** X23.  The pricing form rewrites the first pricing row, and cannot create
    it.  With a pricing row present, [update_token_config] replaces the
    seven prices of the first row (the one every estimator reads) and
    leaves everything else as it is, and a later start-up seeding does not
    put the defaults back.  With the table empty, the branch meant to create
    the row reads a name that is not bound: the request ends in a
    [NameError] and the database is unchanged, so the deployment stays
    unpriced. *)
Theorem pricing_form_rewrites_the_first_row prices s :
  idle s ->
  let out := serve_admin (update_token_config prices) s in
  match token_cost_configs (database s) with
  | [] =>
      fst out = Raise (Exn NameError "name 'o1_cost_per_token' is not defined") /\
      database (snd out) = database s
  | old :: rest =>
      fst out = Ok (Redirected "Token configuration updated successfully.") /\
      database (snd out)
        = set_token_cost_configs (fun _ => prices :: rest) (database s) /\
      token_cost_config_first (database (snd out)) = Some prices /\
      token_cost_configs (database (snd (seed_pricing (snd out))))
        = prices :: rest
  end.
Proof.
  intros Hidle out. subst out. unfold idle in Hidle.
  destruct s as [d ss L o b bk].
  simpl in Hidle. subst ss. rewrite seed_pricing_spec.
  unfold_admin. unfold token_cost_config_first. unfold_M. simpl.
  destruct (token_cost_configs d) as [|old rest] eqn:Htc; simpl.
  - auto.
  - unfold set_token_cost_configs. simpl. rewrite Htc. simpl.
    repeat split. destruct (credit_configs d); reflexivity.
Qed.

Lemma pricing_form_rewrites_the_first_row_witness :
  fst (serve_admin (update_token_config Scenario.seeded_token_cost_config)
         (Scenario.sys_of Scenario2.db_unpriced ∅))
    = Raise (Exn NameError "name 'o1_cost_per_token' is not defined") /\
  token_cost_config_first
    (database (snd (serve_admin
       (update_token_config Scenario.seeded_token_cost_config)
       (Scenario.sys_of Scenario.db_cheap ∅))))
    = Some Scenario.seeded_token_cost_config.
Proof.
  split.
  - apply (pricing_form_rewrites_the_first_row
             Scenario.seeded_token_cost_config
             (Scenario.sys_of Scenario2.db_unpriced ∅) eq_refl).
  - apply (pricing_form_rewrites_the_first_row
             Scenario.seeded_token_cost_config
             (Scenario.sys_of Scenario.db_cheap ∅) eq_refl).
Defined.


